(** * OpenFrontIO WebGL territory layer: tile words, palette, texture buffers
      and uniform upload.

    A shallow embedding of
      - the fragment shader of [WebGLTerritoryLayer] (GLSL ES 3.00),
      - [TextureData] and [ColorPalette] (CPU mirrors of GPU textures),
      - the two [setUniform] implementations and [UniformSetter.set],
    followed by the properties proved about them. *)

From Stdlib Require Import ZArith QArith Qround Lia Bool.
From stdpp Require Import base list strings pretty gmap.

Local Open Scope Z_scope.

(* ===================================================================== *)
(** * JavaScript numbers                                                  *)
(* ===================================================================== *)

(** A JS [number] is either NaN or a finite value.  Finite values are kept
    as exact rationals: rounding of IEEE doubles is not modelled, and no
    property below depends on it.  [undefined] is [None] in
    [option number]. *)
Module JS.

Inductive number : Type :=
  | NaN
  | Num (q : Q).

Definition of_Z (z : Z) : number := Num (inject_Z z).

  (** Truncation of a rational toward zero. *)
Definition Qtrunc (q : Q) : Z := Z.quot (Qnum q) (Zpos (Qden q)).

  (** ECMAScript ToUint8: NaN becomes 0, otherwise truncate and wrap
      modulo 2^8.  This is the conversion of a store into a Uint8Array. *)
Definition ToUint8 (n : number) : Z :=
    match n with
    | NaN => 0
    | Num q => Qtrunc q mod 256
    end.

  (** ECMAScript ToUint16, the conversion of a store into a Uint16Array. *)
Definition ToUint16 (n : number) : Z :=
    match n with
    | NaN => 0
    | Num q => Qtrunc q mod 65536
    end.

  (** ECMAScript ToInt32, as used by [x | 0]. *)
Definition ToInt32 (n : number) : Z :=
    match n with
    | NaN => 0
    | Num q =>
        let m := Qtrunc q mod 4294967296 in
        if 2147483648 <=? m then m - 4294967296 else m
    end.

  (** [x | 0] where [x] may be [undefined]. *)
Definition or0 (x : option number) : number :=
    match x with
    | None => of_Z 0
    | Some n => of_Z (ToInt32 n)
    end.

  (** [Math.floor(x)] where [x] may be [undefined]. *)
Definition floor (x : option number) : number :=
    match x with
    | None | Some NaN => NaN
    | Some (Num q) => of_Z (Qfloor q)
    end.

  (** [x / 255.0]. *)
Definition div255 (x : number) : number :=
    match x with
    | NaN => NaN
    | Num q => Num (q / 255)%Q
    end.

  (** [x * y]; a product with NaN (or with [undefined], which converts to
      NaN) is NaN. *)
Definition mul (x y : number) : number :=
    match x, y with
    | Num a, Num b => Num (a * b)%Q
    | _, _ => NaN
    end.

Definition add (x y : number) : number :=
    match x, y with
    | Num a, Num b => Num (a + b)%Q
    | _, _ => NaN
    end.

  (** ToNumber of a possibly undefined operand. *)
Definition of_undef (x : option number) : number :=
    match x with
    | None => NaN
    | Some n => n
    end.

  (** JS truthiness of a number: 0 and NaN are falsy. *)
Definition truthy (n : number) : bool :=
    match n with
    | NaN => false
    | Num q => negb (Qnum q =? 0)
    end.

  (** [Math.max(0, x)] *)
Definition max0 (x : number) : number :=
    match x with
    | NaN => NaN
    | Num q => if Qle_bool q 0 then of_Z 0 else Num q
    end.

(** [x < 0]; false for NaN. *)
Definition lt0 (x : number) : bool :=
    match x with
    | NaN => false
    | Num q => Qnum q <? 0
    end.

(** [x === z] for an integer literal [z]. *)
Definition eq_lit (x : number) (z : Z) : bool :=
    match x with
    | NaN => false
    | Num q => Qeq_bool q (inject_Z z)
    end.

(** [b ? 1 : 0] *)
Definition of_bool (b : bool) : number := of_Z (if b then 1 else 0).

(** The integer a number denotes when it is used as an element index of
      a typed array: only integral values are valid indices. *)
Definition as_index (n : number) : option Z :=
    match n with
    | NaN => None
    | Num q => if Qnum q mod Zpos (Qden q) =? 0
               then Some (Qnum q / Zpos (Qden q)) else None
    end.

End JS.

(* ===================================================================== *)
(** * The fragment shader of WebGLTerritoryLayer                          *)
(* ===================================================================== *)

Module Shader.

  (** GLSL vectors.  Float components are exact rationals. *)
Record vec3 : Type := mkvec3 { v3r : Q; v3g : Q; v3b : Q }.
Record vec4 : Type := mkvec4 { v4r : Q; v4g : Q; v4b : Q; v4a : Q }.
Record ivec2 : Type := mkivec2 { ix : Z; iy : Z }.

  (** [vec4(s)] *)
Definition vec4_splat (s : Q) : vec4 := mkvec4 s s s s.
  (** [vec4(v.rgb, a)] *)
Definition vec4_rgb_a (v : vec3) (a : Q) : vec4 :=
    mkvec4 (v3r v) (v3g v) (v3b v) a.
Definition rgb (v : vec4) : vec3 := mkvec3 (v4r v) (v4g v) (v4b v).

  (** [mix(x, y, a) = x * (1 - a) + y * a], componentwise. *)
Definition mixQ (x y a : Q) : Q := (x * (1 - a) + y * a)%Q.
Definition mix (x y : vec4) (a : Q) : vec4 :=
    mkvec4 (mixQ (v4r x) (v4r y) a) (mixQ (v4g x) (v4g y) a)
           (mixQ (v4b x) (v4b y) a) (mixQ (v4a x) (v4a y) a).

  (** An unsigned-integer single-channel texture (R16UI): row-major
      texel words. *)
Record usampler2D : Type := mkUTex {
    utex_width : Z;
    utex_height : Z;
    utex_words : list Z
  }.

  (** An RGBA8 texture: row-major bytes, four per texel. *)
Record sampler2D : Type := mkTex {
    tex_width : Z;
    tex_height : Z;
    tex_bytes : list Z
  }.

Definition in_bounds (w h : Z) (p : ivec2) : bool :=
    (0 <=? ix p) && (ix p <? w) && (0 <=? iy p) && (iy p <? h).

  (** The word stored for texel [p], if [p] addresses one. *)
Definition stored_word (t : usampler2D) (p : ivec2) : option Z :=
    if in_bounds (utex_width t) (utex_height t) p
    then utex_words t !! Z.to_nat (iy p * utex_width t + ix p)
    else None.

  (** [texelFetch(tex, p, 0).r] on the integer texture.  A fetch outside
      the texture is undefined in GLSL ES 3.00; it is modelled as
      returning zero. *)
Definition texelFetch_u (t : usampler2D) (p : ivec2) : Z :=
    default 0 (stored_word t p).

Definition byte_at (t : sampler2D) (i : Z) : Q :=
    (inject_Z (default 0%Z (tex_bytes t !! Z.to_nat i)) / 255)%Q.

  (** [texelFetch(tex, p, 0)] on the normalized RGBA8 texture. *)
Definition texelFetch (t : sampler2D) (p : ivec2) : vec4 :=
    if in_bounds (tex_width t) (tex_height t) p then
      let o := (iy p * tex_width t + ix p) * 4 in
      mkvec4 (byte_at t o) (byte_at t (o + 1))
             (byte_at t (o + 2)) (byte_at t (o + 3))
    else vec4_splat 0.

  (** The uniforms of the program. *)
Record Uniforms : Type := mkUniforms {
    u_tileTexture : usampler2D;
    u_hasFocusedPlayer : Q;
    u_focusedPlayerId : Z;
    u_paletteTexture : sampler2D;
    u_territoryAlpha : Q;
    u_borderAlpha : Q;
    u_focusedBorderColor : vec3;
    u_falloutColor : vec3;
    debug_draw_palette : bool;
    debug_draw_tiles : bool
  }.

Definition UNOWNED_TERRITORY_ID : Z := 0.
Definition OWNER_ID_MASK : Z := Z.shiftl 1 12 - 1.
Definition FALLOUT_MASK : Z := Z.shiftl 1 13.
Definition DEFENSE_BONUS_MASK : Z := Z.shiftl 1 14.

Record TileData : Type := mkTileData {
    ownerId : Z;
    isFallout : bool;
    hasDefenseBonus : bool
  }.

Definition DecodeTileData (bits : Z) : TileData :=
    {| ownerId := Z.land bits OWNER_ID_MASK;
       isFallout := negb (Z.land bits FALLOUT_MASK =? 0);
       hasDefenseBonus := negb (Z.land bits DEFENSE_BONUS_MASK =? 0) |}.

Section Fragment.
Variable U : Uniforms.
    (** The interpolated [v_texCoord] enters every function of the shader
        only through the texel it addresses,
        [ivec2(floor(v_texCoord * vec2(textureSize(u_tileTexture, 0))))];
        the fragment is therefore given by that texel coordinate. *)
Variable frag : ivec2.

    (** [texture(u_tileTexture, v_texCoord).r]: integer textures are
        sampled unfiltered, i.e. at the addressed texel. *)
Definition ThisTile : TileData :=
      let bits := texelFetch_u (u_tileTexture U) frag in
      DecodeTileData bits.

Definition offset (p : ivec2) (dx dy : Z) : ivec2 :=
      mkivec2 (ix p + dx) (iy p + dy).

Definition DebugDrawTileData (inColor : vec4) : vec4 :=
      let debugTileSize := 4 in
      let pixelCoord := frag in
      let stipple :=
        Z.land (Z.lxor (Z.shiftr (iy pixelCoord) debugTileSize)
                       (Z.shiftr (ix pixelCoord) debugTileSize)) 1 in
      if stipple =? 0 then
        let tileData := ThisTile in
        let debugColor :=
          mkvec4 (inject_Z (ownerId tileData) / 255)%Q
                 (if isFallout tileData then 1 else 0)%Q
                 (if hasDefenseBonus tileData then 1 else 0)%Q
                 1%Q in
        mix inColor debugColor (1 # 2)
      else inColor.

Definition isBorder (texel_xy : ivec2) (ownerId : Z) : bool :=
      let t := u_tileTexture U in
      let n0 := Z.land (texelFetch_u t (offset texel_xy (-1) 0)) OWNER_ID_MASK in
      let n1 := Z.land (texelFetch_u t (offset texel_xy 1 0)) OWNER_ID_MASK in
      let n2 := Z.land (texelFetch_u t (offset texel_xy 0 (-1))) OWNER_ID_MASK in
      let n3 := Z.land (texelFetch_u t (offset texel_xy 0 1)) OWNER_ID_MASK in
      let m0 := n0 =? ownerId in
      let m1 := n1 =? ownerId in
      let m2 := n2 =? ownerId in
      let m3 := n3 =? ownerId in
      negb (m0 && m1 && m2 && m3).

Definition PLAYER_COLOR_TERRITORY : Z := 0.
Definition PLAYER_COLOR_TEAM : Z := 1.
Definition PLAYER_COLOR_BORDER : Z := 3.
Definition PLAYER_COLOR_DEFENSE_BONUS_BORDER_LIGHT : Z := 4.
Definition PLAYER_COLOR_DEFENSE_BONUS_BORDER_DARK : Z := 5.

Definition getPlayerColor (ownerId row : Z) : vec4 :=
      let pixelCoord := mkivec2 ownerId row in
      let paletteColor := texelFetch (u_paletteTexture U) pixelCoord in
      let alpha := if PLAYER_COLOR_BORDER <=? row
                   then u_borderAlpha U else u_territoryAlpha U in
      vec4_rgb_a (rgb paletteColor) alpha.

Definition calculateDefendedBorderColor (ownerId : Z) : vec4 :=
      let pixelCoord := frag in
      let stipple := Z.land (Z.lxor (iy pixelCoord) (ix pixelCoord)) 1 in
      let paletteRow := if stipple =? 0
                        then PLAYER_COLOR_DEFENSE_BONUS_BORDER_LIGHT
                        else PLAYER_COLOR_DEFENSE_BONUS_BORDER_DARK in
      getPlayerColor ownerId paletteRow.

    (** [uint(i)] of a 32-bit int. *)
Definition uint_of_int (i : Z) : Z := i mod 4294967296.

Definition calculateBorderColor (tileData : TileData) : vec4 :=
      if negb (Qle_bool (u_hasFocusedPlayer U) 0)
         && (ownerId tileData =? uint_of_int (u_focusedPlayerId U))
      then vec4_rgb_a (u_focusedBorderColor U) (u_territoryAlpha U)
      else if hasDefenseBonus tileData
      then calculateDefendedBorderColor (ownerId tileData)
      else getPlayerColor (ownerId tileData) PLAYER_COLOR_BORDER.

Definition territoryColor : vec4 :=
      let thisTile := ThisTile in
      let result :=
        if isFallout thisTile then
          vec4_rgb_a (u_falloutColor U) (u_territoryAlpha U)
        else if ownerId thisTile =? UNOWNED_TERRITORY_ID then
          vec4_splat 0
        else if isBorder frag (ownerId thisTile) then
          calculateBorderColor thisTile
        else
          getPlayerColor (ownerId thisTile) PLAYER_COLOR_TERRITORY in
      if debug_draw_tiles U then DebugDrawTileData result else result.

Definition DebugDrawPalette (inColor : vec4) : vec4 :=
      let debugTileSize := 1 in
      let pixelCoord := mkivec2 (Z.shiftr (ix frag) debugTileSize)
                                (Z.shiftr (iy frag) debugTileSize) in
      let p := u_paletteTexture U in
      if negb (in_bounds (tex_width p) (tex_height p) pixelCoord)
      then inColor
      else vec4_rgb_a (rgb (texelFetch p pixelCoord)) 1.

Definition main : vec4 :=
      let fragColor := territoryColor in
      if debug_draw_palette U then DebugDrawPalette fragColor else fragColor.

End Fragment.

  (** Modelled from the spec: the packing of a tile word, which the source
      tree only consumes (the owner buffer arrives pre-encoded).  Bits 0-11
      hold the owner, bit 13 the fallout flag, bit 14 the defense flag. *)
Definition EncodeTileWord (owner : Z) (fallout defense : bool) : Z :=
    Z.lor (Z.lor owner (Z.shiftl (Z.b2z fallout) 13))
          (Z.shiftl (Z.b2z defense) 14).

End Shader.

(* ===================================================================== *)
(** * WebGL constants and typed arrays                                    *)
(* ===================================================================== *)

Module GL.

(** The [GLenum] constants the code names.  [OTHER c] is any other
    numeric value. *)
Inductive GLenum : Type :=
| FLOAT | FLOAT_VEC2 | FLOAT_VEC3 | FLOAT_VEC4
| INT | INT_VEC2 | INT_VEC3 | INT_VEC4
| BOOL | BOOL_VEC2 | BOOL_VEC3 | BOOL_VEC4
| FLOAT_MAT2 | FLOAT_MAT3 | FLOAT_MAT4
| SAMPLER_2D | SAMPLER_CUBE
| UNSIGNED_INT | UNSIGNED_INT_VEC2 | UNSIGNED_INT_VEC3 | UNSIGNED_INT_VEC4
| SAMPLER_2D_ARRAY | UNSIGNED_INT_SAMPLER_2D | INT_SAMPLER_2D
| RGBA | R16UI | RED_INTEGER | UNSIGNED_BYTE | UNSIGNED_SHORT
| OTHER (c : Z).

(** The numeric value of each constant, as it prints in a message. *)
Definition code (t : GLenum) : Z :=
  match t with
  | FLOAT => 5126 | FLOAT_VEC2 => 35664 | FLOAT_VEC3 => 35665
  | FLOAT_VEC4 => 35666
  | INT => 5124 | INT_VEC2 => 35667 | INT_VEC3 => 35668 | INT_VEC4 => 35669
  | BOOL => 35670 | BOOL_VEC2 => 35671 | BOOL_VEC3 => 35672
  | BOOL_VEC4 => 35673
  | FLOAT_MAT2 => 35674 | FLOAT_MAT3 => 35675 | FLOAT_MAT4 => 35676
  | SAMPLER_2D => 35678 | SAMPLER_CUBE => 35680
  | UNSIGNED_INT => 5125 | UNSIGNED_INT_VEC2 => 36294
  | UNSIGNED_INT_VEC3 => 36295 | UNSIGNED_INT_VEC4 => 36296
  | SAMPLER_2D_ARRAY => 36289 | UNSIGNED_INT_SAMPLER_2D => 36306
  | INT_SAMPLER_2D => 36298
  | RGBA => 6408 | R16UI => 33332 | RED_INTEGER => 36244
  | UNSIGNED_BYTE => 5121 | UNSIGNED_SHORT => 5123
  | OTHER c => c
  end.

#[global] Instance GLenum_eq_dec : EqDecision GLenum.
Proof. solve_decision. Defined.

(** The declared types with four components. *)
Definition is_vec4_type (t : GLenum) : bool :=
  match t with
  | FLOAT_VEC4 | INT_VEC4 | BOOL_VEC4 | UNSIGNED_INT_VEC4 => true
  | _ => false
  end.

End GL.

Module TypedArrays.

(** The two element types the texture code allocates. *)
Inductive TypedArray : Type :=
| Uint8Array (l : list Z)
| Uint16Array (l : list Z).

Definition elements (a : TypedArray) : list Z :=
  match a with Uint8Array l | Uint16Array l => l end.

Definition constructor_name (a : TypedArray) : string :=
  match a with
  | Uint8Array _ => "Uint8Array"
  | Uint16Array _ => "Uint16Array"
  end.

(** [new Uint8Array(n)], [new Uint16Array(n)]: zero filled. *)
Definition new_Uint8Array (n : Z) : TypedArray :=
  Uint8Array (replicate (Z.to_nat n) 0).
Definition new_Uint16Array (n : Z) : TypedArray :=
  Uint16Array (replicate (Z.to_nat n) 0).

(** [l[i] = v] on the element list: an index outside the array is
    ignored, as a typed array never grows. *)
Definition store_list (l : list Z) (i v : Z) : list Z :=
  if 0 <=? i then <[Z.to_nat i := v]> l else l.

Definition load_list (l : list Z) (i : Z) : option Z :=
  if 0 <=? i then l !! Z.to_nat i else None.

(** [a[i] = v] for an integer index [i]: the value is converted to the
    element type. *)
Definition store (a : TypedArray) (i : Z) (v : JS.number) : TypedArray :=
  match a with
  | Uint8Array l => Uint8Array (store_list l i (JS.ToUint8 v))
  | Uint16Array l => Uint16Array (store_list l i (JS.ToUint16 v))
  end.

(** [a[i] = v] for an arbitrary number [i]: a key that is not an integer
    (NaN in particular) is not an element index and the assignment has no
    effect. *)
Definition store_at (a : TypedArray) (i : JS.number) (v : JS.number)
  : TypedArray :=
  match JS.as_index i with
  | Some k => store a k v
  | None => a
  end.

(** [target.set(source, offset)] on element lists: copies [source] over
    the elements from [offset] on; [None] is the RangeError raised when
    the source does not fit. *)
Definition set_list (target source : list Z) (offset : nat)
  : option (list Z) :=
  if decide (offset + length source <= length target)%nat
  then Some (take offset target ++ source
             ++ drop (offset + length source) target)
  else None.

End TypedArrays.

(* ===================================================================== *)
(** * Exceptions                                                          *)
(* ===================================================================== *)

Inductive Exn : Type :=
| Error (message : string)
| RangeError
| TypeError (message : string).

Inductive Result (A : Type) : Type :=
| Ok (a : A)
| Throw (e : Exn).
Arguments Ok {A} a.
Arguments Throw {A} e.

(* ===================================================================== *)
(** * TextureData                                                         *)
(* ===================================================================== *)

Module TextureData.
Import TypedArrays.

(** colord's [RgbaColor]. *)
Record RgbaColor : Type := mkRgba {
  r : JS.number; g : JS.number; b : JS.number; a : JS.number
}.

Record t : Type := mkTextureData {
  gpuTexture : option nat;
  width : Z;
  height : Z;
  bpp : Z;
  stride : Z;
  bytes : TypedArray;
  format : GL.GLenum;
  internalFormat : GL.GLenum;
  datatype : GL.GLenum
}.

Definition with_bytes (td : t) (bs : TypedArray) : t :=
  mkTextureData (gpuTexture td) (width td) (height td) (bpp td) (stride td)
                bs (format td) (internalFormat td) (datatype td).

(** The constructor. *)
Definition new (width height bpp : Z)
    (internalFormat format datatype : GL.GLenum) : t :=
  let stride := bpp * width in
  let totalBytes := height * stride in
  {| gpuTexture := None;
     width := width; height := height; bpp := bpp; stride := stride;
     bytes := if decide (datatype = GL.UNSIGNED_SHORT)
              then new_Uint16Array totalBytes
              else new_Uint8Array totalBytes;
     format := format; internalFormat := internalFormat;
     datatype := datatype |}.

(** [n[k]] for a number primitive [n]: numbers have no indexed
    properties, the access yields [undefined]. *)
Definition number_element (n : Z) (k : Z) : option JS.number := None.

(** [return row * this.stride[0];] *)
Definition getRowIndex (td : t) (row : Z) : JS.number :=
  JS.mul (JS.of_Z row) (JS.of_undef (number_element (stride td) 0)).

(** [setBytes(bytes, offset = 0)]: both branches call
    [this.bytes.set(bytes, 0)]; the [offset] argument is not used. *)
Definition setBytes (td : t) (data : TypedArray) (offset : JS.number)
  : Result t :=
  match data, bytes td with
  | Uint8Array src, Uint8Array dst =>
      match set_list dst src 0 with
      | Some l => Ok (with_bytes td (Uint8Array l))
      | None => Throw RangeError
      end
  | Uint16Array src, Uint16Array dst =>
      match set_list dst src 0 with
      | Some l => Ok (with_bytes td (Uint16Array l))
      | None => Throw RangeError
      end
  | _, _ =>
      Throw (Error ("Incompatible bytes type: "
                    +:+ constructor_name (bytes td) +:+ " and "
                    +:+ constructor_name data))
  end.

(** [setRow(row, data: Uint8Array)] *)
Definition setRow (td : t) (row : Z) (data : list Z) : Result t :=
  setBytes td (Uint8Array data) (getRowIndex td row).

Definition setPixelBytes (td : t) (x y : Z) (data : list Z) : Result t :=
  let index := JS.add (getRowIndex td y) (JS.of_Z (x * bpp td)) in
  setBytes td (Uint8Array data) index.

Definition setPixelRgba (td : t) (x y : Z) (rgba : RgbaColor) : t :=
  let index := JS.add (getRowIndex td y) (JS.of_Z (x * bpp td)) in
  let b0 := store_at (bytes td) (JS.add index (JS.of_Z 0)) (r rgba) in
  let b1 := store_at b0 (JS.add index (JS.of_Z 1)) (g rgba) in
  let b2 := store_at b1 (JS.add index (JS.of_Z 2)) (b rgba) in
  let b3 := store_at b2 (JS.add index (JS.of_Z 3)) (a rgba) in
  with_bytes td b3.

End TextureData.

(* ===================================================================== *)
(** * Uniform values and JS records                                       *)
(* ===================================================================== *)

Module Uniform.

(** The [rgba] member of a colord-like object, read as [any]: each
    channel may be [undefined]. *)
Record AnyRgba : Type := mkAnyRgba {
  any_r : option JS.number;
  any_g : option JS.number;
  any_b : option JS.number;
  any_a : option JS.number
}.

Definition rgba_of_colord (c : TextureData.RgbaColor) : AnyRgba :=
  mkAnyRgba (Some (TextureData.r c)) (Some (TextureData.g c))
            (Some (TextureData.b c)) (Some (TextureData.a c)).

(** [UniformValue], by the runtime tests [setUniform] applies to it.  The
    last three are the values whose conversion to a string throws; every
    other value converts with the [toString] it inherits. *)
Inductive UniformValue : Type :=
| VNumber (n : JS.number)
| VBoolean (b : bool)
| VFloat32Array (l : list JS.number)
| VInt32Array (l : list Z)
| VArray (l : list JS.number)
| VColord (rgba : TextureData.RgbaColor)   (* value instanceof Colord *)
| VRgbaObject (rgba : AnyRgba)             (* other object with "rgba" *)
| VObject (constructor_name : string)      (* any other non-null object *)
| VOther                                   (* null, undefined, string, ... *)
| VBareRgbaObject (rgba : AnyRgba)  (* prototype-less object with "rgba" *)
| VBareObject                       (* any other prototype-less object *)
| VSymbol.                          (* typeof value === "symbol" *)

(** Whether [`${value}`] yields a string.  A Symbol and an object without
    a prototype (no [toString], no [valueOf]) make the template throw a
    TypeError instead. *)
Definition stringifies (v : UniformValue) : bool :=
  match v with
  | VBareRgbaObject _ | VBareObject | VSymbol => false
  | _ => true
  end.

(** The TypeError [`${value}`] throws when it does not. *)
Definition to_string_error (v : UniformValue) : Exn :=
  match v with
  | VSymbol => TypeError "Cannot convert a Symbol value to a string"
  | _ => TypeError "Cannot convert object to primitive value"
  end.

(** A JS object used as [Record<string, V>]: its properties in the order
    they were created. *)
Definition JsRecord (V : Type) : Type := list (string * V).

Fixpoint record_set {V} (o : JsRecord V) (k : string) (v : V) : JsRecord V :=
  match o with
  | [] => [(k, v)]
  | (k', v') :: rest =>
      if decide (k' = k) then (k, v) :: rest
      else (k', v') :: record_set rest k v
  end.

(** The value of a decimal digit. *)
Definition digit_of (c : Ascii.ascii) : option N :=
  let n := Ascii.N_of_ascii c in
  if ((48 <=? n) && (n <=? 57))%N then Some (n - 48)%N else None.

Fixpoint digits_value (s : string) (acc : N) : option N :=
  match s with
  | EmptyString => Some acc
  | String c rest =>
      match digit_of c with
      | Some d => digits_value rest (10 * acc + d)%N
      | None => None
      end
  end.

(** The array index a property key denotes, if it is one: a canonical
    decimal numeral (no leading zero) below 2^32 - 1. *)
Definition array_index (k : string) : option N :=
  match k with
  | EmptyString => None
  | String c rest =>
      match digit_of c, rest with
      | None, _ => None
      | Some 0%N, EmptyString => Some 0%N
      | Some 0%N, String _ _ => None
      | Some _, _ =>
          match digits_value k 0 with
          | Some n => if (n <? 4294967295)%N then Some n else None
          | None => None
          end
      end
  end.

Fixpoint insert_indexed {V} (i : N) (e : string * V)
    (l : list (N * (string * V))) : list (N * (string * V)) :=
  match l with
  | [] => [(i, e)]
  | (j, e') :: rest =>
      if (i <? j)%N then (i, e) :: (j, e') :: rest
      else (j, e') :: insert_indexed i e rest
  end.

(** The properties whose key is an array index, by ascending index, and
    the others, in creation order. *)
Fixpoint split_keys {V} (o : JsRecord V)
  : list (N * (string * V)) * list (string * V) :=
  match o with
  | [] => ([], [])
  | (k, v) :: rest =>
      let '(indexed, named) := split_keys rest in
      match array_index k with
      | Some i => (insert_indexed i (k, v) indexed, named)
      | None => (indexed, (k, v) :: named)
      end
  end.

(** [Object.entries(o)]: the array-index keys first, in ascending numeric
    order, then the other string keys in the order they were created. *)
Definition entries {V} (o : JsRecord V) : list (string * V) :=
  let '(indexed, named) := split_keys o in (snd <$> indexed) ++ named.

End Uniform.

(* ===================================================================== *)
(** * ColorPalette                                                        *)
(* ===================================================================== *)

Module ColorPalette.
Import TypedArrays Uniform.

Record Colord : Type := mkColord { rgba : TextureData.RgbaColor }.

(** A player as the palette code sees it: [smallID()] is the only member
    it calls; [playerID] stands for the rest of the object, which the
    theme may consult. *)
Record PlayerView : Type := mkPlayerView {
  smallID : Z;
  playerID : string
}.

(** The [Theme] interface imported from core/configuration/Config (not
    part of the sources at hand): an object with an identity, compared by
    [===], and the colour queries the palette calls. *)
Record Theme : Type := mkTheme {
  themeRef : nat;
  territoryColor : PlayerView -> Colord;
  specialBuildingColor : PlayerView -> Colord;
  railroadColor : PlayerView -> Colord;
  borderColor : PlayerView -> Colord;
  defendedBorderColors : PlayerView -> Colord * Colord; (* light, dark *)
  focusedBorderColor : Colord;
  falloutColor : Colord
}.

(** The [GameView] the palette holds a reference to.  It is a live,
    mutable object: each method receives its state at the time of the
    call. *)
Record GameView : Type := mkGameView {
  theme : Theme;                       (* config().theme() *)
  playerViews : list PlayerView;
  playerBySmallID : Z -> PlayerView
}.

Definition MAX_UNIQUE_PLAYER_COLORS : Z := Z.shiftl 1 12.
Definition PALETTE_TEXTURE_HEIGHT : Z := 6.

Record t : Type := mkColorPalette {
  game : bool;              (* whether [this.game] is set (not null) *)
  uniforms : JsRecord UniformValue;
  needsGpuUpload : bool;
  previousTheme : option nat;          (* reference; None = undefined *)
  previousPlayerCount : option Z;      (* None = undefined *)
  textureData : option TextureData.t   (* None = null *)
}.

(** The field initialisers of the class. *)
Definition new : t :=
  {| game := false; uniforms := []; needsGpuUpload := false;
     previousTheme := None; previousPlayerCount := None;
     textureData := None |}.

Definition currentTheme (gv : GameView) : Theme := theme gv.
Definition currentPlayerCount (gv : GameView) : Z :=
  Z.of_nat (length (playerViews gv)).

Definition needsCpuUpdate (gv : GameView) (cp : t) : bool :=
  if bool_decide (Some (themeRef (currentTheme gv)) = previousTheme cp)
     && bool_decide (Some (currentPlayerCount gv) = previousPlayerCount cp)
  then false
  else true.

(** The four stores of one colour into one row of column [x]. *)
Definition put_rgba (bytes : TypedArray) (row_offset x bpp : Z)
    (c : Colord) : TypedArray :=
  let c := rgba c in
  let b0 := store bytes (row_offset + x * bpp + 0) (TextureData.r c) in
  let b1 := store b0 (row_offset + x * bpp + 1) (TextureData.g c) in
  let b2 := store b1 (row_offset + x * bpp + 2) (TextureData.b c) in
  store b2 (row_offset + x * bpp + 3) (TextureData.a c).

(** The body of the loop over [smallId]. *)
Definition write_column (gv : GameView) (th : Theme) (stride bpp : Z)
    (bytes : TypedArray) (smallId : Z) : TypedArray :=
  let row_player_color := 0 * stride in
  let row_building_color := 1 * stride in
  let row_railroad := 2 * stride in
  let row_border_undefended := 3 * stride in
  let row_border_defended_light := 4 * stride in
  let row_border_defended_dark := 5 * stride in
  let x := smallId in
  let player := playerBySmallID gv smallId in
  let territoryColor := territoryColor th player in
  let specialBuildingColor := specialBuildingColor th player in
  let railroadColor := railroadColor th player in
  let borderColor := borderColor th player in
  let defendedBorderColors := defendedBorderColors th player in
  let bytes := put_rgba bytes row_player_color x bpp territoryColor in
  let bytes := put_rgba bytes row_building_color x bpp specialBuildingColor in
  let bytes := put_rgba bytes row_railroad x bpp railroadColor in
  let bytes := put_rgba bytes row_border_undefended x bpp borderColor in
  let bytes := put_rgba bytes row_border_defended_light x bpp
                        (fst defendedBorderColors) in
  put_rgba bytes row_border_defended_dark x bpp (snd defendedBorderColors).

(** [players.reduce((max, player) => Math.max(max, player.smallID()), 0)] *)
Definition maxSmallId (players : list PlayerView) : Z :=
  foldl (fun max player => Z.max max (smallID player)) 0 players.

(** The [console.log] of the player count, made after the dirty check, is
    not part of the palette's state and is left out. *)
Definition updateCpuData (gv : GameView) (cp : t) : t :=
  if negb (game cp) then cp else
  match textureData cp with
  | None => cp
  | Some td =>
    if negb (needsCpuUpdate gv cp) then cp else
    let theme := currentTheme gv in
    let playerCount := currentPlayerCount gv in
    let width := TextureData.width td in
    let bytes := TextureData.bytes td in
    let players := playerViews gv in
    let maxSmallId := maxSmallId players in
    let bpp := 4 in
    let stride := width * bpp in
    let paletteMaxColor := Z.min width maxSmallId in
    (* for (let smallId = 1; smallId <= paletteMaxColor; smallId++) *)
    let bytes := foldl (write_column gv theme stride bpp) bytes
                       (seqZ 1 paletteMaxColor) in
    let u := uniforms cp in
    let u := record_set u "u_borderAlpha" (VNumber (JS.Num (255 / 255)%Q)) in
    let u := record_set u "u_territoryAlpha"
                        (VNumber (JS.Num (150 / 255)%Q)) in
    let u := record_set u "u_focusedBorderColor"
                        (VColord (rgba (focusedBorderColor theme))) in
    let u := record_set u "u_falloutColor"
                        (VColord (rgba (falloutColor theme))) in
    {| game := game cp;
       uniforms := u;
       needsGpuUpload := true;
       previousTheme := Some (themeRef theme);
       previousPlayerCount := Some playerCount;
       textureData := Some (TextureData.with_bytes td bytes) |}
  end.

(** The two assignments [init] makes before it calls [updateCpuData]. *)
Definition init_fields (cp : t) : t :=
  {| game := true;
     uniforms := uniforms cp;
     needsGpuUpload := needsGpuUpload cp;
     previousTheme := previousTheme cp;
     previousPlayerCount := previousPlayerCount cp;
     textureData :=
       Some (TextureData.new MAX_UNIQUE_PLAYER_COLORS
               PALETTE_TEXTURE_HEIGHT 4
               GL.RGBA GL.RGBA GL.UNSIGNED_BYTE) |}.

Definition init (gv : GameView) (cp : t) : t :=
  updateCpuData gv (init_fields cp).

(** The four bytes of the palette texel in column [x] of row [row]. *)
Definition texel (cp : t) (x row : Z) : option (list Z) :=
  match textureData cp with
  | None => None
  | Some td =>
      let l := elements (TextureData.bytes td) in
      let o := row * TextureData.stride td + x * TextureData.bpp td in
      b0 ← load_list l o;
      b1 ← load_list l (o + 1);
      b2 ← load_list l (o + 2);
      b3 ← load_list l (o + 3);
      Some [b0; b1; b2; b3]
  end.

(** The bytes a Uint8Array holds after the four channels of [c] are
    stored into it. *)
Definition rgba_bytes (c : Colord) : list Z :=
  let c := rgba c in
  [JS.ToUint8 (TextureData.r c); JS.ToUint8 (TextureData.g c);
   JS.ToUint8 (TextureData.b c); JS.ToUint8 (TextureData.a c)].

(** The colour the theme gives for palette row [row] and player [p]. *)
Definition row_color (th : Theme) (row : Z) (p : PlayerView) : Colord :=
  if row =? 0 then territoryColor th p
  else if row =? 1 then specialBuildingColor th p
  else if row =? 2 then railroadColor th p
  else if row =? 3 then borderColor th p
  else if row =? 4 then fst (defendedBorderColors th p)
  else snd (defendedBorderColors th p).

End ColorPalette.

(* ===================================================================== *)
(** * The WebGL context, the console and the effect monad                 *)
(* ===================================================================== *)

Module Effects.
Import Uniform.

(** The uniform upload entry points of the context. *)
Inductive GLFn : Type :=
| uniform1f | uniform2f | uniform3f | uniform4f
| uniform1i | uniform2i | uniform3i | uniform4i
| uniform1ui
| uniform1fv | uniform2fv | uniform3fv | uniform4fv
| uniform1iv | uniform2iv | uniform3iv | uniform4iv
| uniformMatrix2fv | uniformMatrix3fv | uniformMatrix4fv.

(** One call on the context: the location handed over ([None] is [null])
    and the numeric arguments after conversion to numbers. *)
Inductive GLCall : Type :=
| Upload (fn : GLFn) (location : option nat) (args : list JS.number)
| UseProgram (program : nat).

Record WebGLActiveInfo : Type := mkActiveInfo {
  info_name : string;
  info_size : Z;
  info_type : GL.GLenum
}.

(** Lines written to the console, by the statement that writes them. *)
Inductive ConsoleLine : Type :=
| NoProgramBound (name : string)
| UnknownObjectType (name : option string)
| FailedToSetUniform (name : option string)
| ExceptionSettingUniform (name : option string) (e : Exn)
| ProgramMismatch (expected : nat) (bound : option nat)
| AutoBinding
| UniformNotFound (name : string).

(** The state the uniform code acts on: the context and the console.
    [uniformLocation] and [uniformInfoByName] are the driver's answers to
    [gl.getUniformLocation] and [WebGLUtils.getUniformInfoByName] (the
    latter is not part of the sources at hand). *)
Record World : Type := mkWorld {
  isWebGL2 : bool;                 (* gl instanceof WebGL2RenderingContext *)
  CURRENT_PROGRAM : option nat;
  uniformLocation : nat -> string -> option nat;
  uniformInfoByName : nat -> string -> option WebGLActiveInfo;
  gl_calls : list GLCall;          (* oldest first *)
  console : list ConsoleLine       (* oldest first *)
}.

(** State and exceptions: a computation runs on a world and either
    returns or throws; the effects made before a throw persist. *)
Definition M (A : Type) : Type := World -> Result A * World.

Definition ret {A} (a : A) : M A := fun w => (Ok a, w).
Definition bind {A B} (m : M A) (f : A -> M B) : M B :=
  fun w => match m w with
           | (Ok a, w') => f a w'
           | (Throw e, w') => (Throw e, w')
           end.
Definition throw {A} (e : Exn) : M A := fun w => (Throw e, w).
(** [try { m } catch (e) { h e }] *)
Definition try_catch {A} (m : M A) (h : Exn -> M A) : M A :=
  fun w => match m w with
           | (Ok a, w') => (Ok a, w')
           | (Throw e, w') => h e w'
           end.

Notation "'let!' x := m 'in' k" := (bind m (fun x => k))
  (at level 10, x name, m at level 100, k at level 200).
Notation "m >> k" := (bind m (fun _ => k))
  (at level 62, right associativity).

(** The world after one more call on the context, after one more line on
    the console. *)
Definition record_call (c : GLCall) (w : World) : World :=
  mkWorld (isWebGL2 w)
          (match c with
           | UseProgram p => Some p
           | Upload _ _ _ => CURRENT_PROGRAM w
           end)
          (uniformLocation w) (uniformInfoByName w)
          (gl_calls w ++ [c]) (console w).

Definition record_line (l : ConsoleLine) (w : World) : World :=
  mkWorld (isWebGL2 w) (CURRENT_PROGRAM w) (uniformLocation w)
          (uniformInfoByName w) (gl_calls w) (console w ++ [l]).

Definition gl_upload (fn : GLFn) (location : option nat)
    (args : list JS.number) : M unit :=
  fun w => (Ok tt, record_call (Upload fn location args) w).

Definition gl_useProgram (p : nat) : M unit :=
  fun w => (Ok tt, record_call (UseProgram p) w).

Definition gl_currentProgram : M (option nat) :=
  fun w => (Ok (CURRENT_PROGRAM w), w).

Definition gl_isWebGL2 : M bool := fun w => (Ok (isWebGL2 w), w).

Definition console_write (l : ConsoleLine) : M unit :=
  fun w => (Ok tt, record_line l w).

(** The world a computation leaves behind. *)
Definition exec {A} (m : M A) (w : World) : World := snd (m w).

(** The name under which a caught exception is logged:
    [name ?? uniformInfo?.name]. *)
Definition logged_name (name : option string)
    (uniformInfo : option WebGLActiveInfo) : option string :=
  match name with
  | Some n => Some n
  | None => info_name <$> uniformInfo
  end.

(** The [catch] block of [setUniform]: one [console.error] whose
    template holds [${value}]; when the value does not stringify, the
    template throws before anything is written. *)
Definition log_exception (value : UniformValue) (name : option string)
    (uniformInfo : option WebGLActiveInfo) (e : Exn) : M unit :=
  if stringifies value
  then console_write (ExceptionSettingUniform (logged_name name uniformInfo) e)
  else throw (to_string_error value).

(** [forEach]: the callback runs on each element in turn; an exception
    leaves the loop.  [s] is the state of the object the callback closes
    over. *)
Fixpoint forEach {A S} (l : list A) (f : S -> A -> M S) (s : S) : M S :=
  match l with
  | [] => ret s
  | x :: rest => let! s' := f s x in forEach rest f s'
  end.

(** The uploads among the calls made on the context. *)
Definition is_upload (c : GLCall) : bool :=
  match c with Upload _ _ _ => true | UseProgram _ => false end.
Definition uploads (w : World) : list GLCall :=
  List.filter is_upload (gl_calls w).

End Effects.

(* ===================================================================== *)
(** * setUniform, as written in UniformSetter.ts                          *)
(* ===================================================================== *)

Module Live.
Import Uniform Effects.

Definition or_unknown (name : option string) : string :=
  default "unknown" name.

(** [switch (value.length)] over the float vector uploads. *)
Definition float_vector (location : option nat) (value : list JS.number)
  : M unit :=
  match value with
  | [x; y] => gl_upload uniform2f location [x; y]
  | [x; y; z] => gl_upload uniform3f location [x; y; z]
  | [x; y; z; w] => gl_upload uniform4f location [x; y; z; w]
  | _ => throw (Error ("Unsupported array length: " +:+ pretty (length value)))
  end.

(** The colour upload when the declared type decides nothing: vec3 when
    alpha is absent, 1.0 or 255, vec4 otherwise. *)
Definition rgba_fallback (location : option nat) (rgba : AnyRgba) : M unit :=
  let r := JS.div255 (JS.of_undef (any_r rgba)) in
  let g := JS.div255 (JS.of_undef (any_g rgba)) in
  let b := JS.div255 (JS.of_undef (any_b rgba)) in
  match any_a rgba with
  | None => gl_upload uniform3f location [r; g; b]
  | Some a =>
      if JS.eq_lit a 1 || JS.eq_lit a 255
      then gl_upload uniform3f location [r; g; b]
      else gl_upload uniform4f location [r; g; b; JS.div255 a]
  end.

Definition set_rgba (location : option nat) (rgba : AnyRgba)
    (uniformInfo : option WebGLActiveInfo) : M unit :=
  match uniformInfo with
  | Some info =>
      match info_type info with
      | GL.FLOAT_VEC3 =>
          gl_upload uniform3f location
            [JS.div255 (JS.of_undef (any_r rgba));
             JS.div255 (JS.of_undef (any_g rgba));
             JS.div255 (JS.of_undef (any_b rgba))]
      | GL.FLOAT_VEC4 =>
          let alpha := match any_a rgba with
                       | Some a => JS.div255 a
                       | None => JS.of_Z 1
                       end in
          gl_upload uniform4f location
            [JS.div255 (JS.of_undef (any_r rgba));
             JS.div255 (JS.of_undef (any_g rgba));
             JS.div255 (JS.of_undef (any_b rgba)); alpha]
      | GL.INT_VEC3 =>
          gl_upload uniform3i location
            [JS.or0 (any_r rgba); JS.or0 (any_g rgba); JS.or0 (any_b rgba)]
      | GL.INT_VEC4 =>
          let alphaInt := match any_a rgba with
                          | Some a => a
                          | None => JS.of_Z 255
                          end in
          gl_upload uniform4i location
            [JS.or0 (any_r rgba); JS.or0 (any_g rgba); JS.or0 (any_b rgba);
             JS.or0 (Some alphaInt)]
      | _ => rgba_fallback location rgba
      end
  | None => rgba_fallback location rgba
  end.

Definition set_number (location : option nat) (value : JS.number)
    (uniformInfo : option WebGLActiveInfo) : M unit :=
  match uniformInfo with
  | Some info =>
      match info_type info with
      | GL.SAMPLER_2D | GL.SAMPLER_CUBE =>
          gl_upload uniform1i location [JS.floor (Some value)]
      | GL.SAMPLER_2D_ARRAY | GL.UNSIGNED_INT_SAMPLER_2D
      | GL.INT_SAMPLER_2D =>
          (* these labels are [undefined] unless gl is a WebGL2 context *)
          let! gl2 := gl_isWebGL2 in
          if gl2 then gl_upload uniform1i location [JS.floor (Some value)]
          else ret tt
      | GL.FLOAT => gl_upload uniform1f location [value]
      | GL.INT => gl_upload uniform1i location [JS.floor (Some value)]
      | GL.INT_VEC2 | GL.INT_VEC3 | GL.INT_VEC4 =>
          throw (Error ("Tried to set a scalar into a vector field: "
                        +:+ pretty (GL.code (info_type info)) +:+ " "
                        +:+ info_name info))
      | GL.UNSIGNED_INT =>
          let! gl2 := gl_isWebGL2 in
          if gl2
          then gl_upload uniform1ui location
                         [JS.max0 (JS.floor (Some value))]
          else ret tt
      | GL.BOOL =>
          gl_upload uniform1i location [JS.of_bool (JS.truthy value)]
      | _ => ret tt
      end
  | None =>
      (* Fallback to float if no introspection available *)
      gl_upload uniform1f location [value]
  end.

Definition set_array (location : option nat) (value : list JS.number)
    (uniformInfo : option WebGLActiveInfo) : M unit :=
  match uniformInfo with
  | Some info =>
      match info_type info with
      | GL.INT_VEC2 =>
          if decide (length value = 2%nat)
          then gl_upload uniform2i location
                 [JS.floor (value !! 0%nat); JS.floor (value !! 1%nat)]
          else throw (Error ("Expected 2 values for INT_VEC2, got "
                             +:+ pretty (length value) +:+ " "
                             +:+ info_name info))
      | GL.INT_VEC3 =>
          if decide (length value = 3%nat)
          then gl_upload uniform3i location
                 [JS.floor (value !! 0%nat); JS.floor (value !! 1%nat);
                  JS.floor (value !! 2%nat)]
          else throw (Error ("Expected 3 values for INT_VEC3, got "
                             +:+ pretty (length value)))
      | GL.INT_VEC4 =>
          if decide (length value = 4%nat)
          then gl_upload uniform4i location
                 [JS.floor (value !! 0%nat); JS.floor (value !! 1%nat);
                  JS.floor (value !! 2%nat); JS.floor (value !! 3%nat)]
          else throw (Error ("Expected 4 values for INT_VEC4, got "
                             +:+ pretty (length value)))
      | _ =>
          (* Default to float vectors *)
          float_vector location value
      end
  | None =>
      (* Fallback to float vectors if no introspection available *)
      float_vector location value
  end.

Definition set_Float32Array (location : option nat) (value : list JS.number)
  : M unit :=
  match length value with
  | 1%nat => gl_upload uniform1fv location value
  | 2%nat => gl_upload uniform2fv location value
  | 3%nat => gl_upload uniform3fv location value
  | 4%nat => gl_upload uniform4fv location value
  | 9%nat => gl_upload uniformMatrix3fv location value
  | 16%nat => gl_upload uniformMatrix4fv location value
  | n => throw (Error ("Unsupported Float32Array length: " +:+ pretty n))
  end.

Definition set_Int32Array (location : option nat) (value : list Z)
  : M unit :=
  match length value with
  | 1%nat => gl_upload uniform1iv location (JS.of_Z <$> value)
  | 2%nat => gl_upload uniform2iv location (JS.of_Z <$> value)
  | 3%nat => gl_upload uniform3iv location (JS.of_Z <$> value)
  | 4%nat => gl_upload uniform4iv location (JS.of_Z <$> value)
  | n => throw (Error ("Unsupported Int32Array length: " +:+ pretty n))
  end.

(** The body of the [try] block. *)
Definition setUniform_body (location : option nat) (value : UniformValue)
    (uniformInfo : option WebGLActiveInfo) (name : option string) : M unit :=
  let! currentProgram := gl_currentProgram in
  match currentProgram with
  | None => console_write (NoProgramBound (or_unknown name))
  | Some _ =>
      match value with
      | VFloat32Array l => set_Float32Array location l
      | VInt32Array l => set_Int32Array location l
      | VNumber n => set_number location n uniformInfo
      | VBoolean b => gl_upload uniform1i location [JS.of_bool b]
      | VArray l => set_array location l uniformInfo
      | VColord c => set_rgba location (rgba_of_colord c) uniformInfo
      | VRgbaObject c => set_rgba location c uniformInfo
      | VBareRgbaObject c => set_rgba location c uniformInfo
      | VObject _ =>
          console_write
            (UnknownObjectType
               (logged_name name uniformInfo))
      | VBareObject =>
          (* the logged record reads [value.constructor.name] *)
          throw (TypeError
                   "Cannot read properties of undefined (reading 'name')")
      | VOther =>
          console_write
            (FailedToSetUniform
               (logged_name name uniformInfo))
      | VSymbol =>
          (* the template of the last [console.error] holds [${value}] *)
          throw (to_string_error VSymbol)
      end
  end.

Definition setUniform (location : option nat) (value : UniformValue)
    (uniformInfo : option WebGLActiveInfo) (name : option string) : M unit :=
  try_catch (setUniform_body location value uniformInfo name)
    (log_exception value name uniformInfo).

End Live.

(* ===================================================================== *)
(** * setUniform, as written in the second (unnamed) source file          *)
(* ===================================================================== *)

(** The function binds [GL = WebGLRenderingContext] and
    [GL2 = WebGL2RenderingContext] before its [try] block: these are the
    interface objects of the browser, present wherever a WebGL2 context
    can be created, as the territory layer does. *)
Module Strict.
Import Uniform Effects.

Definition or_unknown (name : option string) : string :=
  default "unknown" name.

(** [value[i]] passed where the context expects a float. *)
Definition elem (value : list JS.number) (i : nat) : JS.number :=
  JS.of_undef (value !! i).

Definition set_number (location : option nat) (value : JS.number)
    (info : WebGLActiveInfo) : M unit :=
  match info_type info with
  | GL.SAMPLER_2D | GL.SAMPLER_CUBE | GL.SAMPLER_2D_ARRAY
  | GL.UNSIGNED_INT_SAMPLER_2D | GL.INT_SAMPLER_2D =>
      gl_upload uniform1i location [JS.or0 (Some value)]
  | GL.FLOAT => gl_upload uniform1f location [value]
  | GL.INT => gl_upload uniform1i location [JS.or0 (Some value)]
  | GL.BOOL => gl_upload uniform1i location [JS.of_bool (JS.truthy value)]
  | GL.INT_VEC2 | GL.INT_VEC3 | GL.INT_VEC4 =>
      throw (Error ("Tried to set a scalar into a vector field: "
                    +:+ pretty (GL.code (info_type info)) +:+ " "
                    +:+ info_name info))
  | GL.UNSIGNED_INT =>
      (* the method exists on a WebGL2 context only *)
      let! gl2 := gl_isWebGL2 in
      if gl2
      then gl_upload uniform1ui location
             [if JS.lt0 value then JS.of_Z 0 else JS.or0 (Some value)]
      else throw (TypeError "gl.uniform1ui is not a function")
  | _ => ret tt
  end.

Definition set_boolean (location : option nat) (value : bool)
    (info : WebGLActiveInfo) : M unit :=
  let v := JS.of_bool value in
  match info_type info with
  | GL.BOOL => gl_upload uniform1i location [v]
  | GL.BOOL_VEC2 => gl_upload uniform2i location [v; v]
  | GL.BOOL_VEC3 => gl_upload uniform3i location [v; v; v]
  | GL.BOOL_VEC4 => gl_upload uniform4i location [v; v; v; v]
  | _ =>
      throw (Error ("Unsupported boolean uniform type: "
                    +:+ pretty (GL.code (info_type info)) +:+ " "
                    +:+ info_name info))
  end.

Definition set_array (location : option nat) (value : list JS.number)
    (info : WebGLActiveInfo) : M unit :=
  match info_type info with
  | GL.INT_VEC2 =>
      gl_upload uniform2i location
        [JS.or0 (value !! 0%nat); JS.or0 (value !! 1%nat)]
  | GL.INT_VEC3 =>
      gl_upload uniform3i location
        [JS.or0 (value !! 0%nat); JS.or0 (value !! 1%nat);
         JS.or0 (value !! 2%nat)]
  | GL.INT_VEC4 =>
      gl_upload uniform4i location
        [JS.or0 (value !! 0%nat); JS.or0 (value !! 1%nat);
         JS.or0 (value !! 2%nat); JS.or0 (value !! 3%nat)]
  | GL.FLOAT_VEC2 =>
      gl_upload uniform2f location [elem value 0; elem value 1]
  | GL.FLOAT_VEC3 =>
      gl_upload uniform3f location [elem value 0; elem value 1; elem value 2]
  | GL.FLOAT_VEC4 =>
      gl_upload uniform4f location
        [elem value 0; elem value 1; elem value 2; elem value 3]
  | GL.FLOAT_MAT2 => gl_upload uniformMatrix2fv location value
  | GL.FLOAT_MAT3 => gl_upload uniformMatrix3fv location value
  | GL.FLOAT_MAT4 => gl_upload uniformMatrix4fv location value
  | _ => throw (Error ("Unsupported array length: "
                       +:+ pretty (length value)))
  end.

(** The [Colord] branch and the ["rgba" in value] branch dispatch alike:
    [intAlpha = rgba.a === undefined ? 255 : rgba.a * 255] and
    [floatAlpha = rgba.a]. *)
Definition set_rgba (location : option nat) (rgba : AnyRgba)
    (info : WebGLActiveInfo) : M unit :=
  let intAlpha := match any_a rgba with
                  | None => JS.of_Z 255
                  | Some a => JS.mul a (JS.of_Z 255)
                  end in
  let floatAlpha := JS.of_undef (any_a rgba) in
  match info_type info with
  | GL.INT_VEC3 =>
      gl_upload uniform3i location
        [JS.or0 (any_r rgba); JS.or0 (any_g rgba); JS.or0 (any_b rgba)]
  | GL.INT_VEC4 =>
      gl_upload uniform4i location
        [JS.or0 (any_r rgba); JS.or0 (any_g rgba); JS.or0 (any_b rgba);
         JS.or0 (Some intAlpha)]
  | GL.FLOAT_VEC3 =>
      gl_upload uniform3f location
        [JS.div255 (JS.of_undef (any_r rgba));
         JS.div255 (JS.of_undef (any_g rgba));
         JS.div255 (JS.of_undef (any_b rgba))]
  | GL.FLOAT_VEC4 =>
      gl_upload uniform4f location
        [JS.div255 (JS.of_undef (any_r rgba));
         JS.div255 (JS.of_undef (any_g rgba));
         JS.div255 (JS.of_undef (any_b rgba)); floatAlpha]
  | _ =>
      throw (Error ("Unsupported uniform type: "
                    +:+ pretty (GL.code (info_type info)) +:+ " "
                    +:+ info_name info))
  end.

(** The body of the [try] block. *)
Definition setUniform_body (location : option nat) (value : UniformValue)
    (uniformInfo : option WebGLActiveInfo) (name : option string) : M unit :=
  let! currentProgram := gl_currentProgram in
  match currentProgram with
  | None => console_write (NoProgramBound (or_unknown name))
  | Some _ =>
      match uniformInfo with
      | None =>
          throw (Error ("No uniform info available for "
                        +:+ or_unknown name))
      | Some info =>
          match location with
          | None =>
              throw (Error ("No location available for "
                            +:+ or_unknown name))
          | Some _ =>
              match value with
              | VFloat32Array l => Live.set_Float32Array location l
              | VInt32Array l => Live.set_Int32Array location l
              | VNumber n => set_number location n info
              | VBoolean b => set_boolean location b info
              | VArray l => set_array location l info
              | VColord c => set_rgba location (rgba_of_colord c) info
              | VRgbaObject c => set_rgba location c info
              | VBareRgbaObject c => set_rgba location c info
              | VObject _ =>
                  console_write
                    (UnknownObjectType
                       (Some (default (info_name info) name)))
              | VBareObject =>
                  throw (TypeError
                           "Cannot read properties of undefined (reading 'name')")
              | VOther =>
                  console_write
                    (FailedToSetUniform
                       (Some (default (info_name info) name)))
              | VSymbol => throw (to_string_error VSymbol)
              end
          end
      end
  end.

Definition setUniform (location : option nat) (value : UniformValue)
    (uniformInfo : option WebGLActiveInfo) (name : option string) : M unit :=
  try_catch (setUniform_body location value uniformInfo name)
    (log_exception value name uniformInfo).

End Strict.

(* ===================================================================== *)
(** * The UniformSetter class (the same text in both files)               *)
(* ===================================================================== *)

Module UniformSetter.
Import Uniform Effects.

Record t : Type := mkUniformSetter {
  program : nat;
  locationCache : gmap string (option nat);
  uniformInfoCache : gmap string (option WebGLActiveInfo)
}.

Definition new (program : nat) : t := mkUniformSetter program ∅ ∅.

Section Class.
(** The [setUniform] of the file the class is declared in. *)
Variable setUniform :
  option nat -> UniformValue -> option WebGLActiveInfo -> option string
  -> M unit.

Definition ensureCorrectProgramBound (this : t) : M unit :=
  let! currentProgram := gl_currentProgram in
  if decide (currentProgram = Some (program this)) then ret tt
  else
    console_write (ProgramMismatch (program this) currentProgram) >>
    console_write AutoBinding >>
    gl_useProgram (program this).

(** The list of available uniforms built on a miss is only a local
    variable; the reads that build it are left out. *)
Definition getLocation (this : t) (name : string) : M (t * option nat) :=
  match locationCache this !! name with
  | Some cached => ret (this, cached)
  | None =>
      fun w =>
        let location := uniformLocation w (program this) name in
        let this' := mkUniformSetter (program this)
                       (<[name := location]> (locationCache this))
                       (uniformInfoCache this) in
        match location with
        | Some _ => ret (this', location) w
        | None =>
            (console_write (UniformNotFound name) >> ret (this', None)) w
        end
  end.

Definition getUniformInfo (this : t) (name : string)
  : M (t * option WebGLActiveInfo) :=
  match uniformInfoCache this !! name with
  | Some cached => ret (this, cached)
  | None =>
      fun w =>
        let uniformInfo := uniformInfoByName w (program this) name in
        let this' := mkUniformSetter (program this) (locationCache this)
                       (<[name := uniformInfo]> (uniformInfoCache this)) in
        ret (this', uniformInfo) w
  end.

(** The callback of [set], which is also the body of [setOne]. *)
Definition set_entry (this : t) (entry : string * UniformValue) : M t :=
  let '(name, value) := entry in
  let! r := getLocation this name in
  let '(this, location) := r in
  match location with
  | Some _ =>
      let! r := getUniformInfo this name in
      let '(this, uniformInfo) := r in
      setUniform location value uniformInfo (Some name) >> ret this
  | None => ret this
  end.

(** When the callback throws, the exception leaves [forEach] and [set];
    the result then carries the world at the throw, not the caches. *)
Definition set (this : t) (uniforms : JsRecord UniformValue) : M t :=
  ensureCorrectProgramBound this >>
  forEach (entries uniforms) set_entry this.

Definition setOne (this : t) (name : string) (value : UniformValue) : M t :=
  ensureCorrectProgramBound this >> set_entry this (name, value).

End Class.

End UniformSetter.


(* ===================================================================== *)
(** * Derived notions and example data                                    *)
(* ===================================================================== *)

(** The stipple bit [DebugDrawTileData] computes: the overlay recolours
    the fragment only where it is 0. *)
Definition debug_stipple (frag : Shader.ivec2) : Z :=
  Z.land (Z.lxor (Z.shiftr (Shader.iy frag) 4) (Z.shiftr (Shader.ix frag) 4)) 1.

(** What C5 describes, for comparison with the code: [data] copied over
    the bytes from offset [row * stride] on, and the four channel bytes
    stored from offset [y * stride + x * bpp] on. *)
Definition claimed_setRow (td : TextureData.t) (row : Z) (data : list Z)
  : list Z :=
  let l := TypedArrays.elements (TextureData.bytes td) in
  let o := Z.to_nat (row * TextureData.stride td) in
  take o l ++ data ++ drop (o + length data) l.

Definition claimed_setPixelRgba (td : TextureData.t) (x y : Z)
    (c : TextureData.RgbaColor) : list Z :=
  let l := TypedArrays.elements (TextureData.bytes td) in
  let o := Z.to_nat (y * TextureData.stride td + x * TextureData.bpp td) in
  take o l
  ++ [JS.ToUint8 (TextureData.r c); JS.ToUint8 (TextureData.g c);
      JS.ToUint8 (TextureData.b c); JS.ToUint8 (TextureData.a c)]
  ++ drop (o + 4) l.

(** The four stores of [put_rgba], on the element list of a Uint8Array. *)
Definition put4 (l : list Z) (o : Z) (c : ColorPalette.Colord) : list Z :=
  let c := ColorPalette.rgba c in
  TypedArrays.store_list
    (TypedArrays.store_list
       (TypedArrays.store_list
          (TypedArrays.store_list l (o + 0) (JS.ToUint8 (TextureData.r c)))
          (o + 1) (JS.ToUint8 (TextureData.g c)))
       (o + 2) (JS.ToUint8 (TextureData.b c)))
    (o + 3) (JS.ToUint8 (TextureData.a c)).

(** The four bytes from offset [o] on. *)
Definition texel4 (l : list Z) (o : Z) : option (list Z) :=
  b0 ← TypedArrays.load_list l o;
  b1 ← TypedArrays.load_list l (o + 1);
  b2 ← TypedArrays.load_list l (o + 2);
  b3 ← TypedArrays.load_list l (o + 3);
  Some [b0; b1; b2; b3].

(** [write_column] on the element list, for the palette's stride. *)
Definition write_column_list (gv : ColorPalette.GameView)
    (th : ColorPalette.Theme) (l : list Z) (x : Z) : list Z :=
  let p := ColorPalette.playerBySmallID gv x in
  put4 (put4 (put4 (put4 (put4 (put4 l
    (0 * 16384 + x * 4) (ColorPalette.territoryColor th p))
    (1 * 16384 + x * 4) (ColorPalette.specialBuildingColor th p))
    (2 * 16384 + x * 4) (ColorPalette.railroadColor th p))
    (3 * 16384 + x * 4) (ColorPalette.borderColor th p))
    (4 * 16384 + x * 4) (fst (ColorPalette.defendedBorderColors th p)))
    (5 * 16384 + x * 4) (snd (ColorPalette.defendedBorderColors th p)).

(** The palette as [init] sets it up: the game reference is set and the
    texture is the 4096 x 6 RGBA byte buffer. *)
Definition palette_ready (cp : ColorPalette.t) : Prop :=
  ColorPalette.game cp = true
  /\ exists td l,
       ColorPalette.textureData cp = Some td
       /\ TextureData.width td = 4096
       /\ TextureData.bpp td = 4
       /\ TextureData.stride td = 16384
       /\ TextureData.bytes td = TypedArrays.Uint8Array l
       /\ Z.of_nat (length l) = 98304.

(** The columns one recomputation writes. *)
Definition written_columns (gv : ColorPalette.GameView) : list Z :=
  seqZ 1 (Z.min 4096 (ColorPalette.maxSmallId (ColorPalette.playerViews gv))).

(** ** Example data *)

(** A 3x3 tile texture: owner 7 everywhere (with assorted flag bits)
    except the texel below the centre, owned by 9. *)
Definition border_example_texture : Shader.usampler2D :=
  Shader.mkUTex 3 3 [7; 8199; 7;
                     16391; 7; 7;
                     7; 9; 7].

Definition border_example_uniforms (t : Shader.usampler2D) : Shader.Uniforms :=
  Shader.mkUniforms t 0 0 (Shader.mkTex 0 0 []) (150 # 255) 1
    (Shader.mkvec3 1 1 1) (Shader.mkvec3 0 1 0) false false.

(** A 2x2 RGBA texture: stride 8, sixteen zero bytes. *)
Definition small_texture : TextureData.t :=
  TextureData.new 2 2 4 GL.RGBA GL.RGBA GL.UNSIGNED_BYTE.

Definition small_row : list Z := [1; 2; 3; 4; 5; 6; 7; 8].

Definition small_pixel : TextureData.RgbaColor :=
  TextureData.mkRgba (JS.of_Z 10) (JS.of_Z 20) (JS.of_Z 30) (JS.of_Z 40).

Definition shade (k : Z) : ColorPalette.Colord :=
  ColorPalette.mkColord
    (TextureData.mkRgba (JS.of_Z k) (JS.of_Z (k + 1))
                        (JS.of_Z (k + 2)) (JS.of_Z 1)).

(** A theme whose colours are told apart by player and by row. *)
Definition example_theme (ref : nat) (base : Z) : ColorPalette.Theme :=
  {| ColorPalette.themeRef := ref;
     ColorPalette.territoryColor :=
       fun p => shade (base + 10 * ColorPalette.smallID p);
     ColorPalette.specialBuildingColor :=
       fun p => shade (base + 10 * ColorPalette.smallID p + 3);
     ColorPalette.railroadColor :=
       fun p => shade (base + 10 * ColorPalette.smallID p + 4);
     ColorPalette.borderColor :=
       fun p => shade (base + 10 * ColorPalette.smallID p + 5);
     ColorPalette.defendedBorderColors :=
       fun p => (shade (base + 10 * ColorPalette.smallID p + 6),
                 shade (base + 10 * ColorPalette.smallID p + 7));
     ColorPalette.focusedBorderColor := shade 200;
     ColorPalette.falloutColor := shade 100 |}.

Definition example_game (th : ColorPalette.Theme) (ids : list Z)
  : ColorPalette.GameView :=
  {| ColorPalette.theme := th;
     ColorPalette.playerViews :=
       (fun k => ColorPalette.mkPlayerView k "player") <$> ids;
     ColorPalette.playerBySmallID :=
       fun k => ColorPalette.mkPlayerView k "player" |}.

(** A WebGL2 context with program 1 bound, nothing uploaded or logged
    yet. *)
Definition example_world : Effects.World :=
  Effects.mkWorld true (Some 1%nat)
    (fun _ name => if decide (name = "u_missing") then None else Some 7%nat)
    (fun _ name =>
       if decide (name = "u_color")
       then Some (Effects.mkActiveInfo "u_color" 1 GL.INT_VEC4)
       else if decide (name = "u_alpha")
       then Some (Effects.mkActiveInfo "u_alpha" 1 GL.FLOAT)
       else None)
    [] [].

Definition three_values : Uniform.UniformValue :=
  Uniform.VArray [JS.of_Z 1; JS.of_Z 2; JS.of_Z 3].

(* ===================================================================== *)
(** * Further parts of the sources                                        *)
(* ===================================================================== *)

(** ** The GPU side of TextureData and ColorPalette *)

Module Gpu.
Import TypedArrays.

(** The calls the texture code makes on the context.  [CreateTexture] is
    the call of [WebGLUtils.createTexture], which is not part of the
    sources at hand. *)
Inductive TexCall : Type :=
| CreateTexture (width height : Z) (data : TypedArray)
                (internalFormat format datatype : GL.GLenum)
| DeleteTexture (texture : nat)
| ActiveTexture (unit : Z)
| BindTexture (texture : option nat)
| TexImage2D (internalFormat : GL.GLenum) (width height : Z)
             (format datatype : GL.GLenum) (data : TypedArray).

(** The context as the texture code sees it.  [createTexture_result n] is
    what the [n]-th call of [WebGLUtils.createTexture] returns ([None] is
    [null]). *)
Record TexWorld : Type := mkTexWorld {
  createTexture_result : nat -> option nat;
  tex_calls : list TexCall                 (* oldest first *)
}.

Definition is_create (c : TexCall) : bool :=
  match c with CreateTexture _ _ _ _ _ _ => true | _ => false end.
Definition is_delete (c : TexCall) : bool :=
  match c with DeleteTexture _ => true | _ => false end.

(** How many textures have been created, deleted so far. *)
Definition created (w : TexWorld) : nat :=
  length (List.filter is_create (tex_calls w)).
Definition deleted (w : TexWorld) : nat :=
  length (List.filter is_delete (tex_calls w)).

Definition tex_record (cs : list TexCall) (w : TexWorld) : TexWorld :=
  mkTexWorld (createTexture_result w) (tex_calls w ++ cs).

Definition with_gpuTexture (td : TextureData.t) (h : option nat)
  : TextureData.t :=
  TextureData.mkTextureData h (TextureData.width td) (TextureData.height td)
    (TextureData.bpp td) (TextureData.stride td) (TextureData.bytes td)
    (TextureData.format td) (TextureData.internalFormat td)
    (TextureData.datatype td).

(** [TextureData.dispose] *)
Definition dispose (td : TextureData.t) (w : TexWorld)
  : TextureData.t * TexWorld :=
  match TextureData.gpuTexture td with
  | Some h => (with_gpuTexture td None, tex_record [DeleteTexture h] w)
  | None => (with_gpuTexture td None, w)
  end.

(** [TextureData.bindToTextureUnit]: [TEXTURE0 + unit] is recorded by its
    unit. *)
Definition bindToTextureUnit (td : TextureData.t) (unit : Z) (w : TexWorld)
  : TexWorld :=
  tex_record [ActiveTexture unit; BindTexture (TextureData.gpuTexture td)] w.

(** [TextureData.uploadChangesToGpu].  The two element types take the
    same calls; the final [throw] is for a buffer that is neither, which
    the two constructors of [TypedArray] leave out. *)
Definition uploadChangesToGpu (td : TextureData.t) (w : TexWorld)
  : TextureData.t * TexWorld :=
  match TextureData.gpuTexture td with
  | None =>
      let texture := createTexture_result w (created w) in
      (with_gpuTexture td texture,
       tex_record [CreateTexture (TextureData.width td)
                     (TextureData.height td) (TextureData.bytes td)
                     (TextureData.internalFormat td) (TextureData.format td)
                     (TextureData.datatype td)] w)
  | Some h =>
      (td,
       tex_record [BindTexture (Some h);
                   TexImage2D (TextureData.internalFormat td)
                     (TextureData.width td) (TextureData.height td)
                     (TextureData.format td) (TextureData.datatype td)
                     (TextureData.bytes td)] w)
  end.

Definition with_textureData (cp : ColorPalette.t)
    (td : option TextureData.t) : ColorPalette.t :=
  ColorPalette.mkColorPalette (ColorPalette.game cp)
    (ColorPalette.uniforms cp) (ColorPalette.needsGpuUpload cp)
    (ColorPalette.previousTheme cp) (ColorPalette.previousPlayerCount cp) td.

(** [ColorPalette.uploadToGpu] *)
Definition palette_uploadToGpu (cp : ColorPalette.t) (w : TexWorld)
  : ColorPalette.t * TexWorld :=
  if negb (ColorPalette.needsGpuUpload cp) then (cp, w) else
  match ColorPalette.textureData cp with
  | Some td =>
      let '(td', w') := uploadChangesToGpu td w in
      (with_textureData cp (Some td'), w')
  | None => (cp, w)
  end.

(** [ColorPalette.dispose] *)
Definition palette_dispose (cp : ColorPalette.t) (w : TexWorld)
  : ColorPalette.t * TexWorld :=
  match ColorPalette.textureData cp with
  | Some td =>
      let '(_, w') := dispose td w in (with_textureData cp None, w')
  | None => (with_textureData cp None, w)
  end.

(** One step of the palette's life between [init] and [dispose]: the
    per-frame [updateCpuData] on the game as it is then, or
    [uploadToGpu]. *)
Inductive PaletteStep : Type :=
| StepUpdate (gv : ColorPalette.GameView)
| StepUpload.

Definition palette_step (st : ColorPalette.t * TexWorld) (s : PaletteStep)
  : ColorPalette.t * TexWorld :=
  match s with
  | StepUpdate gv => (ColorPalette.updateCpuData gv (fst st), snd st)
  | StepUpload => palette_uploadToGpu (fst st) (snd st)
  end.

End Gpu.

(** ** More of the shader, the records and the setter *)

(** The uniforms with another palette texture bound. *)
Definition with_palette (U : Shader.Uniforms) (P : Shader.sampler2D)
  : Shader.Uniforms :=
  Shader.mkUniforms (Shader.u_tileTexture U) (Shader.u_hasFocusedPlayer U)
    (Shader.u_focusedPlayerId U) P (Shader.u_territoryAlpha U)
    (Shader.u_borderAlpha U) (Shader.u_focusedBorderColor U)
    (Shader.u_falloutColor U) (Shader.debug_draw_palette U)
    (Shader.debug_draw_tiles U).

(** [o[k]] on a JS record: the value of the property, if there is one. *)
Fixpoint record_get {V} (o : Uniform.JsRecord V) (k : string) : option V :=
  match o with
  | [] => None
  | (k', v) :: rest => if decide (k' = k) then Some v else record_get rest k
  end.

(** [UniformSetter.clearCache], which is also the body of [dispose]. *)
Definition clearCache (this : UniformSetter.t) : UniformSetter.t :=
  UniformSetter.mkUniformSetter (UniformSetter.program this) ∅ ∅.

(** The location and the uniform info [set] works with for a name: the
    cached answer when there is one, the driver's answer otherwise. *)
Definition location_of (this : UniformSetter.t) (w : Effects.World)
    (name : string) : option nat :=
  match UniformSetter.locationCache this !! name with
  | Some cached => cached
  | None => Effects.uniformLocation w (UniformSetter.program this) name
  end.

Definition info_of (this : UniformSetter.t) (w : Effects.World)
    (name : string) : option Effects.WebGLActiveInfo :=
  match UniformSetter.uniformInfoCache this !! name with
  | Some cached => cached
  | None => Effects.uniformInfoByName w (UniformSetter.program this) name
  end.

(** The world [ensureCorrectProgramBound] leaves: as it was when the
    setter's program is the bound one, and otherwise with the mismatch
    logged and the program bound. *)
Definition bound_world (this : UniformSetter.t) (w : Effects.World)
  : Effects.World :=
  if decide (Effects.CURRENT_PROGRAM w = Some (UniformSetter.program this))
  then w
  else Effects.record_call (Effects.UseProgram (UniformSetter.program this))
         (Effects.record_line Effects.AutoBinding
            (Effects.record_line
               (Effects.ProgramMismatch (UniformSetter.program this)
                  (Effects.CURRENT_PROGRAM w)) w)).

(** What [set] is to do for one entry, written out step by step: find the
    location (cache, else driver) and remember it, with a "not found" line
    for a driver miss; without a location leave it at that; with one, find
    the uniform info (cache, else driver), remember it, and run
    [setUniform] on the value. *)
Definition entry_step
    (setUniform : option nat -> Uniform.UniformValue ->
                  option Effects.WebGLActiveInfo -> option string ->
                  Effects.M unit)
    (st : UniformSetter.t * Effects.World)
    (entry : string * Uniform.UniformValue)
  : UniformSetter.t * Effects.World :=
  let this := fst st in
  let w := snd st in
  let name := fst entry in
  let value := snd entry in
  let location := location_of this w name in
  let this1 :=
    UniformSetter.mkUniformSetter (UniformSetter.program this)
      (<[name := location]> (UniformSetter.locationCache this))
      (UniformSetter.uniformInfoCache this) in
  match location with
  | None =>
      (this1,
       match UniformSetter.locationCache this !! name with
       | None => Effects.record_line (Effects.UniformNotFound name) w
       | Some _ => w
       end)
  | Some _ =>
      let uniformInfo := info_of this w name in
      (UniformSetter.mkUniformSetter (UniformSetter.program this)
         (UniformSetter.locationCache this1)
         (<[name := uniformInfo]> (UniformSetter.uniformInfoCache this)),
       Effects.exec (setUniform location value uniformInfo (Some name)) w)
  end.

(** Every value of the record stringifies. *)
Definition all_stringify (uniforms : Uniform.JsRecord Uniform.UniformValue)
  : Prop :=
  Forall (fun entry => Uniform.stringifies (snd entry) = true) uniforms.

(** What holds of the palette from [init] on: it is set up and
    [needsGpuUpload] is true. *)
Definition palette_live (cp : ColorPalette.t) : Prop :=
  palette_ready cp /\ ColorPalette.needsGpuUpload cp = true.

(** What one [setUniform] call may do to the world: nothing, one upload
    to the location it was given, or one line on the console. *)
Inductive setUniform_effect (location : option nat) (w w' : Effects.World)
  : Prop :=
| effect_none : w' = w -> setUniform_effect location w w'
| effect_upload (fn : Effects.GLFn) (args : list JS.number) :
    w' = Effects.record_call (Effects.Upload fn location args) w ->
    setUniform_effect location w w'
| effect_log (line : Effects.ConsoleLine) :
    w' = Effects.record_line line w -> setUniform_effect location w w'.

(** The same for a computation that may still throw: a throw leaves the
    world as it was. *)
Definition tame (location : option nat) (m : Effects.M unit) : Prop :=
  forall w,
    (exists fn args,
        m w = (Ok tt, Effects.record_call (Effects.Upload fn location args) w))
    \/ m w = (Ok tt, w)
    \/ (exists line, m w = (Ok tt, Effects.record_line line w))
    \/ (exists e, m w = (Throw e, w)).

(** The declared types for which the [switch] over a number value has a
    case, in both files. *)
Definition number_has_case (t : GL.GLenum) : bool :=
  match t with
  | GL.SAMPLER_2D | GL.SAMPLER_CUBE | GL.SAMPLER_2D_ARRAY
  | GL.UNSIGNED_INT_SAMPLER_2D | GL.INT_SAMPLER_2D
  | GL.FLOAT | GL.INT | GL.INT_VEC2 | GL.INT_VEC3 | GL.INT_VEC4
  | GL.UNSIGNED_INT | GL.BOOL => true
  | _ => false
  end.

(** The program declares a uniform [name] of type [t] at location [loc]:
    what the driver answers for a name the linked shader uses. *)
Definition declares (w : Effects.World) (p : nat) (name : string)
    (loc : nat) (t : GL.GLenum) : Prop :=
  Effects.uniformLocation w p name = Some loc
  /\ exists info,
       Effects.uniformInfoByName w p name = Some info
       /\ Effects.info_type info = t.

(** The three channels of a colour as a float vector uniform takes
    them. *)
Definition rgb_floats (c : TextureData.RgbaColor) : list JS.number :=
  [JS.div255 (TextureData.r c); JS.div255 (TextureData.g c);
   JS.div255 (TextureData.b c)].

(** A context whose program 1 declares the four palette uniforms as the
    fragment shader does, at locations 1 to 4. *)
Definition shader_world : Effects.World :=
  Effects.mkWorld true None
    (fun _ name =>
       if decide (name = "u_borderAlpha") then Some 1%nat
       else if decide (name = "u_territoryAlpha") then Some 2%nat
       else if decide (name = "u_focusedBorderColor") then Some 3%nat
       else if decide (name = "u_falloutColor") then Some 4%nat
       else None)
    (fun _ name =>
       if decide (name = "u_borderAlpha")
       then Some (Effects.mkActiveInfo name 1 GL.FLOAT)
       else if decide (name = "u_territoryAlpha")
       then Some (Effects.mkActiveInfo name 1 GL.FLOAT)
       else if decide (name = "u_focusedBorderColor")
       then Some (Effects.mkActiveInfo name 1 GL.FLOAT_VEC3)
       else if decide (name = "u_falloutColor")
       then Some (Effects.mkActiveInfo name 1 GL.FLOAT_VEC3)
       else None)
    [] [].

(* ===================================================================== *)
(** * Properties of the tile word and of the shader                       *)
(* ===================================================================== *)

Section TileWord.
Import Shader.

Lemma OWNER_ID_MASK_ones : OWNER_ID_MASK = Z.ones 12.
Proof. reflexivity. Qed.

Lemma FALLOUT_MASK_pow2 : FALLOUT_MASK = 2 ^ 13.
Proof. reflexivity. Qed.

Lemma DEFENSE_BONUS_MASK_pow2 : DEFENSE_BONUS_MASK = 2 ^ 14.
Proof. reflexivity. Qed.

(** Masking with a single bit tests that bit. *)
Lemma land_pow2_testbit (w n : Z) :
  0 <= n -> negb (Z.land w (2 ^ n) =? 0) = Z.testbit w n.
Proof.
  intros Hn.
  destruct (Z.testbit w n) eqn:Hb.
  - apply negb_true_iff, Z.eqb_neq. intros H0.
    assert (Z.testbit (Z.land w (2 ^ n)) n = false) as Hf
      by (rewrite H0; apply Z.bits_0).
    rewrite Z.land_spec, Hb, Z.pow2_bits_true in Hf by lia. discriminate.
  - apply negb_false_iff, Z.eqb_eq. apply Z.bits_inj'. intros i Hi.
    rewrite Z.land_spec, Z.bits_0.
    destruct (Z.eq_dec n i) as [<- | Hne].
    + rewrite Hb. reflexivity.
    + rewrite Z.pow2_bits_false by lia. apply andb_false_r.
Qed.

Lemma isFallout_testbit (w : Z) :
  isFallout (DecodeTileData w) = Z.testbit w 13.
Proof. apply (land_pow2_testbit w 13). lia. Qed.

Lemma hasDefenseBonus_testbit (w : Z) :
  hasDefenseBonus (DecodeTileData w) = Z.testbit w 14.
Proof. apply (land_pow2_testbit w 14). lia. Qed.

Lemma ownerId_testbit (w i : Z) :
  0 <= i ->
  Z.testbit (ownerId (DecodeTileData w)) i = Z.testbit w i && (i <? 12).
Proof.
  intros Hi. cbn [ownerId DecodeTileData].
  rewrite OWNER_ID_MASK_ones, Z.land_spec.
  destruct (Z.ltb_spec i 12).
  - rewrite Z.ones_spec_low by lia. reflexivity.
  - rewrite Z.ones_spec_high by lia. reflexivity.
Qed.

Lemma ownerId_mod (w : Z) : ownerId (DecodeTileData w) = w mod 4096.
Proof.
  cbn [ownerId DecodeTileData].
  rewrite OWNER_ID_MASK_ones, Z.land_ones by lia. reflexivity.
Qed.

(** The bits of an encoded word. *)
Lemma EncodeTileWord_testbit (owner : Z) (f d : bool) (i : Z) :
  0 <= i ->
  Z.testbit (EncodeTileWord owner f d) i
  = Z.testbit owner i || (f && (i =? 13)) || (d && (i =? 14)).
Proof.
  intros Hi. unfold EncodeTileWord.
  rewrite !Z.lor_spec, !Z.shiftl_spec by lia.
  assert (forall (b : bool) k, Z.testbit (Z.b2z b) (i - k) = b && (i =? k))
    as Hb.
  { intros b k. destruct (Z.eqb_spec i k) as [-> | Hne].
    - rewrite Z.sub_diag, Z.b2z_bit0, andb_true_r. reflexivity.
    - rewrite andb_false_r. destruct b; cbn [Z.b2z].
      + destruct (Z.lt_ge_cases (i - k) 0) as [Hlt | Hge].
        * apply Z.testbit_neg_r; lia.
        * change 1 with (2 ^ 0). apply Z.pow2_bits_false; lia.
      + apply Z.bits_0. }
  rewrite !Hb. reflexivity.
Qed.

Lemma small_testbit_high (a n i : Z) :
  0 <= a < 2 ^ n -> 0 <= n <= i -> Z.testbit a i = false.
Proof.
  intros Ha Hn. rewrite <- (Z.mod_small a (2 ^ n)) by lia.
  apply Z.mod_pow2_bits_high. lia.
Qed.

End TileWord.

(** C2. Decoding the word [ownerId | isFallout << 13 | hasDefenseBonus << 14]
    with [DecodeTileData] gives back exactly the triple
    [(ownerId, isFallout, hasDefenseBonus)], for every owner in 0..4095 and
    every pair of flags. *)
Theorem DecodeTileData_EncodeTileWord (owner : Z) (f d : bool) :
  0 <= owner <= 4095 ->
  Shader.DecodeTileData (Shader.EncodeTileWord owner f d)
  = Shader.mkTileData owner f d.
Proof.
  intros Ho.
  assert (forall i, 12 <= i -> Z.testbit owner i = false) as Hhigh
    by (intros i Hi; apply (small_testbit_high owner 12 i); lia).
  assert (Shader.ownerId
            (Shader.DecodeTileData (Shader.EncodeTileWord owner f d)) = owner)
    as Howner.
  { apply Z.bits_inj'. intros i Hi.
    rewrite ownerId_testbit, EncodeTileWord_testbit by lia.
    destruct (Z.ltb_spec i 12) as [Hlt | Hge].
    - replace (i =? 13) with false by (symmetry; apply Z.eqb_neq; lia).
      replace (i =? 14) with false by (symmetry; apply Z.eqb_neq; lia).
      rewrite !andb_false_r, !orb_false_r, andb_true_r. reflexivity.
    - rewrite andb_false_r, Hhigh by lia. reflexivity. }
  assert (Shader.isFallout
            (Shader.DecodeTileData (Shader.EncodeTileWord owner f d)) = f)
    as Hf.
  { rewrite isFallout_testbit, EncodeTileWord_testbit, Hhigh by lia.
    destruct f, d; reflexivity. }
  assert (Shader.hasDefenseBonus
            (Shader.DecodeTileData (Shader.EncodeTileWord owner f d)) = d)
    as Hd.
  { rewrite hasDefenseBonus_testbit, EncodeTileWord_testbit, Hhigh by lia.
    destruct f, d; reflexivity. }
  destruct (Shader.DecodeTileData (Shader.EncodeTileWord owner f d)).
  cbn in Howner, Hf, Hd. congruence.
Qed.

Lemma DecodeTileData_EncodeTileWord_witness :
  0 <= 4095 <= 4095
  /\ Shader.DecodeTileData (Shader.EncodeTileWord 4095 true false)
     = Shader.mkTileData 4095 true false.
Proof. split; [ lia | apply DecodeTileData_EncodeTileWord; lia ]. Defined.

(** C10. [DecodeTileData] reads only bits 0-11, 13 and 14 of its argument:
    two words that agree on those bits decode to the same triple, whatever
    their bits 12 and 15 (and above) are. *)
Theorem DecodeTileData_depends_on_field_bits (w1 w2 : Z) :
  (forall i, 0 <= i < 12 \/ i = 13 \/ i = 14 ->
             Z.testbit w1 i = Z.testbit w2 i) ->
  Shader.DecodeTileData w1 = Shader.DecodeTileData w2.
Proof.
  intros Hagree.
  assert (Shader.ownerId (Shader.DecodeTileData w1)
          = Shader.ownerId (Shader.DecodeTileData w2)) as Howner.
  { apply Z.bits_inj'. intros i Hi. rewrite !ownerId_testbit by lia.
    destruct (Z.ltb_spec i 12) as [Hlt | Hge].
    - rewrite Hagree by lia. reflexivity.
    - rewrite !andb_false_r. reflexivity. }
  pose proof (isFallout_testbit w1) as Hf1.
  pose proof (isFallout_testbit w2) as Hf2.
  pose proof (hasDefenseBonus_testbit w1) as Hd1.
  pose proof (hasDefenseBonus_testbit w2) as Hd2.
  rewrite (Hagree 13) in Hf1 by lia.
  rewrite (Hagree 14) in Hd1 by lia.
  destruct (Shader.DecodeTileData w1), (Shader.DecodeTileData w2).
  cbn in *. congruence.
Qed.

(** Bits 0-11, 13, 14 of 0x2ABC and of 0xBABC agree; bits 12 and 15
    differ. *)
Lemma DecodeTileData_depends_on_field_bits_witness :
  Z.testbit 10940 12 <> Z.testbit 47804 12
  /\ Z.testbit 10940 15 <> Z.testbit 47804 15
  /\ Shader.DecodeTileData 10940 = Shader.DecodeTileData 47804.
Proof.
  split; [ discriminate | split; [ discriminate | ] ].
  apply DecodeTileData_depends_on_field_bits.
  intros i [Hi | [-> | ->]]; [ | reflexivity | reflexivity ].
  assert (i = 0 \/ i = 1 \/ i = 2 \/ i = 3 \/ i = 4 \/ i = 5 \/ i = 6
          \/ i = 7 \/ i = 8 \/ i = 9 \/ i = 10 \/ i = 11) as Hcases by lia.
  repeat (destruct Hcases as [-> | Hcases]; [ reflexivity | ]).
  subst i. reflexivity.
Defined.

Section Border.
Import Shader.

(** A fetch that addresses a texel returns the stored word. *)
Lemma texelFetch_u_stored (t : usampler2D) (p : ivec2) (w : Z) :
  stored_word t p = Some w -> texelFetch_u t p = w.
Proof. unfold texelFetch_u. intros ->. reflexivity. Qed.

(** [isBorder] is the negation of "all four fetched owners match". *)
Lemma isBorder_false_iff (U : Uniforms) (p : ivec2) (owner : Z) :
  isBorder U p owner = false <->
  ownerId (DecodeTileData (texelFetch_u (u_tileTexture U) (offset p (-1) 0)))
    = owner
  /\ ownerId (DecodeTileData (texelFetch_u (u_tileTexture U) (offset p 1 0)))
    = owner
  /\ ownerId (DecodeTileData (texelFetch_u (u_tileTexture U) (offset p 0 (-1))))
    = owner
  /\ ownerId (DecodeTileData (texelFetch_u (u_tileTexture U) (offset p 0 1)))
    = owner.
Proof.
  unfold isBorder. cbn [ownerId DecodeTileData].
  rewrite negb_false_iff, !andb_true_iff, !Z.eqb_eq. tauto.
Qed.

End Border.

(** C3. For an interior tile (each of the four axis-aligned neighbour
    fetches addresses a stored word): when the owner field of all four
    neighbours equals the owner passed in (the tile's own [ownerId] in
    [territoryColor]), [isBorder] returns false; when the owner field of at
    least one neighbour differs, it returns true. *)
Theorem isBorder_interior
    (U : Shader.Uniforms) (p : Shader.ivec2) (owner wl wr wu wd : Z) :
  Shader.stored_word (Shader.u_tileTexture U) (Shader.offset p (-1) 0)
    = Some wl ->
  Shader.stored_word (Shader.u_tileTexture U) (Shader.offset p 1 0)
    = Some wr ->
  Shader.stored_word (Shader.u_tileTexture U) (Shader.offset p 0 (-1))
    = Some wu ->
  Shader.stored_word (Shader.u_tileTexture U) (Shader.offset p 0 1)
    = Some wd ->
  let owner_of w := Shader.ownerId (Shader.DecodeTileData w) in
  (owner_of wl = owner /\ owner_of wr = owner
   /\ owner_of wu = owner /\ owner_of wd = owner ->
   Shader.isBorder U p owner = false)
  /\ (owner_of wl <> owner \/ owner_of wr <> owner
      \/ owner_of wu <> owner \/ owner_of wd <> owner ->
      Shader.isBorder U p owner = true).
Proof.
  intros Hl Hr Hu Hd owner_of. subst owner_of.
  pose proof (isBorder_false_iff U p owner) as Hiff.
  rewrite (texelFetch_u_stored _ _ _ Hl), (texelFetch_u_stored _ _ _ Hr),
    (texelFetch_u_stored _ _ _ Hu), (texelFetch_u_stored _ _ _ Hd) in Hiff.
  split.
  - intros Hall. apply Hiff. exact Hall.
  - intros Hsome. apply not_false_iff_true. intros Hfalse.
    apply Hiff in Hfalse. tauto.
Qed.

Lemma isBorder_interior_witness :
  Shader.isBorder (border_example_uniforms border_example_texture)
    (Shader.mkivec2 1 1) 7 = true
  /\ Shader.isBorder
       (border_example_uniforms (Shader.mkUTex 3 3 [7; 8199; 7;
                                                    16391; 7; 7;
                                                    7; 7; 7]))
       (Shader.mkivec2 1 1) 7 = false.
Proof.
  split.
  - apply (isBorder_interior (border_example_uniforms border_example_texture)
             (Shader.mkivec2 1 1) 7 16391 7 8199 9);
      [ reflexivity | reflexivity | reflexivity | reflexivity | ].
    right; right; right. vm_compute. discriminate.
  - apply (isBorder_interior
             (border_example_uniforms (Shader.mkUTex 3 3 [7; 8199; 7;
                                                          16391; 7; 7;
                                                          7; 7; 7]))
             (Shader.mkivec2 1 1) 7 16391 7 8199 7);
      [ reflexivity | reflexivity | reflexivity | reflexivity | ].
    repeat split; reflexivity.
Defined.

Section TerritoryColor.
Import Shader.

Lemma DebugDrawTileData_off_stipple (U : Uniforms) (frag : ivec2) (c : vec4) :
  debug_stipple frag <> 0 -> DebugDrawTileData U frag c = c.
Proof.
  unfold DebugDrawTileData, debug_stipple. intros H.
  apply Z.eqb_neq in H. rewrite H. reflexivity.
Qed.

(** A fallout tile takes the fallout colour before the owner is looked
    at. *)
Lemma territoryColor_fallout (U : Uniforms) (frag : ivec2) :
  isFallout (ThisTile U frag) = true ->
  debug_draw_tiles U = false ->
  territoryColor U frag = vec4_rgb_a (u_falloutColor U) (u_territoryAlpha U).
Proof. unfold territoryColor. intros -> ->. reflexivity. Qed.

End TerritoryColor.

(** C1 (as amended). A tile whose decoded [ownerId] is 0 and whose fallout
    flag is clear is painted [vec4(0.0)] by [territoryColor], whatever its
    defense-bonus flag, provided the debug tile overlay does not recolour
    the fragment (it is off, or the fragment lies in an odd stipple
    cell). *)
Theorem territoryColor_unowned_transparent
    (U : Shader.Uniforms) (frag : Shader.ivec2) :
  Shader.ownerId (Shader.ThisTile U frag) = 0 ->
  Shader.isFallout (Shader.ThisTile U frag) = false ->
  Shader.debug_draw_tiles U = false \/ debug_stipple frag <> 0 ->
  Shader.territoryColor U frag = Shader.vec4_splat 0.
Proof.
  intros Howner Hfallout Hdebug. unfold Shader.territoryColor.
  rewrite Hfallout, Howner. cbn [Shader.UNOWNED_TERRITORY_ID Z.eqb].
  destruct Hdebug as [-> | Hst].
  - reflexivity.
  - rewrite DebugDrawTileData_off_stipple by exact Hst.
    destruct (Shader.debug_draw_tiles U); reflexivity.
Qed.

(** One unowned texel with the defense-bonus flag set and no fallout. *)
Lemma territoryColor_unowned_transparent_witness :
  Shader.hasDefenseBonus
    (Shader.ThisTile (border_example_uniforms (Shader.mkUTex 1 1 [16384]))
                     (Shader.mkivec2 0 0)) = true
  /\ Shader.territoryColor
       (border_example_uniforms (Shader.mkUTex 1 1 [16384]))
       (Shader.mkivec2 0 0) = Shader.vec4_splat 0.
Proof.
  split; [ reflexivity | ].
  apply territoryColor_unowned_transparent;
    [ reflexivity | reflexivity | left; reflexivity ].
Defined.

(** C1 as stated fails: an unowned texel whose fallout flag is set is
    painted with the fallout colour at the territory alpha, which is not
    transparent. *)
Lemma territoryColor_unowned_fallout_counterexample :
  let U := border_example_uniforms (Shader.mkUTex 1 1 [8192]) in
  let frag := Shader.mkivec2 0 0 in
  Shader.ownerId (Shader.ThisTile U frag) = 0
  /\ Shader.territoryColor U frag
     = Shader.mkvec4 0 1 0 (150 # 255)
  /\ Shader.territoryColor U frag <> Shader.vec4_splat 0
  /\ ~ (Shader.v4a (Shader.territoryColor U frag) == 0)%Q.
Proof.
  cbv zeta. split; [ reflexivity | ].
  split; [ reflexivity | ].
  split; [ discriminate | ].
  vm_compute. discriminate.
Qed.

(* ===================================================================== *)
(** * Properties of TextureData                                           *)
(* ===================================================================== *)

Section TextureDataFacts.
Import TypedArrays TextureData.

Lemma with_bytes_same (td : TextureData.t) : with_bytes td (bytes td) = td.
Proof. destruct td. reflexivity. Qed.

(** [row * this.stride[0]] is NaN for every row. *)
Lemma getRowIndex_NaN (td : TextureData.t) (row : Z) :
  getRowIndex td row = JS.NaN.
Proof. reflexivity. Qed.

Lemma store_at_NaN (arr : TypedArray) (v : JS.number) :
  store_at arr JS.NaN v = arr.
Proof. reflexivity. Qed.

(** [setRow] ignores its row: the data always lands at offset 0. *)
Lemma setRow_any_row (td : TextureData.t) (row : Z) (data : list Z) :
  setRow td row data = setRow td 0 data.
Proof. reflexivity. Qed.

(** [setPixelRgba] changes nothing: every index it computes is NaN. *)
Lemma setPixelRgba_unchanged (td : TextureData.t) (x y : Z) (c : RgbaColor) :
  setPixelRgba td x y c = td.
Proof.
  unfold setPixelRgba. rewrite getRowIndex_NaN. cbn [JS.add].
  rewrite !store_at_NaN. apply with_bytes_same.
Qed.

End TextureDataFacts.

(** C5 (the code departs from it). [setRow] does the same for every row
    as for row 0, and [setPixelRgba] changes nothing.  On a 2x2 RGBA
    texture, [setRow(1, data)] overwrites row 0 and leaves row 1 as it was,
    where C5 has row 1 written and row 0 kept; [setPixelRgba(1, 1, rgba)]
    leaves every byte as it was, where C5 has bytes 12..15 written. *)
Theorem TextureData_setRow_setPixelRgba_diverge :
  (forall td row data,
      TextureData.setRow td row data = TextureData.setRow td 0 data)
  /\ (forall td x y rgba, TextureData.setPixelRgba td x y rgba = td)
  /\ TextureData.setRow small_texture 1 small_row
  = Ok (TextureData.with_bytes small_texture
          (TypedArrays.Uint8Array
             [1; 2; 3; 4; 5; 6; 7; 8; 0; 0; 0; 0; 0; 0; 0; 0]))
  /\ claimed_setRow small_texture 1 small_row
     = [0; 0; 0; 0; 0; 0; 0; 0; 1; 2; 3; 4; 5; 6; 7; 8]
  /\ TextureData.bytes (TextureData.setPixelRgba small_texture 1 1 small_pixel)
     = TypedArrays.Uint8Array
         [0; 0; 0; 0; 0; 0; 0; 0; 0; 0; 0; 0; 0; 0; 0; 0]
  /\ claimed_setPixelRgba small_texture 1 1 small_pixel
     = [0; 0; 0; 0; 0; 0; 0; 0; 0; 0; 0; 0; 10; 20; 30; 40].
Proof.
  split; [ exact setRow_any_row | ].
  split; [ exact setPixelRgba_unchanged | ].
  repeat split; reflexivity.
Qed.

(* ===================================================================== *)
(** * Properties of ColorPalette                                          *)
(* ===================================================================== *)

Section Bytes.
Import TypedArrays.

Lemma length_store_list (l : list Z) (i v : Z) :
  length (store_list l i v) = length l.
Proof.
  unfold store_list. destruct (0 <=? i); [ apply length_insert | reflexivity ].
Qed.

Lemma load_store_same (l : list Z) (i v : Z) :
  0 <= i < Z.of_nat (length l) ->
  load_list (store_list l i v) i = Some v.
Proof.
  intros Hi. unfold load_list, store_list.
  destruct (Z.leb_spec 0 i); [ | lia ].
  apply list_lookup_insert_eq. lia.
Qed.

Lemma load_store_other (l : list Z) (i j v : Z) :
  i <> j -> load_list (store_list l i v) j = load_list l j.
Proof.
  intros Hne. unfold load_list, store_list.
  destruct (Z.leb_spec 0 j); [ | reflexivity ].
  destruct (Z.leb_spec 0 i); [ | reflexivity ].
  apply list_lookup_insert_ne. lia.
Qed.

Lemma load_replicate (n : nat) (v i : Z) :
  0 <= i < Z.of_nat n -> load_list (replicate n v) i = Some v.
Proof.
  intros Hi. unfold load_list.
  destruct (Z.leb_spec 0 i); [ | lia ].
  apply lookup_replicate_2. lia.
Qed.

(** A channel value that is already a byte is stored as it is. *)
Lemma ToUint8_byte (z : Z) : 0 <= z <= 255 -> JS.ToUint8 (JS.of_Z z) = z.
Proof.
  intros Hz. unfold JS.ToUint8, JS.of_Z, JS.Qtrunc. cbn [inject_Z Qnum Qden].
  rewrite Z.quot_1_r. apply Z.mod_small. lia.
Qed.

End Bytes.

Section PaletteBytes.
Import TypedArrays ColorPalette.

Lemma put_rgba_Uint8Array (l : list Z) (ro x bpp : Z) (c : Colord) :
  put_rgba (Uint8Array l) ro x bpp c = Uint8Array (put4 l (ro + x * bpp) c).
Proof. reflexivity. Qed.

Lemma length_put4 (l : list Z) (o : Z) (c : Colord) :
  length (put4 l o c) = length l.
Proof. unfold put4. rewrite !length_store_list. reflexivity. Qed.

Lemma load_put4_other (l : list Z) (o j : Z) (c : Colord) :
  j < o \/ o + 4 <= j -> load_list (put4 l o c) j = load_list l j.
Proof.
  intros Hj. unfold put4. rewrite !load_store_other by lia. reflexivity.
Qed.

Lemma texel4_put4_other (l : list Z) (o o' : Z) (c : Colord) :
  o' + 4 <= o \/ o + 4 <= o' -> texel4 (put4 l o' c) o = texel4 l o.
Proof.
  intros Hd. unfold texel4. rewrite !load_put4_other by lia. reflexivity.
Qed.

Lemma texel4_put4_same (l : list Z) (o : Z) (c : Colord) :
  0 <= o -> o + 3 < Z.of_nat (length l) ->
  texel4 (put4 l o c) o = Some (rgba_bytes c).
Proof.
  intros Ho Hlen. unfold texel4, put4.
  assert (forall l' i j v, i = j -> 0 <= i < Z.of_nat (length l') ->
                           load_list (store_list l' i v) j = Some v) as Hsame
    by (intros l' i j v <- Hi; apply load_store_same; exact Hi).
  rewrite (load_store_other _ (o + 3) o) by lia.
  rewrite (load_store_other _ (o + 2) o) by lia.
  rewrite (load_store_other _ (o + 1) o) by lia.
  rewrite (Hsame _ (o + 0) o) by lia.
  rewrite (load_store_other _ (o + 3) (o + 1)) by lia.
  rewrite (load_store_other _ (o + 2) (o + 1)) by lia.
  rewrite load_store_same by (rewrite !length_store_list; lia).
  rewrite (load_store_other _ (o + 3) (o + 2)) by lia.
  rewrite load_store_same by (rewrite !length_store_list; lia).
  rewrite load_store_same by (rewrite !length_store_list; lia).
  reflexivity.
Qed.

Lemma write_column_Uint8Array (gv : GameView) (th : Theme) (l : list Z)
    (x : Z) :
  write_column gv th (4096 * 4) 4 (Uint8Array l) x
  = Uint8Array (write_column_list gv th l x).
Proof. reflexivity. Qed.

Lemma foldl_write_column_Uint8Array (gv : GameView) (th : Theme)
    (xs : list Z) (l : list Z) :
  foldl (write_column gv th (4096 * 4) 4) (Uint8Array l) xs
  = Uint8Array (foldl (write_column_list gv th) l xs).
Proof.
  revert l. induction xs as [ | x xs IH ]; intros l; [ reflexivity | ].
  cbn [foldl]. rewrite write_column_Uint8Array. apply IH.
Qed.

Lemma length_write_column_list (gv : GameView) (th : Theme) (l : list Z)
    (x : Z) :
  length (write_column_list gv th l x) = length l.
Proof. unfold write_column_list. rewrite !length_put4. reflexivity. Qed.

Lemma length_foldl_write_column_list (gv : GameView) (th : Theme)
    (xs : list Z) (l : list Z) :
  length (foldl (write_column_list gv th) l xs) = length l.
Proof.
  revert l. induction xs as [ | x xs IH ]; intros l; [ reflexivity | ].
  cbn [foldl]. rewrite IH. apply length_write_column_list.
Qed.

(** Writing column [x'] leaves the texels of every other column in
    1..4095 alone, also when [x'] is 4096 and the stores run over into the
    next row. *)
Lemma texel4_write_column_other (gv : GameView) (th : Theme) (l : list Z)
    (x x' row : Z) :
  1 <= x <= 4095 -> 1 <= x' <= 4096 -> x <> x' -> 0 <= row <= 5 ->
  texel4 (write_column_list gv th l x') (row * 16384 + x * 4)
  = texel4 l (row * 16384 + x * 4).
Proof.
  intros Hx Hx' Hne Hrow. unfold write_column_list.
  rewrite !texel4_put4_other by lia. reflexivity.
Qed.

(** Writing column [x] sets its texel in each of the six rows. *)
Lemma texel4_write_column_same (gv : GameView) (th : Theme) (l : list Z)
    (x row : Z) :
  Z.of_nat (length l) = 98304 ->
  1 <= x <= 4095 -> 0 <= row <= 5 ->
  texel4 (write_column_list gv th l x) (row * 16384 + x * 4)
  = Some (rgba_bytes (row_color th row (playerBySmallID gv x))).
Proof.
  intros Hlen Hx Hrow. unfold write_column_list.
  assert (row = 0 \/ row = 1 \/ row = 2 \/ row = 3 \/ row = 4 \/ row = 5)
    as Hcases by lia.
  destruct Hcases as [-> | [-> | [-> | [-> | [-> | ->]]]]];
    cbn [row_color Z.eqb Pos.eqb];
    rewrite ?texel4_put4_other by lia;
    (rewrite texel4_put4_same by (rewrite ?length_put4; lia));
    reflexivity.
Qed.

Lemma texel4_foldl_not_in (gv : GameView) (th : Theme) (xs : list Z)
    (l : list Z) (x row : Z) :
  1 <= x <= 4095 -> 0 <= row <= 5 ->
  (forall x', x' ∈ xs -> 1 <= x' <= 4096) ->
  x ∉ xs ->
  texel4 (foldl (write_column_list gv th) l xs) (row * 16384 + x * 4)
  = texel4 l (row * 16384 + x * 4).
Proof.
  intros Hx Hrow. revert l.
  induction xs as [ | x' xs IH ]; intros l Hrange Hnotin; [ reflexivity | ].
  cbn [foldl]. rewrite IH.
  - apply texel4_write_column_other; [ lia | | | lia ].
    + apply Hrange. left.
    + intros ->. apply Hnotin. left.
  - intros y Hy. apply Hrange. right. exact Hy.
  - intros Hin. apply Hnotin. right. exact Hin.
Qed.

Lemma texel4_foldl_in (gv : GameView) (th : Theme) (xs : list Z)
    (l : list Z) (x row : Z) :
  Z.of_nat (length l) = 98304 ->
  1 <= x <= 4095 -> 0 <= row <= 5 ->
  (forall x', x' ∈ xs -> 1 <= x' <= 4096) ->
  NoDup xs -> x ∈ xs ->
  texel4 (foldl (write_column_list gv th) l xs) (row * 16384 + x * 4)
  = Some (rgba_bytes (row_color th row (playerBySmallID gv x))).
Proof.
  intros Hlen Hx Hrow. revert l Hlen.
  induction xs as [ | x' xs IH ]; intros l Hlen Hrange Hnd Hin.
  - inversion Hin.
  - cbn [foldl]. apply NoDup_cons in Hnd as [Hfresh Hnd].
    apply elem_of_cons in Hin as [-> | Hin].
    + rewrite texel4_foldl_not_in; [ | lia | lia | | exact Hfresh ].
      * apply texel4_write_column_same; assumption.
      * intros y Hy. apply Hrange. right. exact Hy.
    + apply IH; [ | | exact Hnd | exact Hin ].
      * rewrite length_write_column_list. exact Hlen.
      * intros y Hy. apply Hrange. right. exact Hy.
Qed.

End PaletteBytes.

Section PaletteUpdate.
Import TypedArrays ColorPalette.

Lemma written_columns_range (gv : GameView) (x : Z) :
  x ∈ written_columns gv <->
  1 <= x <= 4096 /\ x <= maxSmallId (playerViews gv).
Proof. unfold written_columns. rewrite elem_of_seqZ. lia. Qed.

Lemma new_palette_bytes :
  TextureData.bytes
    (TextureData.new MAX_UNIQUE_PLAYER_COLORS PALETTE_TEXTURE_HEIGHT 4
       GL.RGBA GL.RGBA GL.UNSIGNED_BYTE)
  = Uint8Array (replicate (Z.to_nat 98304) 0).
Proof. reflexivity. Qed.

Lemma updateCpuData_clean (gv : GameView) (cp : ColorPalette.t) :
  needsCpuUpdate gv cp = false -> updateCpuData gv cp = cp.
Proof.
  intros Hclean. unfold updateCpuData.
  destruct (game cp); [ | reflexivity ].
  destruct (textureData cp); [ | reflexivity ].
  rewrite Hclean. reflexivity.
Qed.

Lemma updateCpuData_dirty (gv : GameView) (cp : ColorPalette.t)
    (td : TextureData.t) (l : list Z) :
  game cp = true -> textureData cp = Some td ->
  TextureData.width td = 4096 -> TextureData.bytes td = Uint8Array l ->
  needsCpuUpdate gv cp = true ->
  textureData (updateCpuData gv cp)
  = Some (TextureData.with_bytes td
            (Uint8Array (foldl (write_column_list gv (theme gv)) l
                               (written_columns gv))))
  /\ game (updateCpuData gv cp) = true
  /\ needsGpuUpload (updateCpuData gv cp) = true
  /\ previousTheme (updateCpuData gv cp) = Some (themeRef (theme gv))
  /\ previousPlayerCount (updateCpuData gv cp)
     = Some (currentPlayerCount gv).
Proof.
  intros Hgame Htd Hw Hb Hdirty. unfold updateCpuData.
  rewrite Hgame, Htd, Hdirty. cbn [negb]. cbv zeta.
  cbn [textureData game needsGpuUpload previousTheme previousPlayerCount].
  rewrite Hw, Hb. unfold currentTheme, written_columns.
  rewrite foldl_write_column_Uint8Array. auto.
Qed.

Lemma texel_texel4 (cp : ColorPalette.t) (td : TextureData.t) (l : list Z)
    (x row : Z) :
  textureData cp = Some td ->
  TextureData.bpp td = 4 -> TextureData.stride td = 16384 ->
  TextureData.bytes td = Uint8Array l ->
  texel cp x row = texel4 l (row * 16384 + x * 4).
Proof.
  intros Htd Hbpp Hstride Hb. unfold texel.
  rewrite Htd, Hbpp, Hstride, Hb. reflexivity.
Qed.

(** A recomputation keeps the palette in shape. *)
Lemma updateCpuData_ready (gv : GameView) (cp : ColorPalette.t) :
  palette_ready cp -> palette_ready (updateCpuData gv cp).
Proof.
  intros Hready.
  destruct (needsCpuUpdate gv cp) eqn:Hdirty;
    [ | rewrite updateCpuData_clean by exact Hdirty; exact Hready ].
  destruct Hready as (Hgame & td & l & Htd & Hw & Hbpp & Hstride & Hb & Hlen).
  destruct (updateCpuData_dirty gv cp td l Hgame Htd Hw Hb Hdirty)
    as (Htd' & Hgame' & _).
  split; [ exact Hgame' | ].
  eexists _, _. split; [ exact Htd' | ].
  destruct td; cbn in *.
  rewrite length_foldl_write_column_list. auto.
Qed.

(** Columns above the largest small ID keep their bytes. *)
Lemma updateCpuData_column_above_max (gv : GameView) (cp : ColorPalette.t)
    (x row : Z) :
  palette_ready cp ->
  1 <= x <= 4095 -> maxSmallId (playerViews gv) < x -> 0 <= row <= 5 ->
  texel (updateCpuData gv cp) x row = texel cp x row.
Proof.
  intros Hready Hx Hmax Hrow.
  destruct (needsCpuUpdate gv cp) eqn:Hdirty;
    [ | rewrite updateCpuData_clean by exact Hdirty; reflexivity ].
  destruct Hready as (Hgame & td & l & Htd & Hw & Hbpp & Hstride & Hb & Hlen).
  destruct (updateCpuData_dirty gv cp td l Hgame Htd Hw Hb Hdirty)
    as (Htd' & _).
  rewrite (texel_texel4 cp td l x row Htd Hbpp Hstride Hb).
  erewrite (texel_texel4 _ _ _ x row Htd');
    [ | destruct td; exact Hbpp | destruct td; exact Hstride
      | destruct td; reflexivity ].
  apply texel4_foldl_not_in; [ lia | lia | | ].
  - intros x' Hx'. apply written_columns_range in Hx'. lia.
  - intros Hin. apply written_columns_range in Hin. lia.
Qed.

End PaletteUpdate.

(** C4 (as amended). On a palette set up by [init], after a call of
    [updateCpuData] that recomputes the palette (the dirty check fires),
    for every ownerId from 1 up to the largest small ID among the game's
    player views, and at most 4095, the palette column [x = ownerId] holds
    in rows 0 to 5 the RGBA channels, as a Uint8Array stores them, of the
    theme's territory, special-building, railroad, undefended-border,
    defended-border-light and defended-border-dark colours for
    [playerBySmallID(ownerId)], as of that call. *)
Theorem updateCpuData_fills_player_columns
    (gv : ColorPalette.GameView) (cp : ColorPalette.t) (ownerId row : Z) :
  palette_ready cp ->
  ColorPalette.needsCpuUpdate gv cp = true ->
  1 <= ownerId <= 4095 ->
  ownerId <= ColorPalette.maxSmallId (ColorPalette.playerViews gv) ->
  0 <= row <= 5 ->
  ColorPalette.texel (ColorPalette.updateCpuData gv cp) ownerId row
  = Some (ColorPalette.rgba_bytes
            (ColorPalette.row_color (ColorPalette.theme gv) row
               (ColorPalette.playerBySmallID gv ownerId))).
Proof.
  intros Hready Hdirty Hx Hmax Hrow.
  destruct Hready as (Hgame & td & l & Htd & Hw & Hbpp & Hstride & Hb & Hlen).
  destruct (updateCpuData_dirty gv cp td l Hgame Htd Hw Hb Hdirty)
    as (Htd' & _).
  erewrite (texel_texel4 _ _ _ ownerId row Htd');
    [ | destruct td; exact Hbpp | destruct td; exact Hstride
      | destruct td; reflexivity ].
  apply texel4_foldl_in; [ exact Hlen | lia | lia | | | ].
  - intros x' Hx'. apply written_columns_range in Hx'. lia.
  - apply NoDup_seqZ.
  - apply written_columns_range. lia.
Qed.

Section PaletteInit.
Import TypedArrays ColorPalette.

Lemma init_fields_ready (cp : ColorPalette.t) : palette_ready (init_fields cp).
Proof.
  split; [ reflexivity | ].
  eexists _, (replicate (Z.to_nat 98304) 0).
  split; [ reflexivity | ].
  split; [ reflexivity | ].
  split; [ reflexivity | ].
  split; [ reflexivity | ].
  split; [ apply new_palette_bytes | ].
  rewrite length_replicate. lia.
Qed.

Lemma init_ready (gv : GameView) (cp : ColorPalette.t) :
  palette_ready (init gv cp).
Proof. apply updateCpuData_ready, init_fields_ready. Qed.

Lemma texel_init_fields (cp : ColorPalette.t) (x row : Z) :
  1 <= x <= 4095 -> 0 <= row <= 5 ->
  texel (init_fields cp) x row = Some [0; 0; 0; 0].
Proof.
  intros Hx Hrow.
  erewrite texel_texel4;
    [ | reflexivity | reflexivity | reflexivity | apply new_palette_bytes ].
  unfold texel4. rewrite !load_replicate by lia. reflexivity.
Qed.

(** The fields other than the texture after a recomputation. *)
Lemma updateCpuData_dirty_fields (gv : GameView) (cp : ColorPalette.t)
    (td : TextureData.t) :
  game cp = true -> textureData cp = Some td ->
  needsCpuUpdate gv cp = true ->
  game (updateCpuData gv cp) = true
  /\ previousTheme (updateCpuData gv cp) = Some (themeRef (theme gv))
  /\ previousPlayerCount (updateCpuData gv cp)
     = Some (currentPlayerCount gv)
  /\ exists td', textureData (updateCpuData gv cp) = Some td'.
Proof.
  intros Hgame Htd Hdirty. unfold updateCpuData.
  rewrite Hgame, Htd, Hdirty. cbn [negb]. cbv zeta.
  cbn [textureData game previousTheme previousPlayerCount].
  unfold currentTheme. eauto.
Qed.

Lemma needsCpuUpdate_after_update (gv : GameView) (cp : ColorPalette.t)
    (td : TextureData.t) :
  game cp = true -> textureData cp = Some td ->
  needsCpuUpdate gv (updateCpuData gv cp) = false.
Proof.
  intros Hgame Htd.
  destruct (needsCpuUpdate gv cp) eqn:Hdirty.
  - destruct (updateCpuData_dirty_fields gv cp td Hgame Htd Hdirty)
      as (_ & Hth & Hcount & _).
    unfold needsCpuUpdate. rewrite Hth, Hcount.
    rewrite !bool_decide_eq_true_2 by reflexivity. reflexivity.
  - rewrite updateCpuData_clean by exact Hdirty. exact Hdirty.
Qed.

(** The dirty check depends on the game only through the identity of its
    theme and the number of its players. *)
Lemma needsCpuUpdate_ext (gv gv' : GameView) (cp : ColorPalette.t) :
  themeRef (theme gv') = themeRef (theme gv) ->
  length (playerViews gv') = length (playerViews gv) ->
  needsCpuUpdate gv' cp = needsCpuUpdate gv cp.
Proof.
  intros Hth Hn. unfold needsCpuUpdate, currentTheme, currentPlayerCount.
  rewrite Hth, Hn. reflexivity.
Qed.

End PaletteInit.

Lemma updateCpuData_fills_player_columns_witness :
  ColorPalette.texel
    (ColorPalette.updateCpuData
       (example_game (example_theme 1 0) [1; 2; 3])
       (ColorPalette.init_fields ColorPalette.new)) 2 3
  = Some [25; 26; 27; 1].
Proof.
  apply (updateCpuData_fills_player_columns
           (example_game (example_theme 1 0) [1; 2; 3])
           (ColorPalette.init_fields ColorPalette.new) 2 3).
  - apply init_fields_ready.
  - reflexivity.
  - lia.
  - vm_compute. discriminate.
  - lia.
Defined.

(** C4 as stated fails above the largest small ID: with one player, small
    ID 1, column 2 of the palette still holds the zero bytes of the fresh
    buffer after [init] has run [updateCpuData], not the colours the theme
    gives for [playerBySmallID(2)]. *)
Lemma updateCpuData_column_above_max_counterexample :
  let gv := example_game (example_theme 1 0) [1] in
  let cp := ColorPalette.init gv ColorPalette.new in
  ColorPalette.texel cp 2 0 = Some [0; 0; 0; 0]
  /\ ColorPalette.rgba_bytes
       (ColorPalette.row_color (ColorPalette.theme gv) 0
          (ColorPalette.playerBySmallID gv 2)) = [20; 21; 22; 1]
  /\ ColorPalette.texel cp 2 0
     <> Some (ColorPalette.rgba_bytes
                (ColorPalette.row_color (ColorPalette.theme gv) 0
                   (ColorPalette.playerBySmallID gv 2))).
Proof.
  cbv zeta.
  assert (ColorPalette.texel
            (ColorPalette.init (example_game (example_theme 1 0) [1])
                               ColorPalette.new) 2 0
          = Some [0; 0; 0; 0]) as Hzero.
  { unfold ColorPalette.init.
    rewrite updateCpuData_column_above_max;
      [ | apply init_fields_ready | lia | vm_compute; reflexivity | lia ].
    apply texel_init_fields; lia. }
  split; [ exact Hzero | ].
  split; [ reflexivity | ].
  rewrite Hzero. discriminate.
Qed.

(** C8. When the theme object and the number of players are the same as
    at the previous call, a second [updateCpuData] returns at the dirty
    check: whatever colours the theme would give now, the byte buffer, the
    uniforms record, [needsGpuUpload] and every other field are exactly as
    the first call left them. *)
Theorem updateCpuData_twice_unchanged
    (gv gv' : ColorPalette.GameView) (cp : ColorPalette.t) :
  ColorPalette.themeRef (ColorPalette.theme gv')
  = ColorPalette.themeRef (ColorPalette.theme gv) ->
  length (ColorPalette.playerViews gv')
  = length (ColorPalette.playerViews gv) ->
  ColorPalette.updateCpuData gv' (ColorPalette.updateCpuData gv cp)
  = ColorPalette.updateCpuData gv cp.
Proof.
  intros Hth Hn.
  destruct (ColorPalette.game cp) eqn:Hgame.
  - destruct (ColorPalette.textureData cp) as [td | ] eqn:Htd.
    + apply updateCpuData_clean.
      rewrite (needsCpuUpdate_ext gv gv') by assumption.
      apply (needsCpuUpdate_after_update gv cp td); assumption.
    + assert (forall g, ColorPalette.updateCpuData g cp = cp) as Hskip
        by (intros g; unfold ColorPalette.updateCpuData;
            rewrite Hgame, Htd; reflexivity).
      rewrite !Hskip. reflexivity.
  - assert (forall g, ColorPalette.updateCpuData g cp = cp) as Hskip
      by (intros g; unfold ColorPalette.updateCpuData;
          rewrite Hgame; reflexivity).
    rewrite !Hskip. reflexivity.
Qed.

(** The second game has the same theme object, now answering with other
    colours, and as many players. *)
Lemma updateCpuData_twice_unchanged_witness :
  ColorPalette.updateCpuData
    (example_game (example_theme 1 50) [4; 5])
    (ColorPalette.updateCpuData
       (example_game (example_theme 1 0) [1; 2])
       (ColorPalette.init_fields ColorPalette.new))
  = ColorPalette.updateCpuData
      (example_game (example_theme 1 0) [1; 2])
      (ColorPalette.init_fields ColorPalette.new).
Proof.
  apply updateCpuData_twice_unchanged; reflexivity.
Defined.

(* ===================================================================== *)
(** * Properties of setUniform and UniformSetter.set                      *)
(* ===================================================================== *)

Section Catch.
Import Uniform Effects.

(** The [catch] block logs and returns when the value stringifies. *)
Lemma try_catch_log_exception (m : M unit) (value : UniformValue)
    (name : option string) (uniformInfo : option WebGLActiveInfo) (w : World) :
  stringifies value = true ->
  try_catch m (log_exception value name uniformInfo) w
  = match m w with
    | (Ok _, w') => (Ok tt, w')
    | (Throw e, w') =>
        (Ok tt,
         record_line (ExceptionSettingUniform (logged_name name uniformInfo) e)
           w')
    end.
Proof.
  intros Hs. unfold try_catch, log_exception. rewrite Hs.
  destruct (m w) as [[[] | e] w']; reflexivity.
Qed.

Lemma Live_setUniform_returns location value uniformInfo name w :
  stringifies value = true ->
  exists w', Live.setUniform location value uniformInfo name w = (Ok tt, w').
Proof.
  intros Hs. unfold Live.setUniform.
  rewrite try_catch_log_exception by exact Hs.
  destruct (Live.setUniform_body _ _ _ _ w) as [[[] | e] w']; eauto.
Qed.

Lemma Strict_setUniform_returns location value uniformInfo name w :
  stringifies value = true ->
  exists w', Strict.setUniform location value uniformInfo name w = (Ok tt, w').
Proof.
  intros Hs. unfold Strict.setUniform.
  rewrite try_catch_log_exception by exact Hs.
  destruct (Strict.setUniform_body _ _ _ _ w) as [[[] | e] w']; eauto.
Qed.

(** What [Object.entries] lists are the properties of the record. *)
Lemma insert_indexed_elem {V} (i : N) (e e' : string * V)
    (l : list (N * (string * V))) :
  e' ∈ (snd <$> insert_indexed i e l) <-> e' = e \/ e' ∈ (snd <$> l).
Proof.
  induction l as [ | [j x] rest IH ]; cbn.
  - rewrite list_elem_of_singleton, elem_of_nil. tauto.
  - destruct (i <? j)%N; cbn; rewrite !elem_of_cons; [ tauto | ].
    rewrite IH. tauto.
Qed.

Lemma length_insert_indexed {V} (i : N) (e : string * V)
    (l : list (N * (string * V))) :
  length (insert_indexed i e l) = S (length l).
Proof.
  induction l as [ | [j x] rest IH ]; cbn; [ reflexivity | ].
  destruct (i <? j)%N; cbn; [ reflexivity | ]. rewrite IH. reflexivity.
Qed.

Lemma entries_elem {V} (o : JsRecord V) (e : string * V) :
  e ∈ entries o <-> e ∈ o.
Proof.
  unfold entries. induction o as [ | [k v] rest IH ]; cbn; [ reflexivity | ].
  destruct (split_keys rest) as [indexed named].
  destruct (array_index k); rewrite elem_of_cons, <- IH, !elem_of_app.
  - rewrite insert_indexed_elem. tauto.
  - rewrite elem_of_cons. tauto.
Qed.

Lemma length_entries {V} (o : JsRecord V) : length (entries o) = length o.
Proof.
  unfold entries. induction o as [ | [k v] rest IH ]; cbn; [ reflexivity | ].
  destruct (split_keys rest) as [indexed named].
  destruct (array_index k); rewrite length_app, length_fmap in *; cbn.
  - rewrite length_insert_indexed. lia.
  - lia.
Qed.

Lemma all_stringify_entries (uniforms : JsRecord UniformValue) :
  all_stringify uniforms -> all_stringify (entries uniforms).
Proof.
  unfold all_stringify. rewrite !Forall_forall.
  intros H e He. apply H, entries_elem, He.
Qed.

End Catch.

Section SetLoop.
Import Uniform Effects UniformSetter.

Variable setUniform :
  option nat -> UniformValue -> option WebGLActiveInfo -> option string
  -> M unit.
Hypothesis setUniform_returns :
  forall location value uniformInfo name w,
    stringifies value = true ->
    exists w', setUniform location value uniformInfo name w = (Ok tt, w').

Lemma ensureCorrectProgramBound_returns (this : UniformSetter.t) (w : World) :
  ensureCorrectProgramBound this w = (Ok tt, bound_world this w).
Proof.
  unfold bound_world, ensureCorrectProgramBound, bind, gl_currentProgram.
  destruct (decide (CURRENT_PROGRAM w = Some (program this))); reflexivity.
Qed.

(** The callback of [set] does what [entry_step] says, and returns, when
    the value stringifies. *)
Lemma set_entry_step (this : UniformSetter.t)
    (entry : string * UniformValue) (w : World) :
  stringifies (snd entry) = true ->
  set_entry setUniform this entry w
  = (Ok (fst (entry_step setUniform (this, w) entry)),
     snd (entry_step setUniform (this, w) entry)).
Proof.
  destruct entry as [name value]. cbn [snd]. intros Hs.
  unfold set_entry, entry_step, getLocation, getUniformInfo, location_of,
    info_of, bind, ret, exec.
  cbn [fst snd].
  destruct (locationCache this !! name) as [cached | ] eqn:Hc.
  - rewrite (insert_id _ _ _ Hc).
    destruct cached as [loc | ].
    + destruct (uniformInfoCache this !! name) as [info | ] eqn:Hi.
      * rewrite (insert_id _ _ _ Hi).
        destruct (setUniform_returns (Some loc) value info (Some name) w Hs)
          as (w' & ->).
        destruct this; reflexivity.
      * cbn [program locationCache uniformInfoCache].
        destruct (setUniform_returns (Some loc) value
                    (uniformInfoByName w (program this) name) (Some name) w Hs)
          as (w' & ->).
        reflexivity.
    + destruct this; reflexivity.
  - destruct (uniformLocation w (program this) name) as [loc | ] eqn:Hl.
    + cbn [program locationCache uniformInfoCache].
      destruct (uniformInfoCache this !! name) as [info | ] eqn:Hi.
      * rewrite (insert_id _ _ _ Hi).
        destruct (setUniform_returns (Some loc) value info (Some name) w Hs)
          as (w' & ->).
        reflexivity.
      * destruct (setUniform_returns (Some loc) value
                    (uniformInfoByName w (program this) name) (Some name) w Hs)
          as (w' & ->).
        reflexivity.
    + reflexivity.
Qed.

(** The loop of [set] runs the step on every entry. *)
Lemma forEach_set_entry (uniforms : list (string * UniformValue))
    (this : UniformSetter.t) (w : World) :
  all_stringify uniforms ->
  forEach uniforms (set_entry setUniform) this w
  = (Ok (fst (foldl (entry_step setUniform) (this, w) uniforms)),
     snd (foldl (entry_step setUniform) (this, w) uniforms)).
Proof.
  unfold all_stringify. intros Hall. revert this w.
  induction Hall as [ | entry rest Hs Hall IH ]; intros this w.
  - reflexivity.
  - cbn [forEach foldl]. unfold bind at 1.
    rewrite (set_entry_step this entry w Hs).
    rewrite IH. destruct (entry_step setUniform (this, w) entry).
    reflexivity.
Qed.

Lemma set_runs_every_entry (this : UniformSetter.t)
    (uniforms : JsRecord UniformValue) (w : World) :
  all_stringify uniforms ->
  UniformSetter.set setUniform this uniforms w
  = (Ok (fst (foldl (entry_step setUniform) (this, bound_world this w)
                (entries uniforms))),
     snd (foldl (entry_step setUniform) (this, bound_world this w)
            (entries uniforms))).
Proof.
  intros Hall. unfold UniformSetter.set, bind at 1.
  rewrite ensureCorrectProgramBound_returns.
  apply forEach_set_entry, all_stringify_entries, Hall.
Qed.

End SetLoop.

(** C7 (as amended). For every value that stringifies (a number, a
    boolean, a typed array, an array, a Colord, an object with a prototype;
    not a Symbol, not a prototype-less object) and every location, uniform
    info and name, in every state of the context, both [setUniform]
    implementations return normally: an exception raised in the body is
    caught and written to the console as one line.  [UniformSetter.set] on
    a record of such values therefore returns normally too, having run,
    for every entry in the order of [Object.entries] and each from the
    state the previous one left, the location lookup and, where a location
    exists, the info lookup and [setUniform], whether or not an earlier
    upload failed. *)
Theorem setUniform_caught_and_set_runs_every_entry
    (location : option nat) (value : Uniform.UniformValue)
    (uniformInfo : option Effects.WebGLActiveInfo) (name : option string)
    (this : UniformSetter.t)
    (uniforms : Uniform.JsRecord Uniform.UniformValue) (w : Effects.World) :
  Uniform.stringifies value = true ->
  all_stringify uniforms ->
  Live.setUniform location value uniformInfo name w
  = match Live.setUniform_body location value uniformInfo name w with
    | (Ok _, w') => (Ok tt, w')
    | (Throw e, w') =>
        (Ok tt,
         Effects.record_line
           (Effects.ExceptionSettingUniform
              (Effects.logged_name name uniformInfo) e) w')
    end
  /\ Strict.setUniform location value uniformInfo name w
     = match Strict.setUniform_body location value uniformInfo name w with
       | (Ok _, w') => (Ok tt, w')
       | (Throw e, w') =>
           (Ok tt,
            Effects.record_line
              (Effects.ExceptionSettingUniform
                 (Effects.logged_name name uniformInfo) e) w')
       end
  /\ UniformSetter.set Live.setUniform this uniforms w
     = (Ok (fst (foldl (entry_step Live.setUniform)
                   (this, bound_world this w) (Uniform.entries uniforms))),
        snd (foldl (entry_step Live.setUniform)
               (this, bound_world this w) (Uniform.entries uniforms)))
  /\ UniformSetter.set Strict.setUniform this uniforms w
     = (Ok (fst (foldl (entry_step Strict.setUniform)
                   (this, bound_world this w) (Uniform.entries uniforms))),
        snd (foldl (entry_step Strict.setUniform)
               (this, bound_world this w) (Uniform.entries uniforms))).
Proof.
  intros Hs Hall.
  split; [ apply try_catch_log_exception, Hs | ].
  split; [ apply try_catch_log_exception, Hs | ].
  split.
  - apply set_runs_every_entry; [ | exact Hall ].
    intros. apply Live_setUniform_returns. assumption.
  - apply set_runs_every_entry; [ | exact Hall ].
    intros. apply Strict_setUniform_returns. assumption.
Qed.

Lemma setUniform_caught_and_set_runs_every_entry_witness :
  let ivec4 := Effects.mkActiveInfo "u_color" 1 GL.INT_VEC4 in
  let scalar_into_vector :=
    Effects.ExceptionSettingUniform (Some "u_color")
      (Error "Tried to set a scalar into a vector field: 35669 u_color") in
  let uniforms :=
    [("u_color", Uniform.VNumber (JS.of_Z 3));
     ("u_missing", Uniform.VBoolean true);
     ("u_alpha", Uniform.VNumber (JS.Num (1 # 2)))] in
  Live.setUniform (Some 7%nat) (Uniform.VNumber (JS.of_Z 3)) (Some ivec4)
    (Some "u_color") example_world
  = (Ok tt, Effects.record_line scalar_into_vector example_world)
  /\ Strict.setUniform (Some 7%nat) (Uniform.VNumber (JS.of_Z 3))
       (Some ivec4) (Some "u_color") example_world
     = (Ok tt, Effects.record_line scalar_into_vector example_world)
  /\ (exists this',
         fst (UniformSetter.set Live.setUniform (UniformSetter.new 1)
                uniforms example_world) = Ok this')
  /\ Effects.console
       (Effects.exec
          (UniformSetter.set Live.setUniform (UniformSetter.new 1) uniforms)
          example_world)
     = [scalar_into_vector; Effects.UniformNotFound "u_missing"]
  /\ Effects.uploads
       (Effects.exec
          (UniformSetter.set Live.setUniform (UniformSetter.new 1) uniforms)
          example_world)
     = [Effects.Upload Effects.uniform1f (Some 7%nat) [JS.Num (1 # 2)]]
  /\ (exists this',
         fst (UniformSetter.set Strict.setUniform (UniformSetter.new 1)
                uniforms example_world) = Ok this')
  /\ Effects.console
       (Effects.exec
          (UniformSetter.set Strict.setUniform (UniformSetter.new 1) uniforms)
          example_world)
     = [scalar_into_vector; Effects.UniformNotFound "u_missing"]
  /\ Effects.uploads
       (Effects.exec
          (UniformSetter.set Strict.setUniform (UniformSetter.new 1) uniforms)
          example_world)
     = [Effects.Upload Effects.uniform1f (Some 7%nat) [JS.Num (1 # 2)]].
Proof.
  cbv zeta.
  destruct (setUniform_caught_and_set_runs_every_entry
              (Some 7%nat) (Uniform.VNumber (JS.of_Z 3))
              (Some (Effects.mkActiveInfo "u_color" 1 GL.INT_VEC4))
              (Some "u_color") (UniformSetter.new 1)
              [("u_color", Uniform.VNumber (JS.of_Z 3));
               ("u_missing", Uniform.VBoolean true);
               ("u_alpha", Uniform.VNumber (JS.Num (1 # 2)))]
              example_world eq_refl
              ltac:(repeat constructor))
    as (Hlive & Hstrict & Hset_live & Hset_strict).
  unfold Effects.exec. rewrite Hlive, Hstrict, Hset_live, Hset_strict.
  repeat split; try (eexists; reflexivity); vm_compute; reflexivity.
Defined.

(** C7 as stated fails for a value that does not stringify.  The [catch]
    block of [setUniform] builds its message from [`${value}`], which
    throws a TypeError for a Symbol and for an object without a prototype:
    the exception leaves [setUniform], nothing is logged, and in [set] it
    leaves [forEach], so the entries after it are not processed (here
    [u_alpha] is never uploaded). *)
Lemma setUniform_throws_counterexample :
  let ivec4 := Effects.mkActiveInfo "u_color" 1 GL.INT_VEC4 in
  let red :=
    Uniform.mkAnyRgba (Some (JS.of_Z 255)) (Some (JS.of_Z 0))
      (Some (JS.of_Z 0)) (Some (JS.of_Z 1)) in
  Live.setUniform (Some 7%nat) Uniform.VSymbol (Some ivec4) (Some "u_color")
    example_world
  = (Throw (TypeError "Cannot convert a Symbol value to a string"),
     example_world)
  /\ Live.setUniform (Some 7%nat) Uniform.VBareObject (Some ivec4)
       (Some "u_color") example_world
     = (Throw (TypeError "Cannot convert object to primitive value"),
        example_world)
  /\ Strict.setUniform (Some 7%nat) (Uniform.VBareRgbaObject red) None
       (Some "u_color") example_world
     = (Throw (TypeError "Cannot convert object to primitive value"),
        example_world)
  /\ UniformSetter.set Live.setUniform (UniformSetter.new 1)
       [("u_color", Uniform.VSymbol);
        ("u_alpha", Uniform.VNumber (JS.Num (1 # 2)))] example_world
     = (Throw (TypeError "Cannot convert a Symbol value to a string"),
        example_world)
  /\ UniformSetter.set Strict.setUniform (UniformSetter.new 1)
       [("u_color", Uniform.VBareObject);
        ("u_alpha", Uniform.VNumber (JS.Num (1 # 2)))] example_world
     = (Throw (TypeError "Cannot convert object to primitive value"),
        example_world)
  /\ Effects.uploads
       (Effects.exec
          (UniformSetter.set Live.setUniform (UniformSetter.new 1)
             [("u_alpha", Uniform.VNumber (JS.Num (1 # 2)))])
          example_world)
     = [Effects.Upload Effects.uniform1f (Some 7%nat) [JS.Num (1 # 2)]].
Proof. cbv zeta. repeat split; vm_compute; reflexivity. Qed.

(** [Object.entries] lists the array-index keys first, by ascending
    index, then the other keys in creation order; ["01"] is no array
    index. *)
Example entries_array_index_keys_first :
  Uniform.entries
    [("b", 1%nat); ("2", 2%nat); ("a", 3%nat); ("1", 4%nat); ("01", 5%nat)]
  = [("1", 4%nat); ("2", 2%nat); ("b", 1%nat); ("a", 3%nat); ("01", 5%nat)].
Proof. reflexivity. Qed.

Section Dispatch.
Import Uniform Effects.

(** With no program bound, both implementations only write to the
    console. *)
Lemma setUniform_no_program location value uniformInfo name w :
  CURRENT_PROGRAM w = None ->
  Live.setUniform location value uniformInfo name w
  = (Ok tt, record_line (NoProgramBound (default "unknown" name)) w)
  /\ Strict.setUniform location value uniformInfo name w
     = (Ok tt, record_line (NoProgramBound (default "unknown" name)) w).
Proof.
  intros Hnone.
  unfold Live.setUniform, Strict.setUniform, try_catch,
    Live.setUniform_body, Strict.setUniform_body, bind, gl_currentProgram.
  rewrite Hnone. split; reflexivity.
Qed.

(** A three-element array against the other declared four-component
    types, in UniformSetter.ts: the three values go out through
    [uniform3f]. *)
Lemma Live_three_values_float_default location a b c info name w :
  is_Some (CURRENT_PROGRAM w) ->
  info_type info = GL.FLOAT_VEC4 \/ info_type info = GL.BOOL_VEC4
  \/ info_type info = GL.UNSIGNED_INT_VEC4 ->
  Live.setUniform location (VArray [a; b; c]) (Some info) name w
  = (Ok tt, record_call (Upload uniform3f location [a; b; c]) w).
Proof.
  intros [p Hp] Hty.
  unfold Live.setUniform, try_catch, Live.setUniform_body, bind,
    gl_currentProgram, Live.set_array.
  rewrite Hp. destruct Hty as [-> | [-> | ->]]; reflexivity.
Qed.

(** The same call in the second file, for the declared types it has a case
    for: four values go out, the fourth being [undefined | 0 = 0] or
    [undefined] converted to a float, NaN. *)
Lemma Strict_three_values_padded loc a b c info name w :
  is_Some (CURRENT_PROGRAM w) ->
  (info_type info = GL.INT_VEC4 ->
   Strict.setUniform (Some loc) (VArray [a; b; c]) (Some info) name w
   = (Ok tt,
      record_call
        (Upload uniform4i (Some loc)
           [JS.or0 (Some a); JS.or0 (Some b); JS.or0 (Some c); JS.of_Z 0])
        w))
  /\ (info_type info = GL.FLOAT_VEC4 ->
      Strict.setUniform (Some loc) (VArray [a; b; c]) (Some info) name w
      = (Ok tt, record_call (Upload uniform4f (Some loc) [a; b; c; JS.NaN]) w)).
Proof.
  intros [p Hp].
  unfold Strict.setUniform, try_catch, Strict.setUniform_body, bind,
    gl_currentProgram, Strict.set_array.
  rewrite Hp. split; intros ->; reflexivity.
Qed.

End Dispatch.

(** C6 (as amended). With a program bound, a plain JavaScript array
    ([Array.isArray]) of three numbers raises an explicit error, which is
    caught and logged, and nothing is uploaded: in UniformSetter.ts when
    the declared type is INT_VEC4, and in the second file when the declared
    type is BOOL_VEC4 or UNSIGNED_INT_VEC4.  A Float32Array or Int32Array
    of length three raises no error in either file, whatever the declared
    type: both test [instanceof] first and upload the three values with
    [uniform3fv], respectively [uniform3iv]. *)
Theorem setUniform_three_values_explicit_error
    (w : Effects.World) (location : option nat) (loc : nat)
    (a b c : JS.number) (x y z : Z) (info : Effects.WebGLActiveInfo)
    (name : option string) :
  is_Some (Effects.CURRENT_PROGRAM w) ->
  (Effects.info_type info = GL.INT_VEC4 ->
   Live.setUniform location (Uniform.VArray [a; b; c]) (Some info) name w
   = (Ok tt,
      Effects.record_line
        (Effects.ExceptionSettingUniform
           (Effects.logged_name name (Some info))
           (Error "Expected 4 values for INT_VEC4, got 3")) w))
  /\ (Effects.info_type info = GL.BOOL_VEC4
      \/ Effects.info_type info = GL.UNSIGNED_INT_VEC4 ->
      Strict.setUniform (Some loc) (Uniform.VArray [a; b; c]) (Some info)
        name w
      = (Ok tt,
         Effects.record_line
           (Effects.ExceptionSettingUniform
              (Effects.logged_name name (Some info))
              (Error "Unsupported array length: 3")) w))
  /\ Live.setUniform location (Uniform.VFloat32Array [a; b; c]) (Some info)
       name w
     = (Ok tt,
        Effects.record_call
          (Effects.Upload Effects.uniform3fv location [a; b; c]) w)
  /\ Strict.setUniform (Some loc) (Uniform.VFloat32Array [a; b; c])
       (Some info) name w
     = (Ok tt,
        Effects.record_call
          (Effects.Upload Effects.uniform3fv (Some loc) [a; b; c]) w)
  /\ Live.setUniform location (Uniform.VInt32Array [x; y; z]) (Some info)
       name w
     = (Ok tt,
        Effects.record_call
          (Effects.Upload Effects.uniform3iv location
             [JS.of_Z x; JS.of_Z y; JS.of_Z z]) w)
  /\ Strict.setUniform (Some loc) (Uniform.VInt32Array [x; y; z])
       (Some info) name w
     = (Ok tt,
        Effects.record_call
          (Effects.Upload Effects.uniform3iv (Some loc)
             [JS.of_Z x; JS.of_Z y; JS.of_Z z]) w).
Proof.
  intros [p Hp].
  unfold Live.setUniform, Strict.setUniform, Effects.try_catch,
    Live.setUniform_body, Strict.setUniform_body, Effects.bind,
    Effects.gl_currentProgram, Live.set_array, Strict.set_array.
  rewrite Hp.
  split; [ intros ->; reflexivity | ].
  split; [ intros [-> | ->]; reflexivity | ].
  repeat split; reflexivity.
Qed.

Lemma setUniform_three_values_explicit_error_witness :
  Effects.uploads
    (Effects.exec
       (Live.setUniform (Some 7%nat) three_values
          (Some (Effects.mkActiveInfo "u_color" 1 GL.INT_VEC4))
          (Some "u_color"))
       example_world) = []
  /\ Effects.uploads
       (Effects.exec
          (Strict.setUniform (Some 7%nat) three_values
             (Some (Effects.mkActiveInfo "u_color" 1 GL.BOOL_VEC4))
             (Some "u_color"))
          example_world) = []
  /\ Effects.uploads
       (Effects.exec
          (Live.setUniform (Some 7%nat)
             (Uniform.VFloat32Array [JS.of_Z 1; JS.of_Z 2; JS.of_Z 3])
             (Some (Effects.mkActiveInfo "u_color" 1 GL.INT_VEC4))
             (Some "u_color"))
          example_world)
     = [Effects.Upload Effects.uniform3fv (Some 7%nat)
          [JS.of_Z 1; JS.of_Z 2; JS.of_Z 3]]
  /\ Effects.uploads
       (Effects.exec
          (Strict.setUniform (Some 7%nat) (Uniform.VInt32Array [1; 2; 3])
             (Some (Effects.mkActiveInfo "u_color" 1 GL.BOOL_VEC4))
             (Some "u_color"))
          example_world)
     = [Effects.Upload Effects.uniform3iv (Some 7%nat)
          [JS.of_Z 1; JS.of_Z 2; JS.of_Z 3]].
Proof.
  pose proof (setUniform_three_values_explicit_error example_world
                (Some 7%nat) 7%nat (JS.of_Z 1) (JS.of_Z 2) (JS.of_Z 3) 1 2 3
                (Effects.mkActiveInfo "u_color" 1 GL.INT_VEC4)
                (Some "u_color") (ex_intro _ 1%nat eq_refl))
    as (Hlive & _ & Hfloats & _).
  pose proof (setUniform_three_values_explicit_error example_world
                (Some 7%nat) 7%nat (JS.of_Z 1) (JS.of_Z 2) (JS.of_Z 3) 1 2 3
                (Effects.mkActiveInfo "u_color" 1 GL.BOOL_VEC4)
                (Some "u_color") (ex_intro _ 1%nat eq_refl))
    as (_ & Hstrict & _ & _ & _ & Hints).
  unfold Effects.exec, three_values.
  rewrite (Hlive eq_refl), (Hstrict (or_introl eq_refl)), Hfloats, Hints.
  repeat split; reflexivity.
Defined.

(** C6 as stated fails in both files for a uniform declared FLOAT_VEC4:
    UniformSetter.ts uploads the three values with [uniform3f], the second
    file uploads four values with [uniform4f], the last one NaN; neither
    writes anything to the console.  For INT_VEC4 the second file pads
    with 0, and a Float32Array of three numbers goes out through
    [uniform3fv] in UniformSetter.ts, again with nothing on the console. *)
Lemma setUniform_three_values_counterexample :
  let vec4 := Effects.mkActiveInfo "u_color" 1 GL.FLOAT_VEC4 in
  let ivec4 := Effects.mkActiveInfo "u_color" 1 GL.INT_VEC4 in
  GL.is_vec4_type (Effects.info_type vec4) = true
  /\ GL.is_vec4_type (Effects.info_type ivec4) = true
  /\ Live.setUniform (Some 7%nat) three_values (Some vec4) (Some "u_color")
       example_world
     = (Ok tt,
        Effects.record_call
          (Effects.Upload Effects.uniform3f (Some 7%nat)
             [JS.of_Z 1; JS.of_Z 2; JS.of_Z 3]) example_world)
  /\ Strict.setUniform (Some 7%nat) three_values (Some vec4) (Some "u_color")
       example_world
     = (Ok tt,
        Effects.record_call
          (Effects.Upload Effects.uniform4f (Some 7%nat)
             [JS.of_Z 1; JS.of_Z 2; JS.of_Z 3; JS.NaN]) example_world)
  /\ Strict.setUniform (Some 7%nat) three_values (Some ivec4) (Some "u_color")
       example_world
     = (Ok tt,
        Effects.record_call
          (Effects.Upload Effects.uniform4i (Some 7%nat)
             [JS.of_Z 1; JS.of_Z 2; JS.of_Z 3; JS.of_Z 0]) example_world)
  /\ Effects.console
       (Effects.exec
          (Live.setUniform (Some 7%nat) three_values (Some vec4)
             (Some "u_color")) example_world) = []
  /\ Effects.console
       (Effects.exec
          (Strict.setUniform (Some 7%nat) three_values (Some vec4)
             (Some "u_color")) example_world) = []
  /\ Live.setUniform (Some 7%nat)
       (Uniform.VFloat32Array [JS.of_Z 1; JS.of_Z 2; JS.of_Z 3])
       (Some ivec4) (Some "u_color") example_world
     = (Ok tt,
        Effects.record_call
          (Effects.Upload Effects.uniform3fv (Some 7%nat)
             [JS.of_Z 1; JS.of_Z 2; JS.of_Z 3]) example_world)
  /\ Effects.console
       (Effects.exec
          (Live.setUniform (Some 7%nat)
             (Uniform.VFloat32Array [JS.of_Z 1; JS.of_Z 2; JS.of_Z 3])
             (Some ivec4) (Some "u_color")) example_world) = [].
Proof. cbv zeta. repeat split; reflexivity. Qed.

(** C9. When no uniform info is available and a program is bound, a number
    goes out through [uniform1f] in UniformSetter.ts, while the second file
    uploads nothing: it throws "No uniform info available", which is caught
    and written to the console. *)
Theorem setUniform_without_info_differs
    (w : Effects.World) (location : option nat) (value : JS.number)
    (name : option string) :
  is_Some (Effects.CURRENT_PROGRAM w) ->
  Live.setUniform location (Uniform.VNumber value) None name w
  = (Ok tt,
     Effects.record_call (Effects.Upload Effects.uniform1f location [value]) w)
  /\ Strict.setUniform location (Uniform.VNumber value) None name w
     = (Ok tt,
        Effects.record_line
          (Effects.ExceptionSettingUniform name
             (Error ("No uniform info available for "
                     +:+ default "unknown" name))) w)
  /\ Effects.uploads
       (Effects.exec
          (Live.setUniform location (Uniform.VNumber value) None name) w)
     = Effects.uploads w
       ++ [Effects.Upload Effects.uniform1f location [value]]
  /\ Effects.uploads
       (Effects.exec
          (Strict.setUniform location (Uniform.VNumber value) None name) w)
     = Effects.uploads w.
Proof.
  intros [p Hp].
  assert (Live.setUniform location (Uniform.VNumber value) None name w
          = (Ok tt,
             Effects.record_call
               (Effects.Upload Effects.uniform1f location [value]) w))
    as Hlive.
  { unfold Live.setUniform, Effects.try_catch, Live.setUniform_body,
      Effects.bind, Effects.gl_currentProgram.
    rewrite Hp. reflexivity. }
  assert (Strict.setUniform location (Uniform.VNumber value) None name w
          = (Ok tt,
             Effects.record_line
               (Effects.ExceptionSettingUniform name
                  (Error ("No uniform info available for "
                          +:+ default "unknown" name))) w))
    as Hstrict.
  { unfold Strict.setUniform, Effects.try_catch, Strict.setUniform_body,
      Effects.bind, Effects.gl_currentProgram.
    rewrite Hp. destruct name; reflexivity. }
  split; [ exact Hlive | ]. split; [ exact Hstrict | ].
  unfold Effects.exec. rewrite Hlive, Hstrict.
  unfold Effects.uploads. cbn [snd Effects.record_call Effects.record_line
                               Effects.gl_calls].
  split; [ | reflexivity ].
  rewrite List.filter_app. reflexivity.
Qed.

Lemma setUniform_without_info_differs_witness :
  Effects.uploads
    (Effects.exec
       (Live.setUniform (Some 7%nat) (Uniform.VNumber (JS.Num (150 # 255)))
          None (Some "u_territoryAlpha")) example_world)
  = [Effects.Upload Effects.uniform1f (Some 7%nat) [JS.Num (150 # 255)]]
  /\ Effects.uploads
       (Effects.exec
          (Strict.setUniform (Some 7%nat)
             (Uniform.VNumber (JS.Num (150 # 255)))
             None (Some "u_territoryAlpha")) example_world)
     = [].
Proof.
  destruct (setUniform_without_info_differs example_world (Some 7%nat)
              (JS.Num (150 # 255)) (Some "u_territoryAlpha")
              (ex_intro _ 1%nat eq_refl)) as (_ & _ & Hlive & Hstrict).
  split; [ exact Hlive | exact Hstrict ].
Defined.

(** A record whose first entry fails to upload (a scalar for an INT_VEC4
    uniform), whose second names no uniform of the program, and whose
    third is well typed: the third is still uploaded. *)
Example set_continues_after_failure :
  Effects.uploads
    (Effects.exec
       (UniformSetter.set Live.setUniform (UniformSetter.new 1)
          [("u_color", Uniform.VNumber (JS.of_Z 3));
           ("u_missing", Uniform.VBoolean true);
           ("u_alpha", Uniform.VNumber (JS.Num (1 # 2)))])
       example_world)
  = [Effects.Upload Effects.uniform1f (Some 7%nat) [JS.Num (1 # 2)]]
  /\ Effects.uploads
       (Effects.exec
          (UniformSetter.set Strict.setUniform (UniformSetter.new 1)
             [("u_color", Uniform.VNumber (JS.of_Z 3));
              ("u_missing", Uniform.VBoolean true);
              ("u_alpha", Uniform.VNumber (JS.Num (1 # 2)))])
          example_world)
     = [Effects.Upload Effects.uniform1f (Some 7%nat) [JS.Num (1 # 2)]].
Proof. split; vm_compute; reflexivity. Qed.

(* ===================================================================== *)
(** * Further properties of the shader                                    *)
(* ===================================================================== *)

Section ShaderMore.
Import Shader.

Lemma ownerId_range (w : Z) : 0 <= ownerId (DecodeTileData w) <= 4095.
Proof.
  rewrite ownerId_mod. pose proof (Z.mod_pos_bound w 4096). lia.
Qed.

Lemma getPlayerColor_with_palette (U : Uniforms) (P : sampler2D)
    (owner row : Z) :
  getPlayerColor (with_palette U P) owner row
  = vec4_rgb_a (rgb (texelFetch P (mkivec2 owner row)))
      (if PLAYER_COLOR_BORDER <=? row then u_borderAlpha U
       else u_territoryAlpha U).
Proof. reflexivity. Qed.

(** The low bit of [y xor x] is the parity of [x + y]. *)
Lemma lxor_low_bit (x y : Z) :
  Z.land (Z.lxor y x) 1 = if Z.even (x + y) then 0 else 1.
Proof.
  change 1 with (Z.ones 1) at 1. rewrite Z.land_ones by lia.
  change (2 ^ 1) with 2. rewrite Zmod_odd.
  rewrite <- Z.bit0_odd, Z.lxor_spec, !Z.bit0_odd.
  rewrite Z.even_add, <- !Z.negb_odd.
  destruct (Z.odd x), (Z.odd y); reflexivity.
Qed.

End ShaderMore.

(** X1. [territoryColor] depends on the palette texture only through the
    RGB of rows 0, 3, 4 and 5 in columns 1..4095: column 0, the building
    and railroad rows and every alpha byte of the palette never reach the
    output. *)
Theorem territoryColor_palette_dependence
    (U : Shader.Uniforms) (P P' : Shader.sampler2D) (frag : Shader.ivec2) :
  (forall x row,
      1 <= x <= 4095 -> row = 0 \/ row = 3 \/ row = 4 \/ row = 5 ->
      Shader.rgb (Shader.texelFetch P (Shader.mkivec2 x row))
      = Shader.rgb (Shader.texelFetch P' (Shader.mkivec2 x row))) ->
  Shader.territoryColor (with_palette U P) frag
  = Shader.territoryColor (with_palette U P') frag.
Proof.
  intros Hrgb.
  assert (forall owner row,
             1 <= owner <= 4095 -> row = 0 \/ row = 3 \/ row = 4 \/ row = 5 ->
             Shader.getPlayerColor (with_palette U P) owner row
             = Shader.getPlayerColor (with_palette U P') owner row) as Hcol.
  { intros owner row Ho Hr. rewrite !getPlayerColor_with_palette.
    rewrite (Hrgb owner row Ho Hr). reflexivity. }
  unfold Shader.territoryColor.
  change (Shader.ThisTile (with_palette U P) frag) with (Shader.ThisTile U frag).
  change (Shader.ThisTile (with_palette U P') frag)
    with (Shader.ThisTile U frag).
  change (Shader.debug_draw_tiles (with_palette U P))
    with (Shader.debug_draw_tiles U).
  change (Shader.debug_draw_tiles (with_palette U P'))
    with (Shader.debug_draw_tiles U).
  assert (forall c, Shader.DebugDrawTileData (with_palette U P) frag c
                    = Shader.DebugDrawTileData (with_palette U P') frag c)
    as Hdebug by reflexivity.
  pose proof (ownerId_range
                (Shader.texelFetch_u (Shader.u_tileTexture U) frag)) as Hrange.
  fold (Shader.ThisTile U frag) in Hrange.
  destruct (Shader.isFallout (Shader.ThisTile U frag)).
  { destruct (Shader.debug_draw_tiles U); [ apply Hdebug | reflexivity ]. }
  destruct (Z.eqb_spec (Shader.ownerId (Shader.ThisTile U frag))
              Shader.UNOWNED_TERRITORY_ID) as [Hzero | Hnz].
  { destruct (Shader.debug_draw_tiles U); [ apply Hdebug | reflexivity ]. }
  unfold Shader.UNOWNED_TERRITORY_ID in Hnz.
  change (Shader.isBorder (with_palette U P) frag)
    with (Shader.isBorder U frag).
  change (Shader.isBorder (with_palette U P') frag)
    with (Shader.isBorder U frag).
  assert ((if Shader.isBorder U frag (Shader.ownerId (Shader.ThisTile U frag))
           then Shader.calculateBorderColor (with_palette U P) frag
                  (Shader.ThisTile U frag)
           else Shader.getPlayerColor (with_palette U P)
                  (Shader.ownerId (Shader.ThisTile U frag))
                  Shader.PLAYER_COLOR_TERRITORY)
          = (if Shader.isBorder U frag
                  (Shader.ownerId (Shader.ThisTile U frag))
             then Shader.calculateBorderColor (with_palette U P') frag
                    (Shader.ThisTile U frag)
             else Shader.getPlayerColor (with_palette U P')
                    (Shader.ownerId (Shader.ThisTile U frag))
                    Shader.PLAYER_COLOR_TERRITORY)) as Hbody.
  { destruct (Shader.isBorder U frag _).
    - unfold Shader.calculateBorderColor, Shader.calculateDefendedBorderColor.
      change (Shader.u_hasFocusedPlayer (with_palette U P))
        with (Shader.u_hasFocusedPlayer U).
      change (Shader.u_hasFocusedPlayer (with_palette U P'))
        with (Shader.u_hasFocusedPlayer U).
      change (Shader.u_focusedPlayerId (with_palette U P))
        with (Shader.u_focusedPlayerId U).
      change (Shader.u_focusedPlayerId (with_palette U P'))
        with (Shader.u_focusedPlayerId U).
      destruct (negb _ && _); [ reflexivity | ].
      destruct (Shader.hasDefenseBonus (Shader.ThisTile U frag)).
      + destruct (_ =? 0); apply Hcol; try lia;
          unfold Shader.PLAYER_COLOR_DEFENSE_BONUS_BORDER_LIGHT,
            Shader.PLAYER_COLOR_DEFENSE_BONUS_BORDER_DARK; lia.
      + apply Hcol; [ lia | unfold Shader.PLAYER_COLOR_BORDER; lia ].
    - apply Hcol; [ lia | unfold Shader.PLAYER_COLOR_TERRITORY; lia ]. }
  rewrite Hbody.
  destruct (Shader.debug_draw_tiles U); [ apply Hdebug | reflexivity ].
Qed.

(** Two 2x1 palettes that differ in column 0 and in the alpha byte of
    column 1, under a 1x1 tile texture owned by player 1. *)
Lemma territoryColor_palette_dependence_witness :
  Shader.territoryColor
    (with_palette (border_example_uniforms (Shader.mkUTex 1 1 [1]))
       (Shader.mkTex 2 1 [9; 9; 9; 9; 10; 20; 30; 40]))
    (Shader.mkivec2 0 0)
  = Shader.territoryColor
      (with_palette (border_example_uniforms (Shader.mkUTex 1 1 [1]))
         (Shader.mkTex 2 1 [1; 2; 3; 4; 10; 20; 30; 99]))
      (Shader.mkivec2 0 0).
Proof.
  apply territoryColor_palette_dependence.
  intros x row Hx Hrow. unfold Shader.texelFetch, Shader.in_bounds.
  cbn [Shader.tex_width Shader.tex_height Shader.ix Shader.iy].
  destruct (Z.ltb_spec x 2) as [Hlt | Hge].
  - assert (x = 1) as -> by lia.
    destruct Hrow as [-> | [-> | [-> | ->]]]; reflexivity.
  - rewrite andb_false_r. reflexivity.
Defined.

(** X2. With the debug tile overlay off, the alpha [territoryColor] paints
    is 0 (unowned, no fallout), [u_territoryAlpha] or [u_borderAlpha]:
    never a value read from the palette or the tile. *)
Theorem territoryColor_alpha (U : Shader.Uniforms) (frag : Shader.ivec2) :
  Shader.debug_draw_tiles U = false ->
  Shader.v4a (Shader.territoryColor U frag) = 0%Q
  \/ Shader.v4a (Shader.territoryColor U frag) = Shader.u_territoryAlpha U
  \/ Shader.v4a (Shader.territoryColor U frag) = Shader.u_borderAlpha U.
Proof.
  intros Hdebug. unfold Shader.territoryColor. rewrite Hdebug.
  destruct (Shader.isFallout _); [ right; left; reflexivity | ].
  destruct (_ =? Shader.UNOWNED_TERRITORY_ID); [ left; reflexivity | ].
  destruct (Shader.isBorder _ _ _).
  - unfold Shader.calculateBorderColor, Shader.calculateDefendedBorderColor,
      Shader.getPlayerColor.
    destruct (negb _ && _); [ right; left; reflexivity | ].
    destruct (Shader.hasDefenseBonus _).
    + destruct (_ =? 0); right; right; reflexivity.
    + right; right; reflexivity.
  - right; left; reflexivity.
Qed.

Lemma territoryColor_alpha_witness :
  Shader.v4a
    (Shader.territoryColor
       (border_example_uniforms border_example_texture) (Shader.mkivec2 1 1))
  = 0%Q
  \/ Shader.v4a
       (Shader.territoryColor
          (border_example_uniforms border_example_texture)
          (Shader.mkivec2 1 1))
     = Shader.u_territoryAlpha (border_example_uniforms border_example_texture)
  \/ Shader.v4a
       (Shader.territoryColor
          (border_example_uniforms border_example_texture)
          (Shader.mkivec2 1 1))
     = Shader.u_borderAlpha (border_example_uniforms border_example_texture).
Proof. apply territoryColor_alpha. reflexivity. Defined.

(** X3. The defended border is a checkerboard: the fragment at [(x, y)]
    takes the light row (4) of the palette when [x + y] is even and the
    dark row (5) when it is odd, so horizontally or vertically adjacent
    fragments of one owner alternate. *)
Theorem calculateDefendedBorderColor_checkerboard
    (U : Shader.Uniforms) (frag : Shader.ivec2) (owner : Z) :
  Shader.calculateDefendedBorderColor U frag owner
  = Shader.getPlayerColor U owner
      (if Z.even (Shader.ix frag + Shader.iy frag) then 4 else 5).
Proof.
  unfold Shader.calculateDefendedBorderColor. rewrite lxor_low_bit.
  destruct (Z.even _); reflexivity.
Qed.

(** X4. Borders are drawn on both sides: when a texel and its right or
    lower neighbour hold different owner fields, [isBorder] is true at the
    texel for its own owner and true at the neighbour for the
    neighbour's. *)
Theorem isBorder_both_sides
    (U : Shader.Uniforms) (p : Shader.ivec2) (dx dy wp wq : Z) :
  (dx = 1 /\ dy = 0) \/ (dx = 0 /\ dy = 1) ->
  Shader.stored_word (Shader.u_tileTexture U) p = Some wp ->
  Shader.stored_word (Shader.u_tileTexture U) (Shader.offset p dx dy)
    = Some wq ->
  Shader.ownerId (Shader.DecodeTileData wp)
    <> Shader.ownerId (Shader.DecodeTileData wq) ->
  Shader.isBorder U p (Shader.ownerId (Shader.DecodeTileData wp)) = true
  /\ Shader.isBorder U (Shader.offset p dx dy)
       (Shader.ownerId (Shader.DecodeTileData wq)) = true.
Proof.
  intros Hd Hp Hq Hne.
  assert (forall a, Shader.offset (Shader.offset p a 0) (- a) 0 = p) as Hback_x.
  { intros a. destruct p as [x y]. unfold Shader.offset. cbn. f_equal; lia. }
  assert (forall a, Shader.offset (Shader.offset p 0 a) 0 (- a) = p) as Hback_y.
  { intros a. destruct p as [x y]. unfold Shader.offset. cbn. f_equal; lia. }
  split; apply not_false_iff_true; intros Hfalse;
    apply isBorder_false_iff in Hfalse;
    destruct Hfalse as (Hl & Hr & Hu & Hdn);
    destruct Hd as [[-> ->] | [-> ->]].
  - rewrite (texelFetch_u_stored _ _ _ Hq) in Hr. congruence.
  - rewrite (texelFetch_u_stored _ _ _ Hq) in Hdn. congruence.
  - change (-1) with (- (1)) in Hl. rewrite Hback_x in Hl.
    rewrite (texelFetch_u_stored _ _ _ Hp) in Hl. congruence.
  - change (-1) with (- (1)) in Hu. rewrite Hback_y in Hu.
    rewrite (texelFetch_u_stored _ _ _ Hp) in Hu. congruence.
Qed.

Lemma isBorder_both_sides_witness :
  Shader.isBorder (border_example_uniforms border_example_texture)
    (Shader.mkivec2 1 1) 7 = true
  /\ Shader.isBorder (border_example_uniforms border_example_texture)
       (Shader.mkivec2 1 2) 9 = true.
Proof.
  apply (isBorder_both_sides (border_example_uniforms border_example_texture)
           (Shader.mkivec2 1 1) 0 1 7 9);
    [ right; split; reflexivity | reflexivity | reflexivity
    | vm_compute; discriminate ].
Defined.

(** X5. Every tile word decodes to an owner in 0..4095, so the palette
    fetch of [getPlayerColor] for the rows the shader uses addresses a
    texel of a palette as wide as [MAX_UNIQUE_PLAYER_COLORS] and as high as
    [PALETTE_TEXTURE_HEIGHT]. *)
Theorem palette_fetch_in_bounds (w row : Z) :
  0 <= row <= 5 ->
  Shader.in_bounds ColorPalette.MAX_UNIQUE_PLAYER_COLORS
    ColorPalette.PALETTE_TEXTURE_HEIGHT
    (Shader.mkivec2 (Shader.ownerId (Shader.DecodeTileData w)) row) = true.
Proof.
  intros Hrow. pose proof (ownerId_range w) as Ho.
  unfold Shader.in_bounds, ColorPalette.MAX_UNIQUE_PLAYER_COLORS,
    ColorPalette.PALETTE_TEXTURE_HEIGHT.
  cbn [Shader.ix Shader.iy].
  change (Z.shiftl 1 12) with 4096.
  rewrite !andb_true_iff, !Z.leb_le, !Z.ltb_lt. lia.
Qed.

Lemma palette_fetch_in_bounds_witness :
  Shader.in_bounds ColorPalette.MAX_UNIQUE_PLAYER_COLORS
    ColorPalette.PALETTE_TEXTURE_HEIGHT
    (Shader.mkivec2 (Shader.ownerId (Shader.DecodeTileData 65535)) 5) = true.
Proof. apply palette_fetch_in_bounds. lia. Defined.

(* ===================================================================== *)
(** * Further properties of TextureData                                   *)
(* ===================================================================== *)

Section TextureDataMore.
Import TypedArrays TextureData.

Lemma set_list_at_0 (target source : list Z) :
  (length source <= length target)%nat ->
  set_list target source 0 = Some (source ++ drop (length source) target).
Proof.
  intros Hfit. unfold set_list.
  destruct (decide (0 + length source <= length target)%nat); [ | lia ].
  reflexivity.
Qed.

Lemma set_list_too_long (target source : list Z) :
  (length target < length source)%nat -> set_list target source 0 = None.
Proof.
  intros Hlong. unfold set_list.
  destruct (decide (0 + length source <= length target)%nat); [ lia | ].
  reflexivity.
Qed.

End TextureDataMore.

(** X6. On a byte texture, [setRow] succeeds for every row argument as
    soon as the data is no longer than the whole buffer: afterwards the
    buffer starts with the data, keeps its old bytes behind it and has its
    old length. *)
Theorem setRow_fits (td : TextureData.t) (row : Z) (data dst : list Z) :
  TextureData.bytes td = TypedArrays.Uint8Array dst ->
  (length data <= length dst)%nat ->
  exists td',
    TextureData.setRow td row data = Ok td'
    /\ TextureData.bytes td'
       = TypedArrays.Uint8Array (data ++ drop (length data) dst)
    /\ length (TypedArrays.elements (TextureData.bytes td')) = length dst
    /\ (forall i, (i < length data)%nat ->
                  TypedArrays.elements (TextureData.bytes td') !! i
                  = data !! i)
    /\ (forall i, (length data <= i)%nat ->
                  TypedArrays.elements (TextureData.bytes td') !! i
                  = dst !! i).
Proof.
  intros Hb Hfit. unfold TextureData.setRow, TextureData.setBytes.
  rewrite Hb, (set_list_at_0 dst data Hfit).
  eexists. split; [ reflexivity | ].
  destruct td; cbn [TextureData.bytes TextureData.with_bytes
                    TypedArrays.elements].
  split; [ reflexivity | ]. split; [ | split ].
  - rewrite length_app, length_drop. lia.
  - intros i Hi. apply lookup_app_l. exact Hi.
  - intros i Hi. rewrite lookup_app_r by exact Hi.
    rewrite lookup_drop. f_equal. lia.
Qed.

Lemma setRow_fits_witness :
  exists td',
    TextureData.setRow small_texture 5 small_row = Ok td'
    /\ TextureData.bytes td'
       = TypedArrays.Uint8Array
           (small_row ++ drop (length small_row) (replicate 16 0))
    /\ length (TypedArrays.elements (TextureData.bytes td'))
       = length (replicate 16 0)
    /\ (forall i, (i < length small_row)%nat ->
                  TypedArrays.elements (TextureData.bytes td') !! i
                  = small_row !! i)
    /\ (forall i, (length small_row <= i)%nat ->
                  TypedArrays.elements (TextureData.bytes td') !! i
                  = replicate 16 0 !! i).
Proof.
  apply (setRow_fits small_texture 5 small_row (replicate 16 0));
    [ reflexivity | cbn; lia ].
Defined.

(** X7. [setRow] and [setPixelBytes] raise instead of writing in two
    cases: on a texture created with [UNSIGNED_SHORT] (as the tile texture
    is) they throw "Incompatible bytes type", whatever the data; on a byte
    texture they throw a RangeError when the data is longer than the whole
    buffer. *)
Theorem setRow_setPixelBytes_failures :
  (forall width height bpp internalFormat format row x y data,
      TextureData.setRow
        (TextureData.new width height bpp internalFormat format
           GL.UNSIGNED_SHORT) row data
      = Throw (Error "Incompatible bytes type: Uint16Array and Uint8Array")
      /\ TextureData.setPixelBytes
           (TextureData.new width height bpp internalFormat format
              GL.UNSIGNED_SHORT) x y data
         = Throw (Error "Incompatible bytes type: Uint16Array and Uint8Array"))
  /\ (forall td dst row x y data,
         TextureData.bytes td = TypedArrays.Uint8Array dst ->
         (length dst < length data)%nat ->
         TextureData.setRow td row data = Throw RangeError
         /\ TextureData.setPixelBytes td x y data = Throw RangeError).
Proof.
  split.
  - intros. split; reflexivity.
  - intros td dst row x y data Hb Hlong.
    unfold TextureData.setRow, TextureData.setPixelBytes,
      TextureData.setBytes.
    rewrite Hb, (set_list_too_long dst data Hlong). split; reflexivity.
Qed.

Lemma setRow_setPixelBytes_failures_witness :
  TextureData.setRow small_texture 0 (replicate 17 1) = Throw RangeError
  /\ TextureData.setPixelBytes small_texture 0 0 (replicate 17 1)
     = Throw RangeError.
Proof.
  apply (proj2 setRow_setPixelBytes_failures small_texture (replicate 16 0));
    [ reflexivity | cbn; lia ].
Defined.

Section GpuFacts.
Import Gpu.

Lemma created_tex_record (cs : list TexCall) (w : TexWorld) :
  created (tex_record cs w)
  = (created w + length (List.filter is_create cs))%nat.
Proof.
  unfold created, tex_record. cbn [tex_calls].
  rewrite List.filter_app, length_app. reflexivity.
Qed.

Lemma deleted_tex_record (cs : list TexCall) (w : TexWorld) :
  deleted (tex_record cs w)
  = (deleted w + length (List.filter is_delete cs))%nat.
Proof.
  unfold deleted, tex_record. cbn [tex_calls].
  rewrite List.filter_app, length_app. reflexivity.
Qed.

(** Once a texture exists, an upload keeps it and creates nothing. *)
Lemma uploadChangesToGpu_existing (td : TextureData.t) (w : TexWorld)
    (h : nat) :
  TextureData.gpuTexture td = Some h ->
  TextureData.gpuTexture (fst (uploadChangesToGpu td w)) = Some h
  /\ created (snd (uploadChangesToGpu td w)) = created w
  /\ deleted (snd (uploadChangesToGpu td w)) = deleted w
  /\ TextureData.bytes (fst (uploadChangesToGpu td w)) = TextureData.bytes td.
Proof.
  intros Hh. unfold uploadChangesToGpu. rewrite Hh. cbn [fst snd].
  rewrite created_tex_record, deleted_tex_record. cbn. auto with lia.
Qed.

End GpuFacts.

(** X8. Uploading is create-once: starting without a GPU texture, when
    [WebGLUtils.createTexture] returns a texture on the first upload, any
    number of further uploads keep that handle, create no other texture
    and delete none. *)
Theorem uploadChangesToGpu_creates_once
    (td : TextureData.t) (w : Gpu.TexWorld) (h : nat) (n : nat) :
  TextureData.gpuTexture td = None ->
  Gpu.createTexture_result w (Gpu.created w) = Some h ->
  let st := Nat.iter (S n)
              (fun st => Gpu.uploadChangesToGpu (fst st) (snd st)) (td, w) in
  TextureData.gpuTexture (fst st) = Some h
  /\ Gpu.created (snd st) = S (Gpu.created w)
  /\ Gpu.deleted (snd st) = Gpu.deleted w
  /\ TextureData.bytes (fst st) = TextureData.bytes td.
Proof.
  intros Hnone Hcreate. induction n as [ | n IH ].
  - cbv zeta. unfold Nat.iter. cbn [nat_rect fst snd].
    unfold Gpu.uploadChangesToGpu.
    rewrite Hnone, Hcreate. cbn [fst snd].
    rewrite created_tex_record, deleted_tex_record.
    destruct td; cbn. auto with lia.
  - cbv zeta in IH |- *. rewrite Nat.iter_succ.
    destruct IH as (Hh & Hc & Hd & Hb).
    set (st := Nat.iter (S n) _ (td, w)) in *.
    destruct (uploadChangesToGpu_existing (fst st) (snd st) h Hh)
      as (Hh' & Hc' & Hd' & Hb').
    rewrite Hh', Hc', Hd', Hb'. auto.
Qed.

Lemma uploadChangesToGpu_creates_once_witness :
  let st := Nat.iter 3
              (fun st => Gpu.uploadChangesToGpu (fst st) (snd st))
              (small_texture, Gpu.mkTexWorld (fun n => Some (10 + n)%nat) []) in
  TextureData.gpuTexture (fst st) = Some 10%nat
  /\ Gpu.created (snd st) = 1%nat
  /\ Gpu.deleted (snd st) = 0%nat
  /\ TextureData.bytes (fst st) = TextureData.bytes small_texture.
Proof.
  apply (uploadChangesToGpu_creates_once small_texture
           (Gpu.mkTexWorld (fun n => Some (10 + n)%nat) []) 10 2);
    reflexivity.
Defined.

(** X9. Disposal releases the texture exactly once: the first [dispose]
    deletes the texture if there is one and clears the handle, a second
    [dispose] makes no call at all; an upload after disposal creates a
    texture again. *)
Theorem dispose_once (td : TextureData.t) (w : Gpu.TexWorld) :
  let st1 := Gpu.dispose td w in
  let st2 := Gpu.dispose (fst st1) (snd st1) in
  TextureData.gpuTexture (fst st1) = None
  /\ Gpu.tex_calls (snd st1)
     = Gpu.tex_calls w
       ++ match TextureData.gpuTexture td with
          | Some h => [Gpu.DeleteTexture h]
          | None => []
          end
  /\ st2 = st1
  /\ Gpu.created (snd (Gpu.uploadChangesToGpu (fst st1) (snd st1)))
     = S (Gpu.created w).
Proof.
  cbv zeta. unfold Gpu.dispose.
  destruct td as [[h | ] wd ht bp sd bs fm ifm dt];
    cbn [TextureData.gpuTexture Gpu.with_gpuTexture fst snd].
  - split; [ reflexivity | ]. split; [ reflexivity | ].
    split; [ reflexivity | ].
    unfold Gpu.uploadChangesToGpu.
    cbn [TextureData.gpuTexture Gpu.with_gpuTexture fst snd].
    rewrite !created_tex_record. cbn [List.filter Gpu.is_create length]. lia.
  - split; [ reflexivity | ]. split; [ rewrite app_nil_r; reflexivity | ].
    split; [ reflexivity | ].
    unfold Gpu.uploadChangesToGpu.
    cbn [TextureData.gpuTexture Gpu.with_gpuTexture fst snd].
    rewrite !created_tex_record. cbn [List.filter Gpu.is_create length]. lia.
Qed.

(* ===================================================================== *)
(** * Further properties of ColorPalette                                  *)
(* ===================================================================== *)

Section PaletteMore.
Import TypedArrays ColorPalette.

(** After any call on a palette with game and texture, the remembered
    theme and player count are those of the call. *)
Lemma updateCpuData_remembers (gv : GameView) (cp : ColorPalette.t)
    (td : TextureData.t) :
  game cp = true -> textureData cp = Some td ->
  previousTheme (updateCpuData gv cp) = Some (themeRef (theme gv))
  /\ previousPlayerCount (updateCpuData gv cp)
     = Some (currentPlayerCount gv).
Proof.
  intros Hgame Htd. destruct (needsCpuUpdate gv cp) eqn:Hdirty.
  - destruct (updateCpuData_dirty_fields gv cp td Hgame Htd Hdirty)
      as (_ & Hth & Hn & _). auto.
  - rewrite updateCpuData_clean by exact Hdirty.
    unfold needsCpuUpdate, currentTheme in Hdirty.
    destruct (bool_decide_reflect
                (Some (themeRef (theme gv)) = previousTheme cp))
      as [Hth | ]; [ | discriminate ].
    destruct (bool_decide_reflect
                (Some (currentPlayerCount gv) = previousPlayerCount cp))
      as [Hn | ]; [ | discriminate ].
    auto.
Qed.

Lemma record_get_set_same {V} (o : Uniform.JsRecord V) (k : string) (v : V) :
  record_get (Uniform.record_set o k v) k = Some v.
Proof.
  induction o as [ | [k' v'] rest IH ]; cbn.
  - rewrite decide_True by reflexivity. reflexivity.
  - destruct (decide (k' = k)) as [-> | Hne]; cbn.
    + rewrite decide_True by reflexivity. reflexivity.
    + rewrite decide_False by exact Hne. exact IH.
Qed.

Lemma record_get_set_other {V} (o : Uniform.JsRecord V) (k k' : string)
    (v : V) :
  k <> k' -> record_get (Uniform.record_set o k v) k' = record_get o k'.
Proof.
  intros Hne. induction o as [ | [k0 v0] rest IH ]; cbn.
  - rewrite decide_False by exact Hne. reflexivity.
  - destruct (decide (k0 = k)) as [-> | Hne0]; cbn.
    + rewrite !decide_False by exact Hne. reflexivity.
    + destruct (decide (k0 = k')); [ reflexivity | exact IH ].
Qed.

Lemma updateCpuData_dirty_uniforms (gv : GameView) (cp : ColorPalette.t)
    (td : TextureData.t) :
  game cp = true -> textureData cp = Some td ->
  needsCpuUpdate gv cp = true ->
  uniforms (updateCpuData gv cp)
  = Uniform.record_set
      (Uniform.record_set
         (Uniform.record_set
            (Uniform.record_set (uniforms cp) "u_borderAlpha"
               (Uniform.VNumber (JS.Num (255 / 255)%Q)))
            "u_territoryAlpha" (Uniform.VNumber (JS.Num (150 / 255)%Q)))
         "u_focusedBorderColor"
         (Uniform.VColord (rgba (focusedBorderColor (theme gv)))))
      "u_falloutColor" (Uniform.VColord (rgba (falloutColor (theme gv))))
  /\ needsGpuUpload (updateCpuData gv cp) = true.
Proof.
  intros Hgame Htd Hdirty. unfold updateCpuData.
  rewrite Hgame, Htd, Hdirty. cbn [negb]. cbv zeta.
  cbn [uniforms needsGpuUpload]. auto.
Qed.

(** Column 0 is out of reach of the columns 1..4095. *)
Lemma texel4_write_column_col0 (gv : GameView) (th : Theme) (l : list Z)
    (x' row : Z) :
  1 <= x' <= 4095 -> 0 <= row <= 5 ->
  texel4 (write_column_list gv th l x') (row * 16384 + 0 * 4)
  = texel4 l (row * 16384 + 0 * 4).
Proof.
  intros Hx' Hrow. unfold write_column_list.
  rewrite !texel4_put4_other by lia. reflexivity.
Qed.

Lemma texel4_foldl_col0 (gv : GameView) (th : Theme) (xs : list Z)
    (l : list Z) (row : Z) :
  0 <= row <= 5 ->
  (forall x', x' ∈ xs -> 1 <= x' <= 4095) ->
  texel4 (foldl (write_column_list gv th) l xs) (row * 16384 + 0 * 4)
  = texel4 l (row * 16384 + 0 * 4).
Proof.
  intros Hrow. revert l.
  induction xs as [ | x' xs IH ]; intros l Hrange; [ reflexivity | ].
  cbn [foldl]. rewrite IH.
  - apply texel4_write_column_col0; [ | lia ]. apply Hrange. left.
  - intros y Hy. apply Hrange. right. exact Hy.
Qed.

(** Column 4096 lies one past the row: its stores land in column 0 of the
    next row. *)
Lemma texel4_write_column_4096 (gv : GameView) (th : Theme) (l : list Z)
    (row : Z) :
  Z.of_nat (length l) = 98304 -> 0 <= row <= 4 ->
  texel4 (write_column_list gv th l 4096) ((row + 1) * 16384 + 0 * 4)
  = Some (rgba_bytes (row_color th row (playerBySmallID gv 4096))).
Proof.
  intros Hlen Hrow. unfold write_column_list.
  assert (row = 0 \/ row = 1 \/ row = 2 \/ row = 3 \/ row = 4)
    as Hcases by lia.
  destruct Hcases as [-> | [-> | [-> | [-> | ->]]]];
    cbn [row_color Z.eqb Pos.eqb];
    rewrite ?texel4_put4_other by lia;
    match goal with
    | |- texel4 (put4 ?l' ?o ?c) ?o' = _ =>
        replace o' with o by lia;
        rewrite texel4_put4_same by (rewrite ?length_put4; lia)
    end;
    reflexivity.
Qed.

End PaletteMore.

(** X10. The dirty check fires exactly on a change of theme object or of
    player count: after any [updateCpuData] on a palette with game and
    texture, the palette needs a CPU update for a later game state if and
    only if that state's theme is another object or its number of player
    views is another number. *)
Theorem needsCpuUpdate_iff_changed
    (gv gv' : ColorPalette.GameView) (cp : ColorPalette.t)
    (td : TextureData.t) :
  ColorPalette.game cp = true ->
  ColorPalette.textureData cp = Some td ->
  ColorPalette.needsCpuUpdate gv' (ColorPalette.updateCpuData gv cp) = true
  <-> (ColorPalette.themeRef (ColorPalette.theme gv')
       <> ColorPalette.themeRef (ColorPalette.theme gv)
       \/ length (ColorPalette.playerViews gv')
          <> length (ColorPalette.playerViews gv)).
Proof.
  intros Hgame Htd.
  destruct (updateCpuData_remembers gv cp td Hgame Htd) as [Hth Hn].
  unfold ColorPalette.needsCpuUpdate, ColorPalette.currentTheme.
  rewrite Hth, Hn. unfold ColorPalette.currentPlayerCount.
  destruct (bool_decide_reflect
              (Some (ColorPalette.themeRef (ColorPalette.theme gv'))
               = Some (ColorPalette.themeRef (ColorPalette.theme gv))))
    as [Heq1 | Hne1];
    destruct (bool_decide_reflect
                (Some (Z.of_nat (length (ColorPalette.playerViews gv')))
                 = Some (Z.of_nat (length (ColorPalette.playerViews gv)))))
      as [Heq2 | Hne2]; cbn [andb].
  - split; [ discriminate | ].
    injection Heq1 as Heq1. injection Heq2 as Heq2.
    intros [H | H]; [ congruence | lia ].
  - split; [ | reflexivity ]. intros _. right. intros Hl. apply Hne2.
    rewrite Hl. reflexivity.
  - split; [ | reflexivity ]. intros _. left. intros Hr. apply Hne1.
    rewrite Hr. reflexivity.
  - split; [ | reflexivity ]. intros _. left. intros Hr. apply Hne1.
    rewrite Hr. reflexivity.
Qed.

Lemma needsCpuUpdate_iff_changed_witness :
  ColorPalette.needsCpuUpdate
    (example_game (example_theme 1 0) [1; 2; 3])
    (ColorPalette.updateCpuData (example_game (example_theme 1 0) [1; 2])
       (ColorPalette.init_fields ColorPalette.new)) = true.
Proof.
  eapply needsCpuUpdate_iff_changed; [ reflexivity | reflexivity | ].
  right. cbn. lia.
Defined.

(** X11. A recomputation sets four entries of the palette's uniforms
    record: [u_borderAlpha] to 255/255, [u_territoryAlpha] to 150/255,
    [u_focusedBorderColor] and [u_falloutColor] to the theme's colours; every
    other entry of the record keeps its value. *)
Theorem updateCpuData_uniforms
    (gv : ColorPalette.GameView) (cp : ColorPalette.t) (td : TextureData.t) :
  ColorPalette.game cp = true ->
  ColorPalette.textureData cp = Some td ->
  ColorPalette.needsCpuUpdate gv cp = true ->
  let u := ColorPalette.uniforms (ColorPalette.updateCpuData gv cp) in
  record_get u "u_borderAlpha" = Some (Uniform.VNumber (JS.Num (255 / 255)%Q))
  /\ record_get u "u_territoryAlpha"
     = Some (Uniform.VNumber (JS.Num (150 / 255)%Q))
  /\ record_get u "u_focusedBorderColor"
     = Some (Uniform.VColord
               (ColorPalette.rgba
                  (ColorPalette.focusedBorderColor (ColorPalette.theme gv))))
  /\ record_get u "u_falloutColor"
     = Some (Uniform.VColord
               (ColorPalette.rgba
                  (ColorPalette.falloutColor (ColorPalette.theme gv))))
  /\ (forall k,
         k <> "u_borderAlpha" -> k <> "u_territoryAlpha" ->
         k <> "u_focusedBorderColor" -> k <> "u_falloutColor" ->
         record_get u k = record_get (ColorPalette.uniforms cp) k).
Proof.
  intros Hgame Htd Hdirty. cbv zeta.
  destruct (updateCpuData_dirty_uniforms gv cp td Hgame Htd Hdirty)
    as [-> _].
  repeat split.
  - rewrite !record_get_set_other by discriminate.
    apply record_get_set_same.
  - rewrite !record_get_set_other by discriminate.
    apply record_get_set_same.
  - rewrite !record_get_set_other by discriminate.
    apply record_get_set_same.
  - apply record_get_set_same.
  - intros k H1 H2 H3 H4.
    rewrite !record_get_set_other by congruence. reflexivity.
Qed.

Lemma updateCpuData_uniforms_witness :
  record_get
    (ColorPalette.uniforms
       (ColorPalette.updateCpuData (example_game (example_theme 1 0) [1; 2])
          (ColorPalette.init_fields ColorPalette.new)))
    "u_territoryAlpha"
  = Some (Uniform.VNumber (JS.Num (150 / 255)%Q)).
Proof.
  eapply (updateCpuData_uniforms (example_game (example_theme 1 0) [1; 2])
            (ColorPalette.init_fields ColorPalette.new));
    reflexivity.
Defined.

Section PaletteLife.
Import TypedArrays ColorPalette.

Lemma init_live (gv : GameView) : palette_live (init gv ColorPalette.new).
Proof.
  split; [ apply init_ready | ].
  unfold init.
  destruct (updateCpuData_dirty_uniforms gv (init_fields ColorPalette.new) _
              eq_refl eq_refl eq_refl) as [_ Hup].
  exact Hup.
Qed.

Lemma updateCpuData_live (gv : GameView) (cp : ColorPalette.t) :
  palette_live cp -> palette_live (updateCpuData gv cp).
Proof.
  intros [Hready Hup]. split; [ apply updateCpuData_ready, Hready | ].
  destruct (needsCpuUpdate gv cp) eqn:Hdirty.
  - destruct Hready as (Hgame & td & l & Htd & _).
    destruct (updateCpuData_dirty_uniforms gv cp td Hgame Htd Hdirty)
      as [_ H]. exact H.
  - rewrite updateCpuData_clean by exact Hdirty. exact Hup.
Qed.

Lemma palette_uploadToGpu_live (cp : ColorPalette.t) (w : Gpu.TexWorld) :
  palette_live cp ->
  palette_live (fst (Gpu.palette_uploadToGpu cp w))
  /\ (length (Gpu.tex_calls w)
      < length (Gpu.tex_calls (snd (Gpu.palette_uploadToGpu cp w))))%nat.
Proof.
  intros [(Hgame & td & l & Htd & Hw & Hbpp & Hstride & Hb & Hlen) Hup].
  unfold Gpu.palette_uploadToGpu. rewrite Hup, Htd. cbn [negb].
  unfold Gpu.uploadChangesToGpu.
  destruct td as [[h | ] wd ht bp sd bs fm ifm dt];
    cbn [TextureData.gpuTexture fst snd Gpu.tex_record Gpu.tex_calls];
    (split; [ | rewrite length_app; cbn [length]; lia ]);
    (split; [ split; [ exact Hgame | ] | exact Hup ]);
    eexists _, l;
    (split; [ reflexivity | ]);
    cbn [TextureData.width TextureData.bpp TextureData.stride
         TextureData.bytes Gpu.with_gpuTexture] in *;
    auto.
Qed.

Lemma palette_steps_live (steps : list Gpu.PaletteStep)
    (st : ColorPalette.t * Gpu.TexWorld) :
  palette_live (fst st) -> palette_live (fst (foldl Gpu.palette_step st steps)).
Proof.
  revert st. induction steps as [ | s steps IH ]; intros st Hlive;
    [ exact Hlive | ].
  cbn [foldl]. apply IH. destruct s as [gv | ]; cbn [Gpu.palette_step fst].
  - apply updateCpuData_live, Hlive.
  - apply palette_uploadToGpu_live, Hlive.
Qed.

End PaletteLife.

(** X12. [needsGpuUpload] is never cleared.  From [init] on, through any
    sequence of [updateCpuData] calls (on whatever the game has become)
    and [uploadToGpu] calls, the palette keeps its 4096 x 6 byte buffer,
    [needsGpuUpload] stays true, and every [uploadToGpu] therefore makes
    texture calls on the context, also when nothing was recomputed. *)
Theorem palette_uploads_every_time
    (gv : ColorPalette.GameView) (w : Gpu.TexWorld)
    (steps : list Gpu.PaletteStep) :
  let st := foldl Gpu.palette_step
              (ColorPalette.init gv ColorPalette.new, w) steps in
  palette_ready (fst st)
  /\ ColorPalette.needsGpuUpload (fst st) = true
  /\ (length (Gpu.tex_calls (snd st))
      < length (Gpu.tex_calls
                  (snd (Gpu.palette_step st Gpu.StepUpload))))%nat.
Proof.
  cbv zeta.
  pose proof (palette_steps_live steps
                (ColorPalette.init gv ColorPalette.new, w) (init_live gv))
    as Hlive.
  split; [ apply Hlive | ]. split; [ apply Hlive | ].
  cbn [Gpu.palette_step]. apply palette_uploadToGpu_live, Hlive.
Qed.

(** X13. While no player view has a small ID above 4095, [updateCpuData]
    never writes column 0 of the palette: its texel keeps its bytes in
    each of the six rows. *)
Theorem updateCpuData_keeps_column_0
    (gv : ColorPalette.GameView) (cp : ColorPalette.t) (row : Z) :
  palette_ready cp ->
  ColorPalette.maxSmallId (ColorPalette.playerViews gv) <= 4095 ->
  0 <= row <= 5 ->
  ColorPalette.texel (ColorPalette.updateCpuData gv cp) 0 row
  = ColorPalette.texel cp 0 row.
Proof.
  intros Hready Hmax Hrow.
  destruct (ColorPalette.needsCpuUpdate gv cp) eqn:Hdirty;
    [ | rewrite updateCpuData_clean by exact Hdirty; reflexivity ].
  destruct Hready as (Hgame & td & l & Htd & Hw & Hbpp & Hstride & Hb & Hlen).
  destruct (updateCpuData_dirty gv cp td l Hgame Htd Hw Hb Hdirty)
    as (Htd' & _).
  rewrite (texel_texel4 cp td l 0 row Htd Hbpp Hstride Hb).
  erewrite (texel_texel4 _ _ _ 0 row Htd');
    [ | destruct td; exact Hbpp | destruct td; exact Hstride
      | destruct td; reflexivity ].
  apply texel4_foldl_col0; [ lia | ].
  intros x' Hx'. apply written_columns_range in Hx'. lia.
Qed.

Lemma updateCpuData_keeps_column_0_witness :
  ColorPalette.texel
    (ColorPalette.updateCpuData (example_game (example_theme 1 0) [1; 2])
       (ColorPalette.init_fields ColorPalette.new)) 0 3
  = ColorPalette.texel (ColorPalette.init_fields ColorPalette.new) 0 3.
Proof.
  apply updateCpuData_keeps_column_0;
    [ apply init_fields_ready | vm_compute; discriminate | lia ].
Defined.

(** X14. The loop bound [Math.min(width, maxSmallId)] admits column 4096,
    one past the last column.  When some player view has a small ID of
    4096 or more, a recomputation stores the colours of
    [playerBySmallID(4096)] for rows 0..4 into column 0 of rows 1..5. *)
Theorem updateCpuData_column_4096_wraps
    (gv : ColorPalette.GameView) (cp : ColorPalette.t) (row : Z) :
  palette_ready cp ->
  ColorPalette.needsCpuUpdate gv cp = true ->
  4096 <= ColorPalette.maxSmallId (ColorPalette.playerViews gv) ->
  0 <= row <= 4 ->
  ColorPalette.texel (ColorPalette.updateCpuData gv cp) 0 (row + 1)
  = Some (ColorPalette.rgba_bytes
            (ColorPalette.row_color (ColorPalette.theme gv) row
               (ColorPalette.playerBySmallID gv 4096))).
Proof.
  intros Hready Hdirty Hmax Hrow.
  destruct Hready as (Hgame & td & l & Htd & Hw & Hbpp & Hstride & Hb & Hlen).
  destruct (updateCpuData_dirty gv cp td l Hgame Htd Hw Hb Hdirty)
    as (Htd' & _).
  erewrite (texel_texel4 _ _ _ 0 (row + 1) Htd');
    [ | destruct td; exact Hbpp | destruct td; exact Hstride
      | destruct td; reflexivity ].
  unfold written_columns. rewrite Z.min_l by lia.
  change 4096 with (4095 + 1) at 1.
  rewrite seqZ_app by lia. rewrite foldl_app. cbn [seqZ foldl].
  change (seqZ (1 + 4095) 1) with [4096]. cbn [foldl].
  apply texel4_write_column_4096; [ | lia ].
  rewrite length_foldl_write_column_list. exact Hlen.
Qed.

Lemma updateCpuData_column_4096_wraps_witness :
  ColorPalette.texel
    (ColorPalette.updateCpuData (example_game (example_theme 1 0) [4096])
       (ColorPalette.init_fields ColorPalette.new)) 0 (0 + 1)
  = Some (ColorPalette.rgba_bytes
            (ColorPalette.row_color (example_theme 1 0) 0
               (ColorPalette.mkPlayerView 4096 "player"))).
Proof.
  apply (updateCpuData_column_4096_wraps
           (example_game (example_theme 1 0) [4096])
           (ColorPalette.init_fields ColorPalette.new) 0);
    [ apply init_fields_ready | reflexivity | vm_compute; discriminate | lia ].
Defined.

(** X15. After [dispose] the palette is inert: the texture is deleted if
    it had been uploaded, and later [updateCpuData] and [uploadToGpu] calls
    change nothing and make no call on the context. *)
Theorem palette_dispose_inert
    (cp : ColorPalette.t) (w : Gpu.TexWorld) (gv : ColorPalette.GameView) :
  let st := Gpu.palette_dispose cp w in
  ColorPalette.textureData (fst st) = None
  /\ Gpu.tex_calls (snd st)
     = Gpu.tex_calls w
       ++ match ColorPalette.textureData cp with
          | Some td =>
              match TextureData.gpuTexture td with
              | Some h => [Gpu.DeleteTexture h]
              | None => []
              end
          | None => []
          end
  /\ ColorPalette.updateCpuData gv (fst st) = fst st
  /\ Gpu.palette_uploadToGpu (fst st) (snd st) = st.
Proof.
  cbv zeta. unfold Gpu.palette_dispose, Gpu.dispose.
  destruct cp as [g u up pt pc [td | ]];
    cbn [ColorPalette.textureData];
    [ destruct (TextureData.gpuTexture td) | ];
    cbn [fst snd Gpu.with_textureData ColorPalette.textureData
         ColorPalette.game ColorPalette.uniforms ColorPalette.needsGpuUpload
         ColorPalette.previousTheme ColorPalette.previousPlayerCount
         Gpu.tex_record Gpu.tex_calls];
    rewrite ?app_nil_r;
    (split; [ reflexivity | ]); (split; [ reflexivity | ]);
    unfold ColorPalette.updateCpuData, Gpu.palette_uploadToGpu;
    cbn [ColorPalette.textureData ColorPalette.game
         ColorPalette.needsGpuUpload];
    destruct g, up; split; reflexivity.
Qed.

(* ===================================================================== *)
(** * Further properties of setUniform and UniformSetter                  *)
(* ===================================================================== *)

Section Tame.
Import Uniform Effects.

Ltac tame_cases :=
  intros w;
  repeat match goal with
         | |- context [match ?x with _ => _ end] => destruct x
         end;
  first [ left; eexists _, _; reflexivity
        | right; left; reflexivity
        | right; right; left; eexists; reflexivity
        | right; right; right; eexists; reflexivity ].

Lemma tame_float_vector location value : tame location (Live.float_vector location value).
Proof. unfold Live.float_vector, gl_upload, throw. tame_cases. Qed.

Lemma tame_rgba_fallback location rgba :
  tame location (Live.rgba_fallback location rgba).
Proof. unfold Live.rgba_fallback, gl_upload. tame_cases. Qed.

Lemma tame_Live_set_rgba location rgba uniformInfo :
  tame location (Live.set_rgba location rgba uniformInfo).
Proof.
  unfold Live.set_rgba.
  destruct uniformInfo as [info | ]; [ | apply tame_rgba_fallback ].
  destruct (info_type info); try apply tame_rgba_fallback;
    unfold gl_upload; tame_cases.
Qed.

Lemma tame_Live_set_number location value uniformInfo :
  tame location (Live.set_number location value uniformInfo).
Proof.
  unfold Live.set_number, bind, gl_isWebGL2, gl_upload, throw, ret.
  tame_cases.
Qed.

Lemma tame_Live_set_array location value uniformInfo :
  tame location (Live.set_array location value uniformInfo).
Proof.
  unfold Live.set_array.
  destruct uniformInfo as [info | ]; [ | apply tame_float_vector ].
  destruct (info_type info); try apply tame_float_vector;
    unfold gl_upload, throw; tame_cases.
Qed.

Lemma tame_set_Float32Array location value :
  tame location (Live.set_Float32Array location value).
Proof. unfold Live.set_Float32Array, gl_upload, throw. tame_cases. Qed.

Lemma tame_set_Int32Array location value :
  tame location (Live.set_Int32Array location value).
Proof. unfold Live.set_Int32Array, gl_upload, throw. tame_cases. Qed.

Lemma tame_Strict_set_number location value info :
  tame location (Strict.set_number location value info).
Proof.
  unfold Strict.set_number, bind, gl_isWebGL2, gl_upload, throw, ret.
  tame_cases.
Qed.

Lemma tame_Strict_set_boolean location value info :
  tame location (Strict.set_boolean location value info).
Proof. unfold Strict.set_boolean, gl_upload, throw. tame_cases. Qed.

Lemma tame_Strict_set_array location value info :
  tame location (Strict.set_array location value info).
Proof. unfold Strict.set_array, gl_upload, throw. tame_cases. Qed.

Lemma tame_Strict_set_rgba location rgba info :
  tame location (Strict.set_rgba location rgba info).
Proof. unfold Strict.set_rgba, gl_upload, throw. tame_cases. Qed.

Lemma tame_console location line : tame location (console_write line).
Proof. intros w. right; right; left. eexists. reflexivity. Qed.

Lemma tame_throw location e : tame location (throw e).
Proof. intros w. right; right; right. eexists. reflexivity. Qed.

Lemma tame_Live_body location value uniformInfo name :
  tame location (Live.setUniform_body location value uniformInfo name).
Proof.
  intros w. unfold Live.setUniform_body, bind, gl_currentProgram.
  destruct (CURRENT_PROGRAM w); [ | apply tame_console ].
  destruct value;
    first [ apply tame_set_Float32Array | apply tame_set_Int32Array
          | apply tame_Live_set_number | apply tame_Live_set_array
          | apply tame_Live_set_rgba | apply tame_console
          | apply tame_throw
          | left; eexists _, _; reflexivity ].
Qed.

Lemma tame_Strict_body location value uniformInfo name :
  tame location (Strict.setUniform_body location value uniformInfo name).
Proof.
  intros w. unfold Strict.setUniform_body, bind, gl_currentProgram.
  destruct (CURRENT_PROGRAM w); [ | apply tame_console ].
  destruct uniformInfo as [info | ]; [ | apply tame_throw ].
  destruct location as [loc | ]; [ | apply tame_throw ].
  destruct value;
    first [ apply tame_set_Float32Array | apply tame_set_Int32Array
          | apply tame_Strict_set_number | apply tame_Strict_set_array
          | apply tame_Strict_set_boolean
          | apply tame_Strict_set_rgba | apply tame_console
          | apply tame_throw ].
Qed.

(** The [catch] block turns a tame body into one of the three effects:
    it logs the exception, or, when the value does not stringify, throws
    in its turn before anything is written. *)
Lemma tame_try_catch location (m : M unit) value name uniformInfo w :
  tame location m ->
  setUniform_effect location w
    (exec (try_catch m (log_exception value name uniformInfo)) w).
Proof.
  intros Hm. unfold exec, try_catch, log_exception.
  destruct (Hm w) as [(fn & args & ->) | [-> | [(l & ->) | (e & ->)]]];
    cbn [snd].
  - eapply effect_upload. reflexivity.
  - apply effect_none. reflexivity.
  - eapply effect_log. reflexivity.
  - destruct (stringifies value).
    + eapply effect_log. reflexivity.
    + apply effect_none. reflexivity.
Qed.

End Tame.

Lemma Live_setUniform_effect location value uniformInfo name w :
  setUniform_effect location w
    (Effects.exec (Live.setUniform location value uniformInfo name) w).
Proof. apply tame_try_catch, tame_Live_body. Qed.

Lemma Strict_setUniform_effect location value uniformInfo name w :
  setUniform_effect location w
    (Effects.exec (Strict.setUniform location value uniformInfo name) w).
Proof. apply tame_try_catch, tame_Strict_body. Qed.

(** X16. Whatever its arguments and the state of the context, one call
    of [setUniform] (either file) does exactly one of three things: it
    leaves context and console as they are, or makes a single upload, to
    the location it was given, or writes a single line to the console.  It
    never uploads and logs in one call, never uploads twice, and never
    binds a program. *)
Theorem setUniform_single_effect
    (location : option nat) (value : Uniform.UniformValue)
    (uniformInfo : option Effects.WebGLActiveInfo) (name : option string)
    (w : Effects.World) :
  setUniform_effect location w
    (Effects.exec (Live.setUniform location value uniformInfo name) w)
  /\ setUniform_effect location w
       (Effects.exec (Strict.setUniform location value uniformInfo name) w).
Proof.
  split; [ apply Live_setUniform_effect | apply Strict_setUniform_effect ].
Qed.

Section SetterMore.
Import Uniform Effects UniformSetter.

Lemma effect_frame location w w' :
  setUniform_effect location w w' ->
  CURRENT_PROGRAM w' = CURRENT_PROGRAM w
  /\ uniformLocation w' = uniformLocation w
  /\ uniformInfoByName w' = uniformInfoByName w
  /\ (length (uploads w') <= S (length (uploads w)))%nat.
Proof.
  intros [-> | fn args -> | line ->]; cbn; unfold uploads; cbn;
    rewrite ?List.filter_app, ?length_app; cbn; auto with lia.
Qed.

(** [getLocation] answers with [location_of], caches the answer, and
    writes the "not found" line only on a miss that finds nothing. *)
Lemma getLocation_spec (this : UniformSetter.t) (name : string) (w : World) :
  exists this' w',
    getLocation this name w = (Ok (this', location_of this w name), w')
    /\ program this' = program this
    /\ locationCache this' !! name = Some (location_of this w name)
    /\ uniformInfoCache this' = uniformInfoCache this
    /\ (forall other, other <> name ->
                      locationCache this' !! other
                      = locationCache this !! other)
    /\ (w' = w
        \/ (locationCache this !! name = None
            /\ location_of this w name = None
            /\ w' = record_line (UniformNotFound name) w)).
Proof.
  unfold getLocation, location_of.
  destruct (locationCache this !! name) as [cached | ] eqn:Hc.
  - exists this, w. repeat split; auto.
  - destruct (uniformLocation w (program this) name) as [loc | ] eqn:Hl;
      eexists _, _; (split; [ reflexivity | ]); cbn;
      rewrite lookup_insert_eq;
      repeat split; auto;
      intros other Hne; apply lookup_insert_ne; congruence.
Qed.

Lemma getUniformInfo_spec (this : UniformSetter.t) (name : string)
    (w : World) :
  exists this',
    getUniformInfo this name w = (Ok (this', info_of this w name), w)
    /\ program this' = program this
    /\ locationCache this' = locationCache this.
Proof.
  unfold getUniformInfo, info_of.
  destruct (uniformInfoCache this !! name); eexists; repeat split.
Qed.

Variable setUniform :
  option nat -> UniformValue -> option WebGLActiveInfo -> option string
  -> M unit.
Hypothesis setUniform_effects :
  forall location value uniformInfo name w,
    setUniform_effect location w
      (exec (setUniform location value uniformInfo name) w).

(** One run of the callback of [set], whether it returns or throws. *)
Lemma set_entry_frame (this : UniformSetter.t)
    (entry : string * UniformValue) (w : World) :
  CURRENT_PROGRAM (snd (set_entry setUniform this entry w))
  = CURRENT_PROGRAM w
  /\ (length (uploads (snd (set_entry setUniform this entry w)))
      <= S (length (uploads w)))%nat.
Proof.
  destruct entry as [name value].
  unfold set_entry, bind, ret.
  destruct (getLocation_spec this name w)
    as (this1 & w1 & -> & Hp1 & _ & _ & _ & Hw1).
  assert (CURRENT_PROGRAM w1 = CURRENT_PROGRAM w
          /\ uploads w1 = uploads w) as [Hcp1 Hup1]
    by (destruct Hw1 as [-> | (_ & _ & ->)]; split; reflexivity).
  destruct (location_of this w name) as [loc | ];
    [ | cbn; rewrite Hcp1, Hup1; auto with lia ].
  destruct (getUniformInfo_spec this1 name w1) as (this2 & -> & Hp2 & _).
  pose proof (setUniform_effects (Some loc) value (info_of this1 w1 name)
                (Some name) w1) as Heff.
  unfold exec in Heff.
  destruct (setUniform (Some loc) value (info_of this1 w1 name)
              (Some name) w1) as [[[] | e] w3];
    cbn [fst snd] in Heff |- *;
    destruct (effect_frame _ _ _ Heff) as (Hcp3 & _ & _ & Hup3);
    rewrite Hcp3, Hcp1; rewrite Hup1 in Hup3; auto.
Qed.

(** The loop of [set], whether it runs to its end or is left by an
    exception. *)
Lemma forEach_set_entry_frame (uniforms : list (string * UniformValue))
    (this : UniformSetter.t) (w : World) :
  CURRENT_PROGRAM (snd (forEach uniforms (set_entry setUniform) this w))
  = CURRENT_PROGRAM w
  /\ (length (uploads (snd (forEach uniforms (set_entry setUniform) this w)))
      <= length (uploads w) + length uniforms)%nat.
Proof.
  revert this w. induction uniforms as [ | entry rest IH ]; intros this w.
  - cbn. auto with lia.
  - cbn [forEach length]. unfold bind at 1 2.
    destruct (set_entry_frame this entry w) as (Hcp1 & Hup1).
    destruct (set_entry setUniform this entry w) as [[this1 | e] w1];
      cbn [snd] in Hcp1, Hup1 |- *.
    + destruct (IH this1 w1) as (Hcp & Hup).
      rewrite Hcp, Hcp1. split; [ reflexivity | lia ].
    + rewrite Hcp1. split; [ reflexivity | lia ].
Qed.

Lemma set_postcondition (this : UniformSetter.t)
    (uniforms : JsRecord UniformValue) (w : World) :
  CURRENT_PROGRAM (exec (UniformSetter.set setUniform this uniforms) w)
  = Some (program this)
  /\ (length (uploads (exec (UniformSetter.set setUniform this uniforms) w))
      <= length (uploads w) + length uniforms)%nat.
Proof.
  unfold exec, UniformSetter.set, bind at 1 2.
  rewrite ensureCorrectProgramBound_returns.
  destruct (forEach_set_entry_frame (entries uniforms) this
              (bound_world this w)) as (Hcp & Hup).
  rewrite Hcp. rewrite length_entries in Hup.
  assert (CURRENT_PROGRAM (bound_world this w) = Some (program this)
          /\ uploads (bound_world this w) = uploads w)
    as [Hbound Hsame].
  { unfold bound_world.
    destruct (decide (CURRENT_PROGRAM w = Some (program this))) as [Heq | ].
    - split; [ exact Heq | reflexivity ].
    - cbn. unfold uploads. cbn. rewrite List.filter_app. cbn.
      rewrite app_nil_r. auto. }
  rewrite Hsame in Hup. auto.
Qed.

End SetterMore.

(** X17. After [UniformSetter.set] (either file) the setter's own program
    is the bound one, whatever was bound before, and the call has made at
    most one upload per entry of the record. *)
Theorem set_binds_program_and_bounds_uploads
    (this : UniformSetter.t) (uniforms : Uniform.JsRecord Uniform.UniformValue)
    (w : Effects.World) :
  (Effects.CURRENT_PROGRAM
     (Effects.exec (UniformSetter.set Live.setUniform this uniforms) w)
   = Some (UniformSetter.program this)
   /\ (length (Effects.uploads
                 (Effects.exec
                    (UniformSetter.set Live.setUniform this uniforms) w))
       <= length (Effects.uploads w) + length uniforms)%nat)
  /\ (Effects.CURRENT_PROGRAM
        (Effects.exec (UniformSetter.set Strict.setUniform this uniforms) w)
      = Some (UniformSetter.program this)
      /\ (length (Effects.uploads
                    (Effects.exec
                       (UniformSetter.set Strict.setUniform this uniforms) w))
          <= length (Effects.uploads w) + length uniforms)%nat).
Proof.
  split.
  - apply set_postcondition. exact Live_setUniform_effect.
  - apply set_postcondition. exact Strict_setUniform_effect.
Qed.

(** X18. Locations are cached per name, misses included.  The first
    [getLocation] for a name answers from the cache or else from the
    driver; every later [getLocation] for that name gives the same answer
    in any state of the context, changes nothing and writes nothing, so
    the "not found" line appears at most once per name until the cache is
    cleared. *)
Theorem getLocation_cached
    (this : UniformSetter.t) (name : string) (w : Effects.World) :
  exists this' w',
    UniformSetter.getLocation this name w
    = (Ok (this', location_of this w name), w')
    /\ (forall w2,
           UniformSetter.getLocation this' name w2
           = (Ok (this', location_of this w name), w2))
    /\ (w' = w
        \/ (location_of this w name = None
            /\ w' = Effects.record_line (Effects.UniformNotFound name) w))
    /\ location_of (clearCache this') w name
       = Effects.uniformLocation w (UniformSetter.program this) name.
Proof.
  destruct (getLocation_spec this name w)
    as (this' & w' & Hget & Hp & Hcache & _ & _ & Hw).
  exists this', w'. split; [ exact Hget | ]. split; [ | split ].
  - intros w2. unfold UniformSetter.getLocation. rewrite Hcache. reflexivity.
  - destruct Hw as [-> | (_ & Hnone & ->)]; auto.
  - unfold location_of, clearCache. cbn. rewrite lookup_empty, Hp.
    reflexivity.
Qed.

(** X19. A number set on a uniform whose declared type has no case in the
    [switch] (float, bool and unsigned vectors, matrices, any other type)
    is dropped without a trace in both files: with a program bound, no
    upload is made and nothing is written to the console. *)
Theorem setUniform_number_dropped_silently
    (w : Effects.World) (location : option nat) (loc : nat)
    (value : JS.number) (info : Effects.WebGLActiveInfo)
    (name : option string) :
  is_Some (Effects.CURRENT_PROGRAM w) ->
  number_has_case (Effects.info_type info) = false ->
  Live.setUniform location (Uniform.VNumber value) (Some info) name w
  = (Ok tt, w)
  /\ Strict.setUniform (Some loc) (Uniform.VNumber value) (Some info) name w
     = (Ok tt, w).
Proof.
  intros [p Hp] Hcase.
  unfold Live.setUniform, Strict.setUniform, Effects.try_catch,
    Live.setUniform_body, Strict.setUniform_body, Effects.bind,
    Effects.gl_currentProgram, Live.set_number, Strict.set_number.
  rewrite Hp.
  destruct (Effects.info_type info); try discriminate Hcase;
    split; reflexivity.
Qed.

Lemma setUniform_number_dropped_silently_witness :
  Live.setUniform (Some 7%nat) (Uniform.VNumber (JS.of_Z 1))
    (Some (Effects.mkActiveInfo "u_color" 1 GL.FLOAT_VEC3)) (Some "u_color")
    example_world
  = (Ok tt, example_world)
  /\ Strict.setUniform (Some 7%nat) (Uniform.VNumber (JS.of_Z 1))
       (Some (Effects.mkActiveInfo "u_color" 1 GL.FLOAT_VEC3))
       (Some "u_color") example_world
     = (Ok tt, example_world).
Proof.
  apply setUniform_number_dropped_silently;
    [ exists 1%nat; reflexivity | reflexivity ].
Defined.

Section Agreement.
Import Uniform Effects.

(** For a value in [0, 2^31), [Math.floor(x)] and [x | 0] are the same
    integer. *)
Lemma floor_or0_agree (q : Q) :
  (0 <= q)%Q -> (q < 2147483648)%Q ->
  JS.floor (Some (JS.Num q)) = JS.or0 (Some (JS.Num q)).
Proof.
  intros Hlo Hhi. unfold JS.floor, JS.or0, JS.ToInt32, JS.Qtrunc, Qfloor.
  destruct q as [n d]. unfold Qle, Qlt in *. cbn [Qnum Qden] in *.
  assert (0 <= n) as Hn by lia.
  assert (0 <= n / Z.pos d < 2147483648) as Hdiv.
  { split; [ apply Z.div_pos; lia | ].
    apply Z.div_lt_upper_bound; lia. }
  rewrite Z.quot_div_nonneg by lia.
  rewrite Z.mod_small by lia.
  destruct (Z.leb_spec 2147483648 (n / Z.pos d)); [ lia | reflexivity ].
Qed.

End Agreement.

(** X20. Where the two files convert a number to an integer, the one with
    [Math.floor] and the other with [| 0], they upload the same integer
    for every value in [0, 2^31): for a uniform declared INT, SAMPLER_2D or
    SAMPLER_CUBE the two [setUniform]s then do the same.  At -3/2 they
    differ: UniformSetter.ts uploads -2, the second file -1. *)
Theorem setUniform_integer_conversion
    (w : Effects.World) (loc : nat) (q : Q)
    (info : Effects.WebGLActiveInfo) (name : option string) :
  (0 <= q)%Q -> (q < 2147483648)%Q ->
  Effects.info_type info = GL.INT \/ Effects.info_type info = GL.SAMPLER_2D
  \/ Effects.info_type info = GL.SAMPLER_CUBE ->
  Live.setUniform (Some loc) (Uniform.VNumber (JS.Num q)) (Some info) name w
  = Strict.setUniform (Some loc) (Uniform.VNumber (JS.Num q)) (Some info)
      name w
  /\ JS.floor (Some (JS.Num (-3 # 2))) = JS.of_Z (-2)
  /\ JS.or0 (Some (JS.Num (-3 # 2))) = JS.of_Z (-1).
Proof.
  intros Hlo Hhi Hty. split; [ | split; reflexivity ].
  unfold Live.setUniform, Strict.setUniform, Effects.try_catch,
    Live.setUniform_body, Strict.setUniform_body, Effects.bind,
    Effects.gl_currentProgram, Live.set_number, Strict.set_number.
  destruct (Effects.CURRENT_PROGRAM w); [ | reflexivity ].
  destruct Hty as [-> | [-> | ->]];
    rewrite (floor_or0_agree q Hlo Hhi); reflexivity.
Qed.

Lemma setUniform_integer_conversion_witness :
  Live.setUniform (Some 7%nat) (Uniform.VNumber (JS.Num (7 # 2)))
    (Some (Effects.mkActiveInfo "u_tileTexture" 1 GL.SAMPLER_2D))
    (Some "u_tileTexture") example_world
  = Strict.setUniform (Some 7%nat) (Uniform.VNumber (JS.Num (7 # 2)))
      (Some (Effects.mkActiveInfo "u_tileTexture" 1 GL.SAMPLER_2D))
      (Some "u_tileTexture") example_world.
Proof.
  apply (setUniform_integer_conversion example_world 7 (7 # 2)
           (Effects.mkActiveInfo "u_tileTexture" 1 GL.SAMPLER_2D)
           (Some "u_tileTexture"));
    [ unfold Qle; cbn; lia | unfold Qlt; cbn; lia | right; left; reflexivity ].
Defined.

(** X21. With uniform info and a location at hand, the two files treat
    typed arrays alike in every state: a Float32Array or an Int32Array
    gives the same result in both, an upload for the lengths 1, 2, 3, 4
    (and 9, 16 for floats) and a logged "Unsupported ... length" error for
    any other length; an array of length 0 or 5 is never uploaded. *)
Theorem setUniform_typed_arrays_agree
    (w : Effects.World) (loc : nat) (info : Effects.WebGLActiveInfo)
    (name : option string) (fs : list JS.number) (zs : list Z) :
  Live.setUniform (Some loc) (Uniform.VFloat32Array fs) (Some info) name w
  = Strict.setUniform (Some loc) (Uniform.VFloat32Array fs) (Some info) name w
  /\ Live.setUniform (Some loc) (Uniform.VInt32Array zs) (Some info) name w
     = Strict.setUniform (Some loc) (Uniform.VInt32Array zs) (Some info)
         name w
  /\ (length fs = 0%nat \/ length fs = 5%nat ->
      Effects.uploads
        (Effects.exec
           (Live.setUniform (Some loc) (Uniform.VFloat32Array fs) (Some info)
              name) w)
      = Effects.uploads w)
  /\ (length zs = 0%nat \/ (5 <= length zs)%nat ->
      Effects.uploads
        (Effects.exec
           (Live.setUniform (Some loc) (Uniform.VInt32Array zs) (Some info)
              name) w)
      = Effects.uploads w).
Proof.
  unfold Live.setUniform, Strict.setUniform, Effects.try_catch,
    Live.setUniform_body, Strict.setUniform_body, Effects.bind,
    Effects.gl_currentProgram, Effects.exec,
    Live.set_Float32Array, Live.set_Int32Array.
  destruct (Effects.CURRENT_PROGRAM w);
    (split; [ reflexivity | ]); (split; [ reflexivity | ]).
  - split.
    + intros [-> | ->]; reflexivity.
    + intros [-> | Hge]; [ reflexivity | ].
      destruct (length zs) as [ | [ | [ | [ | [ | k ]]]]]; try lia.
      reflexivity.
  - split; intros _; reflexivity.
Qed.

Lemma setUniform_typed_arrays_agree_witness :
  Effects.uploads
    (Effects.exec
       (Live.setUniform (Some 7%nat) (Uniform.VFloat32Array [])
          (Some (Effects.mkActiveInfo "u_color" 1 GL.FLOAT_VEC4))
          (Some "u_color")) example_world)
  = Effects.uploads example_world.
Proof.
  apply (setUniform_typed_arrays_agree example_world 7
           (Effects.mkActiveInfo "u_color" 1 GL.FLOAT_VEC4) (Some "u_color")
           [] []).
  left. reflexivity.
Defined.

Section PaletteToGpu.
Import Uniform Effects UniformSetter.

Lemma ensureCorrectProgramBound_frame (this : UniformSetter.t) (w : World) :
  CURRENT_PROGRAM (exec (ensureCorrectProgramBound this) w)
  = Some (program this)
  /\ uniformLocation (exec (ensureCorrectProgramBound this) w)
     = uniformLocation w
  /\ uniformInfoByName (exec (ensureCorrectProgramBound this) w)
     = uniformInfoByName w
  /\ uploads (exec (ensureCorrectProgramBound this) w) = uploads w.
Proof.
  unfold exec, ensureCorrectProgramBound, bind, gl_currentProgram.
  destruct (decide (CURRENT_PROGRAM w = Some (program this))) as [Heq | ].
  - auto.
  - cbn. unfold uploads. cbn. rewrite List.filter_app. cbn.
    rewrite app_nil_r. auto.
Qed.

(** A float and a colour against the declarations of the fragment
    shader: both files make the same upload. *)
Lemma setUniform_float (w : World) (loc : nat) (v : JS.number)
    (info : WebGLActiveInfo) (name : option string) :
  is_Some (CURRENT_PROGRAM w) -> info_type info = GL.FLOAT ->
  Live.setUniform (Some loc) (VNumber v) (Some info) name w
  = (Ok tt, record_call (Upload uniform1f (Some loc) [v]) w)
  /\ Strict.setUniform (Some loc) (VNumber v) (Some info) name w
     = (Ok tt, record_call (Upload uniform1f (Some loc) [v]) w).
Proof.
  intros [p Hp] Hty.
  unfold Live.setUniform, Strict.setUniform, try_catch,
    Live.setUniform_body, Strict.setUniform_body, bind, gl_currentProgram,
    Live.set_number, Strict.set_number.
  rewrite Hp, Hty. split; reflexivity.
Qed.

Lemma setUniform_colord_vec3 (w : World) (loc : nat)
    (c : TextureData.RgbaColor) (info : WebGLActiveInfo)
    (name : option string) :
  is_Some (CURRENT_PROGRAM w) -> info_type info = GL.FLOAT_VEC3 ->
  Live.setUniform (Some loc) (VColord c) (Some info) name w
  = (Ok tt, record_call (Upload uniform3f (Some loc) (rgb_floats c)) w)
  /\ Strict.setUniform (Some loc) (VColord c) (Some info) name w
     = (Ok tt, record_call (Upload uniform3f (Some loc) (rgb_floats c)) w).
Proof.
  intros [p Hp] Hty.
  unfold Live.setUniform, Strict.setUniform, try_catch,
    Live.setUniform_body, Strict.setUniform_body, bind, gl_currentProgram,
    Live.set_rgba, Strict.set_rgba.
  rewrite Hp, Hty. split; reflexivity.
Qed.

Lemma uploads_record_call_upload fn location args (w : World) :
  uploads (record_call (Upload fn location args) w)
  = uploads w ++ [Upload fn location args].
Proof. unfold uploads. cbn. rewrite List.filter_app. reflexivity. Qed.

Variable setUniform :
  option nat -> UniformValue -> option WebGLActiveInfo -> option string
  -> M unit.

(** One entry of [set] whose name is in neither cache and which the
    program declares: the callback asks the driver, caches both answers
    and hands them to [setUniform]. *)
Lemma entry_step_declared (this : UniformSetter.t) (w w' : World)
    (name : string) (value : UniformValue) (loc : nat)
    (info : WebGLActiveInfo) :
  locationCache this !! name = None ->
  uniformInfoCache this !! name = None ->
  uniformLocation w (program this) name = Some loc ->
  uniformInfoByName w (program this) name = Some info ->
  setUniform (Some loc) value (Some info) (Some name) w = (Ok tt, w') ->
  entry_step setUniform (this, w) (name, value)
  = (mkUniformSetter (program this)
       (<[name := Some loc]> (locationCache this))
       (<[name := Some info]> (uniformInfoCache this)),
     w').
Proof.
  intros Hlc Hic Hloc Hinfo Hset.
  unfold entry_step, location_of, info_of, exec.
  cbn [fst snd]. rewrite Hlc, Hloc. cbn [locationCache uniformInfoCache
                                         program].
  rewrite Hic, Hinfo, Hset. reflexivity.
Qed.

End PaletteToGpu.

Section PaletteUpload.
Import Uniform Effects UniformSetter.

Variable setUniform :
  option nat -> UniformValue -> option WebGLActiveInfo -> option string
  -> M unit.
Hypothesis setUniform_returns :
  forall location value uniformInfo name w,
    stringifies value = true ->
    exists w', setUniform location value uniformInfo name w = (Ok tt, w').
Hypothesis setUniform_FLOAT :
  forall w loc v info name,
    is_Some (CURRENT_PROGRAM w) -> info_type info = GL.FLOAT ->
    setUniform (Some loc) (VNumber v) (Some info) name w
    = (Ok tt, record_call (Upload uniform1f (Some loc) [v]) w).
Hypothesis setUniform_FLOAT_VEC3 :
  forall w loc c info name,
    is_Some (CURRENT_PROGRAM w) -> info_type info = GL.FLOAT_VEC3 ->
    setUniform (Some loc) (VColord c) (Some info) name w
    = (Ok tt, record_call (Upload uniform3f (Some loc) (rgb_floats c)) w).

Lemma set_palette_record (w : World) (p l1 l2 l3 l4 : nat)
    (a1 a2 : JS.number) (c3 c4 : TextureData.RgbaColor) :
  declares w p "u_borderAlpha" l1 GL.FLOAT ->
  declares w p "u_territoryAlpha" l2 GL.FLOAT ->
  declares w p "u_focusedBorderColor" l3 GL.FLOAT_VEC3 ->
  declares w p "u_falloutColor" l4 GL.FLOAT_VEC3 ->
  uploads
    (exec (UniformSetter.set setUniform (UniformSetter.new p)
             [("u_borderAlpha", VNumber a1);
              ("u_territoryAlpha", VNumber a2);
              ("u_focusedBorderColor", VColord c3);
              ("u_falloutColor", VColord c4)]) w)
  = uploads w
    ++ [Upload uniform1f (Some l1) [a1];
        Upload uniform1f (Some l2) [a2];
        Upload uniform3f (Some l3) (rgb_floats c3);
        Upload uniform3f (Some l4) (rgb_floats c4)].
Proof.
  intros (Hl1 & i1 & Hi1 & Ht1) (Hl2 & i2 & Hi2 & Ht2)
         (Hl3 & i3 & Hi3 & Ht3) (Hl4 & i4 & Hi4 & Ht4).
  unfold exec at 1.
  rewrite (set_runs_every_entry setUniform setUniform_returns)
    by (repeat constructor).
  assert (bound_world (UniformSetter.new p) w
          = exec (ensureCorrectProgramBound (UniformSetter.new p)) w) as ->
    by (unfold exec; rewrite ensureCorrectProgramBound_returns; reflexivity).
  change (entries [("u_borderAlpha", VNumber a1);
                   ("u_territoryAlpha", VNumber a2);
                   ("u_focusedBorderColor", VColord c3);
                   ("u_falloutColor", VColord c4)])
    with [("u_borderAlpha", VNumber a1);
          ("u_territoryAlpha", VNumber a2);
          ("u_focusedBorderColor", VColord c3);
          ("u_falloutColor", VColord c4)].
  cbn [snd foldl].
  destruct (ensureCorrectProgramBound_frame (UniformSetter.new p) w)
    as (Hcp & Hloc & Hinfo & Hup).
  set (w0 := exec (ensureCorrectProgramBound (UniformSetter.new p)) w) in *.
  cbn [program UniformSetter.new] in Hcp.
  assert (is_Some (CURRENT_PROGRAM w0)) as Hbound by (rewrite Hcp; eauto).
  erewrite (entry_step_declared setUniform (UniformSetter.new p) w0 _
              "u_borderAlpha" (VNumber a1) l1 i1);
    [ | apply lookup_empty | apply lookup_empty
      | rewrite Hloc; exact Hl1 | rewrite Hinfo; exact Hi1
      | apply setUniform_FLOAT; assumption ].
  cbn [program UniformSetter.new locationCache uniformInfoCache].
  erewrite (entry_step_declared setUniform _ _ _
              "u_territoryAlpha" (VNumber a2) l2 i2);
    [ | cbn; rewrite lookup_insert_ne by discriminate; apply lookup_empty
      | cbn; rewrite lookup_insert_ne by discriminate; apply lookup_empty
      | cbn; rewrite Hloc; exact Hl2 | cbn; rewrite Hinfo; exact Hi2
      | apply setUniform_FLOAT; [ exact Hbound | exact Ht2 ] ].
  cbn [program locationCache uniformInfoCache].
  erewrite (entry_step_declared setUniform _ _ _
              "u_focusedBorderColor" (VColord c3) l3 i3);
    [ | cbn; rewrite !lookup_insert_ne by discriminate; apply lookup_empty
      | cbn; rewrite !lookup_insert_ne by discriminate; apply lookup_empty
      | cbn; rewrite Hloc; exact Hl3 | cbn; rewrite Hinfo; exact Hi3
      | apply setUniform_FLOAT_VEC3; [ exact Hbound | exact Ht3 ] ].
  cbn [program locationCache uniformInfoCache].
  erewrite (entry_step_declared setUniform _ _ _
              "u_falloutColor" (VColord c4) l4 i4);
    [ | cbn; rewrite !lookup_insert_ne by discriminate; apply lookup_empty
      | cbn; rewrite !lookup_insert_ne by discriminate; apply lookup_empty
      | cbn; rewrite Hloc; exact Hl4 | cbn; rewrite Hinfo; exact Hi4
      | apply setUniform_FLOAT_VEC3; [ exact Hbound | exact Ht4 ] ].
  cbn [snd]. rewrite !uploads_record_call_upload, Hup.
  rewrite <- !app_assoc. reflexivity.
Qed.

End PaletteUpload.

Section PaletteUniformsRecord.
Import ColorPalette.

(** The uniforms record of a freshly initialised palette. *)
Lemma init_uniforms (gv : GameView) :
  uniforms (init gv ColorPalette.new)
  = [("u_borderAlpha", Uniform.VNumber (JS.Num (255 / 255)%Q));
     ("u_territoryAlpha", Uniform.VNumber (JS.Num (150 / 255)%Q));
     ("u_focusedBorderColor",
      Uniform.VColord (rgba (focusedBorderColor (theme gv))));
     ("u_falloutColor", Uniform.VColord (rgba (falloutColor (theme gv))))].
Proof.
  unfold init.
  destruct (updateCpuData_dirty_uniforms gv (init_fields ColorPalette.new) _
              eq_refl eq_refl eq_refl) as [-> _].
  reflexivity.
Qed.

End PaletteUniformsRecord.

(** X22. From palette to context: when the program declares the four
    palette uniforms as the fragment shader does ([u_borderAlpha] and
    [u_territoryAlpha] as float, [u_focusedBorderColor] and [u_falloutColor] as
    vec3), [set] on the uniforms of a freshly initialised palette, from a
    fresh setter, makes exactly four uploads, in this order:
    [uniform1f] of 255/255, [uniform1f] of 150/255, and [uniform3f] of the
    theme's focused-border and fallout colours with each channel divided
    by 255.  Both files do the same. *)
Theorem palette_uniforms_uploaded
    (gv : ColorPalette.GameView) (w : Effects.World) (p l1 l2 l3 l4 : nat) :
  declares w p "u_borderAlpha" l1 GL.FLOAT ->
  declares w p "u_territoryAlpha" l2 GL.FLOAT ->
  declares w p "u_focusedBorderColor" l3 GL.FLOAT_VEC3 ->
  declares w p "u_falloutColor" l4 GL.FLOAT_VEC3 ->
  let uniforms := ColorPalette.uniforms (ColorPalette.init gv ColorPalette.new) in
  let expected :=
    [Effects.Upload Effects.uniform1f (Some l1) [JS.Num (255 / 255)%Q];
     Effects.Upload Effects.uniform1f (Some l2) [JS.Num (150 / 255)%Q];
     Effects.Upload Effects.uniform3f (Some l3)
       (rgb_floats
          (ColorPalette.rgba
             (ColorPalette.focusedBorderColor (ColorPalette.theme gv))));
     Effects.Upload Effects.uniform3f (Some l4)
       (rgb_floats
          (ColorPalette.rgba
             (ColorPalette.falloutColor (ColorPalette.theme gv))))] in
  Effects.uploads
    (Effects.exec
       (UniformSetter.set Live.setUniform (UniformSetter.new p) uniforms) w)
  = Effects.uploads w ++ expected
  /\ Effects.uploads
       (Effects.exec
          (UniformSetter.set Strict.setUniform (UniformSetter.new p) uniforms)
          w)
     = Effects.uploads w ++ expected.
Proof.
  intros H1 H2 H3 H4. cbv zeta. rewrite init_uniforms. split.
  - apply set_palette_record; try assumption.
    + exact Live_setUniform_returns.
    + intros. apply setUniform_float; assumption.
    + intros. apply setUniform_colord_vec3; assumption.
  - apply set_palette_record; try assumption.
    + exact Strict_setUniform_returns.
    + intros. apply setUniform_float; assumption.
    + intros. apply setUniform_colord_vec3; assumption.
Qed.

Lemma palette_uniforms_uploaded_witness :
  Effects.uploads
    (Effects.exec
       (UniformSetter.set Live.setUniform (UniformSetter.new 1)
          (ColorPalette.uniforms
             (ColorPalette.init (example_game (example_theme 1 0) [1; 2])
                ColorPalette.new)))
       shader_world)
  = [Effects.Upload Effects.uniform1f (Some 1%nat) [JS.Num (255 / 255)%Q];
     Effects.Upload Effects.uniform1f (Some 2%nat) [JS.Num (150 / 255)%Q];
     Effects.Upload Effects.uniform3f (Some 3%nat)
       (rgb_floats (ColorPalette.rgba (shade 200)));
     Effects.Upload Effects.uniform3f (Some 4%nat)
       (rgb_floats (ColorPalette.rgba (shade 100)))].
Proof.
  apply (palette_uniforms_uploaded (example_game (example_theme 1 0) [1; 2])
           shader_world 1 1 2 3 4);
    (split; [ reflexivity | eexists; split; reflexivity ]).
Defined.

(** X23. A colord colour for a uniform declared FLOAT_VEC4, with a
    program bound: both files upload the red, green and blue channels
    divided by 255; UniformSetter.ts also divides the alpha channel by 255,
    the second file passes it as it is.  For an opaque colord colour
    (alpha 1) the first uploads 1/255 and the second 1. *)
Theorem setUniform_colord_vec4_alpha
    (w : Effects.World) (loc : nat) (c : TextureData.RgbaColor)
    (info : Effects.WebGLActiveInfo) (name : option string) :
  is_Some (Effects.CURRENT_PROGRAM w) ->
  Effects.info_type info = GL.FLOAT_VEC4 ->
  Live.setUniform (Some loc) (Uniform.VColord c) (Some info) name w
  = (Ok tt,
     Effects.record_call
       (Effects.Upload Effects.uniform4f (Some loc)
          (rgb_floats c ++ [JS.div255 (TextureData.a c)])) w)
  /\ Strict.setUniform (Some loc) (Uniform.VColord c) (Some info) name w
     = (Ok tt,
        Effects.record_call
          (Effects.Upload Effects.uniform4f (Some loc)
             (rgb_floats c ++ [TextureData.a c])) w).
Proof.
  intros [p Hp] Hty.
  unfold Live.setUniform, Strict.setUniform, Effects.try_catch,
    Live.setUniform_body, Strict.setUniform_body, Effects.bind,
    Effects.gl_currentProgram, Live.set_rgba, Strict.set_rgba.
  rewrite Hp, Hty. split; reflexivity.
Qed.

Lemma setUniform_colord_vec4_alpha_witness :
  Effects.uploads
    (Effects.exec
       (Live.setUniform (Some 7%nat)
          (Uniform.VColord (ColorPalette.rgba (shade 100)))
          (Some (Effects.mkActiveInfo "u_color" 1 GL.FLOAT_VEC4))
          (Some "u_color")) example_world)
  = [Effects.Upload Effects.uniform4f (Some 7%nat)
       [JS.Num (100 / 255)%Q; JS.Num (101 / 255)%Q; JS.Num (102 / 255)%Q;
        JS.Num (1 / 255)%Q]]
  /\ Effects.uploads
       (Effects.exec
          (Strict.setUniform (Some 7%nat)
             (Uniform.VColord (ColorPalette.rgba (shade 100)))
             (Some (Effects.mkActiveInfo "u_color" 1 GL.FLOAT_VEC4))
             (Some "u_color")) example_world)
     = [Effects.Upload Effects.uniform4f (Some 7%nat)
          [JS.Num (100 / 255)%Q; JS.Num (101 / 255)%Q; JS.Num (102 / 255)%Q;
           JS.Num 1%Q]].
Proof.
  destruct (setUniform_colord_vec4_alpha example_world 7
              (ColorPalette.rgba (shade 100))
              (Effects.mkActiveInfo "u_color" 1 GL.FLOAT_VEC4)
              (Some "u_color") (ex_intro _ 1%nat eq_refl) eq_refl)
    as [Hlive Hstrict].
  unfold Effects.exec. rewrite Hlive, Hstrict. split; reflexivity.
Defined.

(** X24. A boolean, with a program bound: UniformSetter.ts uploads it with
    [uniform1i] as 0 or 1 whatever the declared type, also without uniform
    info; the second file does so only for BOOL, repeats the value for
    BOOL_VEC2, BOOL_VEC3 and BOOL_VEC4, and for any other declared type
    uploads nothing and logs an "Unsupported boolean uniform type"
    error. *)
Theorem setUniform_boolean
    (w : Effects.World) (location : option nat) (loc : nat) (b : bool)
    (uniformInfo : option Effects.WebGLActiveInfo)
    (info : Effects.WebGLActiveInfo) (name : option string) :
  is_Some (Effects.CURRENT_PROGRAM w) ->
  Live.setUniform location (Uniform.VBoolean b) uniformInfo name w
  = (Ok tt,
     Effects.record_call
       (Effects.Upload Effects.uniform1i location [JS.of_bool b]) w)
  /\ Effects.uploads
       (Effects.exec
          (Strict.setUniform (Some loc) (Uniform.VBoolean b) (Some info) name)
          w)
     = Effects.uploads w
       ++ match Effects.info_type info with
          | GL.BOOL =>
              [Effects.Upload Effects.uniform1i (Some loc) [JS.of_bool b]]
          | GL.BOOL_VEC2 =>
              [Effects.Upload Effects.uniform2i (Some loc)
                 [JS.of_bool b; JS.of_bool b]]
          | GL.BOOL_VEC3 =>
              [Effects.Upload Effects.uniform3i (Some loc)
                 [JS.of_bool b; JS.of_bool b; JS.of_bool b]]
          | GL.BOOL_VEC4 =>
              [Effects.Upload Effects.uniform4i (Some loc)
                 [JS.of_bool b; JS.of_bool b; JS.of_bool b; JS.of_bool b]]
          | _ => []
          end.
Proof.
  intros [p Hp].
  unfold Live.setUniform, Strict.setUniform, Effects.try_catch,
    Live.setUniform_body, Strict.setUniform_body, Effects.bind,
    Effects.gl_currentProgram, Strict.set_boolean, Effects.exec.
  rewrite Hp. split; [ reflexivity | ].
  unfold Effects.gl_upload, Effects.throw, Effects.console_write,
    Effects.uploads.
  destruct (Effects.info_type info); cbn;
    rewrite ?List.filter_app, ?app_nil_r; reflexivity.
Qed.

Lemma setUniform_boolean_witness :
  Live.setUniform (Some 7%nat) (Uniform.VBoolean true)
    (Some (Effects.mkActiveInfo "u_alpha" 1 GL.FLOAT)) (Some "u_alpha")
    example_world
  = (Ok tt,
     Effects.record_call
       (Effects.Upload Effects.uniform1i (Some 7%nat) [JS.of_bool true])
       example_world)
  /\ Effects.uploads
       (Effects.exec
          (Strict.setUniform (Some 7%nat) (Uniform.VBoolean true)
             (Some (Effects.mkActiveInfo "u_alpha" 1 GL.FLOAT))
             (Some "u_alpha")) example_world)
     = Effects.uploads example_world ++ [].
Proof.
  apply (setUniform_boolean example_world (Some 7%nat) 7 true
           (Some (Effects.mkActiveInfo "u_alpha" 1 GL.FLOAT))
           (Effects.mkActiveInfo "u_alpha" 1 GL.FLOAT) (Some "u_alpha")).
  exists 1%nat. reflexivity.
Defined.

Section StaleColumns.
Import ColorPalette.

(** What a recomputation leaves in a column it writes. *)
Lemma texel_after_recompute (gv : GameView) (cp : ColorPalette.t)
    (x row : Z) :
  palette_ready cp -> needsCpuUpdate gv cp = true ->
  1 <= x <= 4095 -> x <= maxSmallId (playerViews gv) -> 0 <= row <= 5 ->
  texel (updateCpuData gv cp) x row
  = Some (rgba_bytes (row_color (theme gv) row (playerBySmallID gv x))).
Proof.
  intros Hready Hdirty Hx Hmax Hrow.
  destruct Hready as (Hgame & td & l & Htd & Hw & Hbpp & Hstride & Hb & Hlen).
  destruct (updateCpuData_dirty gv cp td l Hgame Htd Hw Hb Hdirty)
    as (Htd' & _).
  erewrite (texel_texel4 _ _ _ x row Htd');
    [ | destruct td; exact Hbpp | destruct td; exact Hstride
      | destruct td; reflexivity ].
  apply texel4_foldl_in; [ exact Hlen | lia | lia | | | ].
  - intros x' Hx'. apply written_columns_range in Hx'. lia.
  - apply NoDup_seqZ.
  - apply written_columns_range. lia.
Qed.

End StaleColumns.

(** X25. [updateCpuData] never clears a column.  When a recomputation
    has written column [x] and a later call finds the largest small ID
    below [x], the column still holds the colours of the earlier game
    state, whether or not the later call recomputes. *)
Theorem updateCpuData_stale_column
    (gv1 gv2 : ColorPalette.GameView) (cp : ColorPalette.t) (x row : Z) :
  palette_ready cp ->
  ColorPalette.needsCpuUpdate gv1 cp = true ->
  1 <= x <= 4095 ->
  x <= ColorPalette.maxSmallId (ColorPalette.playerViews gv1) ->
  ColorPalette.maxSmallId (ColorPalette.playerViews gv2) < x ->
  0 <= row <= 5 ->
  ColorPalette.texel
    (ColorPalette.updateCpuData gv2 (ColorPalette.updateCpuData gv1 cp)) x row
  = Some (ColorPalette.rgba_bytes
            (ColorPalette.row_color (ColorPalette.theme gv1) row
               (ColorPalette.playerBySmallID gv1 x))).
Proof.
  intros Hready Hdirty Hx Hmax1 Hmax2 Hrow.
  rewrite updateCpuData_column_above_max;
    [ | apply updateCpuData_ready, Hready | lia | exact Hmax2 | lia ].
  apply texel_after_recompute; assumption.
Qed.

Lemma updateCpuData_stale_column_witness :
  ColorPalette.texel
    (ColorPalette.updateCpuData (example_game (example_theme 2 50) [1])
       (ColorPalette.updateCpuData (example_game (example_theme 1 0) [1; 2])
          (ColorPalette.init_fields ColorPalette.new))) 2 0
  = Some [20; 21; 22; 1].
Proof.
  apply (updateCpuData_stale_column
           (example_game (example_theme 1 0) [1; 2])
           (example_game (example_theme 2 50) [1])
           (ColorPalette.init_fields ColorPalette.new) 2 0);
    [ apply init_fields_ready | reflexivity | lia
    | vm_compute; discriminate | vm_compute; reflexivity | lia ].
Defined.
